(** * Task-management API: query, validation and cascade rules

    A shallow embedding of the two servers of the repository:

    - the modular server ([server/models/Task.js], [server/models/User.js],
      [server/middleware/validation.js], [server/routes/tasks.js]);
    - the single-file server (schemas, route handlers and global error
      handler in one file).

    Documents are records, collections are lists in insertion order, dates
    are milliseconds since the epoch ([Z]), object ids are their 24-digit
    hexadecimal strings.  A handler is a function from the store, the
    request and the clock reading to a response and a new store. *)

From Stdlib Require Import List String Ascii ZArith Lia Bool Permutation Arith.
From Stdlib Require Import DecimalString Sorted.
Import ListNotations.
Local Open Scope string_scope.
Local Open Scope Z_scope.

Set Implicit Arguments.

(* ================================================================== *)
(** * JavaScript values used by the handlers *)
(* ================================================================== *)

Module Js.

(** Characters removed by [String.prototype.trim] and skipped by
    [parseInt], restricted to the 7-bit range. *)
Definition isSpace (c : ascii) : bool :=
  let n := nat_of_ascii c in
  ((9 <=? n) && (n <=? 13))%nat || (n =? 32)%nat.

Definition isDigit (c : ascii) : bool :=
  let n := nat_of_ascii c in ((48 <=? n) && (n <=? 57))%nat.

Definition isHexDigit (c : ascii) : bool :=
  let n := nat_of_ascii c in
  isDigit c || ((65 <=? n) && (n <=? 70))%nat || ((97 <=? n) && (n <=? 102))%nat.

Definition digitVal (c : ascii) : Z := Z.of_nat (nat_of_ascii c) - 48.

Definition lowerChar (c : ascii) : ascii :=
  let n := nat_of_ascii c in
  if ((65 <=? n) && (n <=? 90))%nat then ascii_of_nat (n + 32) else c.

(** [s.toLowerCase()], on the 7-bit range. *)
Definition toLowerCase (s : string) : string :=
  string_of_list_ascii (map lowerChar (list_ascii_of_string s)).

Fixpoint dropWhile {A} (p : A -> bool) (l : list A) : list A :=
  match l with
  | [] => []
  | x :: r => if p x then dropWhile p r else l
  end.

Fixpoint takeWhile {A} (p : A -> bool) (l : list A) : list A :=
  match l with
  | [] => []
  | x :: r => if p x then x :: takeWhile p r else []
  end.

(** [s.trim()] *)
Definition trim (s : string) : string :=
  let l := dropWhile isSpace (list_ascii_of_string s) in
  string_of_list_ascii (rev (dropWhile isSpace (rev l))).

(** Truthiness of a string-or-undefined value: [if (x)]. *)
Definition truthy (x : option string) : bool :=
  match x with
  | None => false
  | Some s => negb (s =? "")%string
  end.

(** Truthiness of a value that is an object (a [Date]) or [undefined]. *)
Definition defined {A} (x : option A) : bool :=
  match x with Some _ => true | None => false end.

(** Destructuring default: [const { x = d } = obj]. *)
Definition orDefault (x : option string) (d : string) : string :=
  match x with Some s => s | None => d end.

Definition digitsVal (l : list ascii) : Z :=
  fold_left (fun acc c => 10 * acc + digitVal c) l 0.

(** An optional sign in front of a run of characters. *)
Definition signed (l : list ascii) : bool * list ascii :=
  match l with
  | c :: r =>
      if Ascii.eqb c "-" then (true, r)
      else if Ascii.eqb c "+" then (false, r)
      else (false, l)
  | [] => (false, [])
  end.

(** 2^53: every integer up to it in absolute value is a Number (a
    double), and the arithmetic of the language is exact on them. *)
Definition maxExact : Z := 9007199254740992.

(** The Number an integer becomes: itself up to [maxExact], beyond it the
    nearest double, the one with the even significand when two are as
    near.  (Infinity, beyond 2^1024, is not modelled.) *)
Definition number (n : Z) : Z :=
  let a := Z.abs n in
  if a <=? maxExact then n
  else
    let e := Z.log2 a - 52 in
    let q := Z.shiftr a e in
    let r := a - Z.shiftl q e in
    let half := Z.shiftl 1 (e - 1) in
    let q' :=
      if r <? half then q
      else if half <? r then q + 1
      else if Z.even q then q else q + 1 in
    Z.sgn n * Z.shiftl q' e.

(** [a - b] and [a * b] on Numbers that are integers. *)
Definition minus (a b : Z) : Z := number (a - b).
Definition times (a b : Z) : Z := number (a * b).

(** [parseInt(s)] in radix 10: leading blanks, an optional sign, then the
    longest run of digits, as a Number; [None] is NaN.  (The [0x] prefix
    is not modelled: no validated parameter carries it.  Beyond twenty
    digits the language lets an implementation round the digits before it
    rounds the number; the rounding here is that of the exact value.) *)
Definition parseInt (s : string) : option Z :=
  let '(neg, r) := signed (dropWhile isSpace (list_ascii_of_string s)) in
  match takeWhile isDigit r with
  | [] => None
  | ds => Some (number (if neg then - digitsVal ds else digitsVal ds))
  end.

(** The integer literals accepted by validator.js [isInt] with its
    default options: an optional sign, then one or more digits, leading
    zeroes allowed. *)
Definition intLiteral (s : string) : option Z :=
  let '(neg, r) := signed (list_ascii_of_string s) in
  match r with
  | [] => None
  | _ :: _ =>
      if forallb isDigit r
      then Some (if neg then - digitsVal r else digitsVal r)
      else None
  end.

Definition inRange (lo hi : option Z) (v : Z) : bool :=
  match lo with Some a => a <=? v | None => true end &&
  match hi with Some b => v <=? b | None => true end.

(** [isInt(s, { min, max })]; the bounds of the rule sets are small, so
    comparing the exact value is comparing the Number. *)
Definition isInt (lo hi : option Z) (s : string) : bool :=
  match intLiteral s with
  | Some v => inRange lo hi v
  | None => false
  end.

(** The strings the driver casts to an ObjectId: 24 hexadecimal
    digits. *)
Definition isObjectId (s : string) : bool :=
  (String.length s =? 24)%nat && forallb isHexDigit (list_ascii_of_string s).

Definition hexDigits (l : list ascii) : bool :=
  match l with
  | [] => false
  | _ :: _ => forallb isHexDigit l
  end.

(** validator.js [isHexadecimal(s)]: one or more hexadecimal digits after
    an optional [0x] or [0h], in either case. *)
Definition isHexadecimal (s : string) : bool :=
  let l := list_ascii_of_string s in
  match l with
  | z :: x :: r =>
      if Ascii.eqb z "0"
         && (Ascii.eqb (lowerChar x) "x" || Ascii.eqb (lowerChar x) "h")
      then hexDigits r
      else hexDigits l
  | _ => hexDigits l
  end.

(** validator.js [isMongoId(s)]: [isHexadecimal(s)] and 24 characters,
    the prefix among them. *)
Definition isMongoId (s : string) : bool :=
  isHexadecimal s && (String.length s =? 24)%nat.

(** [list.includes(s)] *)
Definition includes (l : list string) (s : string) : bool :=
  existsb (String.eqb s) l.

(** [Math.ceil(a / b)] for integers [a] and [b <> 0]. *)
Definition ceilDiv (a b : Z) : Z := - ((- a) / b).

End Js.

(* ================================================================== *)
(** * JSON payloads *)
(* ================================================================== *)

#[local] Unset Elimination Schemes.
Inductive JSON : Type :=
| JNull
| JBool (b : bool)
| JNum (n : Z)
| JStr (s : string)
| JArr (l : list JSON)
| JObj (fields : list (string * JSON)).
#[local] Set Elimination Schemes.

Module Obj.

Definition t := list (string * JSON).

(** [obj[k]]; [None] is [undefined]. *)
Fixpoint get (k : string) (o : t) : option JSON :=
  match o with
  | [] => None
  | (k', v) :: r => if (k' =? k)%string then Some v else get k r
  end.

(** [delete obj[k]] *)
Fixpoint delete (k : string) (o : t) : t :=
  match o with
  | [] => []
  | (k', v) :: r => if (k' =? k)%string then delete k r else (k', v) :: delete k r
  end.

(** An object literal with optional members: a member whose value is
    [undefined] is dropped by [JSON.stringify]. *)
Fixpoint ofOptions (l : list (string * option JSON)) : t :=
  match l with
  | [] => []
  | (k, Some v) :: r => (k, v) :: ofOptions r
  | (_, None) :: r => ofOptions r
  end.

Definition keys (o : t) : list string := map fst o.

End Obj.

(** The shape of every response body: [{ success, message?, errors?, data?,
    pagination? }] with its HTTP status.  [data] is kept typed; [errors]
    and [pagination] are the JSON the handler writes. *)
Module Http.

Record Response (D : Type) : Type := mkResponse {
  status : Z;
  success : bool;
  message : option string;
  errors : list JSON;
  data : option D;
  pagination : Obj.t
}.
Arguments mkResponse {D}.
Arguments status {D}.
Arguments success {D}.
Arguments message {D}.
Arguments errors {D}.
Arguments data {D}.
Arguments pagination {D}.

(** [res.status(code).json({ success: false, message })] *)
Definition failure {D} (code : Z) (m : string) : Response D :=
  mkResponse code false (Some m) [] None [].

End Http.

(* ================================================================== *)
(** * server/middleware/validation.js *)
(* ================================================================== *)

(** What the repository takes from its libraries without defining it:
    validator.js predicates on strings, [Date] parsing and the store's
    regular-expression match. *)
Class Library : Type := {
  (** [isISO8601(s)] *)
  isISO8601 : string -> bool;
  (** [new Date(s).getTime()]; [None] is an invalid date *)
  dateParse : string -> option Z;
  (** [isFloat(s, { min, max })] *)
  isFloat : option Z -> option Z -> string -> bool;
  (** [{ $regex: pattern, $options: 'i' }] applied to a string *)
  regexTestI : string -> string -> bool;
  (** whether the store compiles the pattern of a [$regex]; a query with
      a pattern it does not compile is rejected *)
  regexValid : string -> bool
}.

Module Validation.
Section Rules.
Context {L : Library}.

(** A request value: a string or an array of strings. *)
Inductive Raw : Type :=
| RStr (s : string)
| RArr (l : list string).

Definition rawJSON (v : option Raw) : option JSON :=
  match v with
  | None => None
  | Some (RStr s) => Some (JStr s)
  | Some (RArr l) => Some (JArr (map JStr l))
  end.

Inductive Location : Type := InBody | InParams | InQuery.

(** [req[location][name]]; [None] is [undefined]. *)
Definition Request : Type := Location -> string -> option Raw.

Inductive Validator : Type :=
| NotEmpty
| IsLength (min : nat) (max : option nat)
| IsIn (values : list string)
| IsISO8601
| IsMongoId
| IsFloat (min max : option Z)
| IsInt (min max : option Z)
| IsArray
| DueDateInFuture.

(** [body('f')] selects one value, [body('f.*')] every element of an
    array. *)
Inductive Selector : Type :=
| Field (name : string)
| Each (name : string).

Record Chain : Type := mkChain {
  location : Location;
  selector : Selector;
  isOptional : bool;
  checks : list (Validator * string)
}.

Record ValidationError : Type := mkError {
  path : string;
  msg : string;
  value : option Raw
}.

(** A standard validator on the string form of one value; [true] is
    acceptance. *)
Definition standard (now : Z) (v : Validator) (s : string) : bool :=
  match v with
  | NotEmpty => negb (s =? "")%string
  | IsLength lo hi =>
      let n := String.length s in
      (lo <=? n)%nat && match hi with Some h => (n <=? h)%nat | None => true end
  | IsIn values => Js.includes values s
  | IsISO8601 => isISO8601 s
  | IsMongoId => Js.isMongoId s
  | IsFloat lo hi => isFloat lo hi s
  | IsInt lo hi => Js.isInt lo hi s
  | IsArray => false
  | DueDateInFuture =>
      match dateParse s with
      | Some d => negb (d <=? now)
      | None => true
      end
  end.

(** The values one validator rejects.  [isArray] and the custom check
    see the value itself; a standard validator sees the string form of
    the value, or of each element when the value is an array, and
    [undefined] as the empty string. *)
Definition rejected (now : Z) (v : Validator) (x : option Raw) : list (option Raw) :=
  match v, x with
  | IsArray, Some (RArr _) => []
  | IsArray, _ => [x]
  | DueDateInFuture, Some (RArr l) =>
      if standard now v (String.concat "," l) then [] else [x]
  | _, Some (RArr l) =>
      map (fun e => Some (RStr e)) (filter (fun e => negb (standard now v e)) l)
  | _, Some (RStr s) => if standard now v s then [] else [x]
  | _, None => if standard now v "" then [] else [x]
  end.

Definition natString (n : nat) : string :=
  NilEmpty.string_of_uint (Nat.to_uint n).

Fixpoint indexed (name : string) (i : nat) (l : list string) : list (string * option Raw) :=
  match l with
  | [] => []
  | e :: r => (name ++ "[" ++ natString i ++ "]", Some (RStr e)) :: indexed name (S i) r
  end.

(** The field instances a selector finds in the request. *)
Definition instances (req : Request) (loc : Location) (s : Selector) : list (string * option Raw) :=
  match s with
  | Field n => [(n, req loc n)]
  | Each n =>
      match req loc n with
      | Some (RArr l) => indexed n 0 l
      | _ => []
      end
  end.

Definition runInstance (now : Z) (c : Chain) (inst : string * option Raw) : list ValidationError :=
  let '(p, x) := inst in
  match isOptional c, x with
  | true, None => []
  | _, _ =>
      flat_map (fun '(v, m) => map (fun r => mkError p m r) (rejected now v x)) (checks c)
  end.

Definition runChain (now : Z) (req : Request) (c : Chain) : list ValidationError :=
  flat_map (runInstance now c) (instances req (location c) (selector c)).

(** [validationResult(req).array()] after the chains of a rule set have
    run. *)
Definition validationResult (now : Z) (rules : list Chain) (req : Request) : list ValidationError :=
  flat_map (runChain now req) rules.

(** [{ field: error.path, message: error.msg, value: error.value }] *)
Definition errorJSON (e : ValidationError) : JSON :=
  JObj (Obj.ofOptions
          [("field", Some (JStr (path e)));
           ("message", Some (JStr (msg e)));
           ("value", rawJSON (value e))]).

(** [handleValidationErrors(req, res, next)]: [next] is the rest of the
    middleware chain, run on the store [st]. *)
Definition handleValidationErrors {D S : Type}
    (errs : list ValidationError) (next : S -> Http.Response D * S) (st : S)
  : Http.Response D * S :=
  match errs with
  | [] => next st
  | _ :: _ =>
      (Http.mkResponse 400 false (Some "Validation failed") (map errorJSON errs) None [], st)
  end.

Definition statusValues := ["pending"; "in-progress"; "completed"; "cancelled"].
Definition priorityValues := ["low"; "medium"; "high"; "urgent"].
Definition categoryValues :=
  ["work"; "personal"; "shopping"; "health"; "education"; "other"].
Definition sortFields := ["createdAt"; "updatedAt"; "dueDate"; "priority"; "title"].

Definition body (n : string) := mkChain InBody (Field n) false.
Definition bodyOptional (n : string) := mkChain InBody (Field n) true.
Definition bodyEachOptional (n : string) := mkChain InBody (Each n) true.
Definition param (n : string) := mkChain InParams (Field n) false.
Definition queryOptional (n : string) := mkChain InQuery (Field n) true.

Definition statusMessage := "Status must be pending, in-progress, completed, or cancelled".
Definition priorityMessage := "Priority must be low, medium, high, or urgent".
Definition categoryMessage :=
  "Category must be work, personal, shopping, health, education, or other".

(** The chains shared by [create] and [update], after [title]. *)
Definition commonBody (dueDateChecks : list (Validator * string)) : list Chain :=
  [ bodyOptional "description"
      [(IsLength 0 (Some 500%nat), "Description cannot exceed 500 characters")];
    bodyOptional "status" [(IsIn statusValues, statusMessage)];
    bodyOptional "priority" [(IsIn priorityValues, priorityMessage)];
    bodyOptional "category" [(IsIn categoryValues, categoryMessage)];
    bodyOptional "dueDate" dueDateChecks;
    bodyOptional "assignedTo"
      [(IsMongoId, "Assigned user ID must be a valid MongoDB ObjectId")];
    bodyOptional "tags" [(IsArray, "Tags must be an array")];
    bodyEachOptional "tags"
      [(IsLength 1 (Some 20%nat), "Each tag must be between 1 and 20 characters")];
    bodyOptional "estimatedHours"
      [(IsFloat (Some 0) (Some 1000), "Estimated hours must be between 0 and 1000")];
    bodyOptional "actualHours"
      [(IsFloat (Some 0) None, "Actual hours must be non-negative")] ].

Definition titleLength :=
  (IsLength 1 (Some 100%nat), "Title must be between 1 and 100 characters").

Definition idParam :=
  param "id" [(IsMongoId, "Task ID must be a valid MongoDB ObjectId")].

(** [taskValidationRules.create] *)
Definition create : list Chain :=
  body "title" [(NotEmpty, "Title is required"); titleLength]
  :: commonBody [(IsISO8601, "Due date must be a valid date");
                 (DueDateInFuture, "Due date must be in the future")].

(** [taskValidationRules.update] *)
Definition update : list Chain :=
  idParam
  :: bodyOptional "title" [(NotEmpty, "Title cannot be empty"); titleLength]
  :: commonBody [(IsISO8601, "Due date must be a valid date")].

(** [taskValidationRules.getById] *)
Definition getById : list Chain := [idParam].

(** [taskValidationRules.query] *)
Definition query : list Chain :=
  [ queryOptional "page" [(IsInt (Some 1) None, "Page must be a positive integer")];
    queryOptional "limit" [(IsInt (Some 1) (Some 100), "Limit must be between 1 and 100")];
    queryOptional "status" [(IsIn statusValues, statusMessage)];
    queryOptional "priority" [(IsIn priorityValues, priorityMessage)];
    queryOptional "category" [(IsIn categoryValues, categoryMessage)];
    queryOptional "assignedTo"
      [(IsMongoId, "Assigned user ID must be a valid MongoDB ObjectId")];
    queryOptional "sortBy"
      [(IsIn sortFields, "Sort field must be createdAt, updatedAt, dueDate, priority, or title")];
    queryOptional "sortOrder" [(IsIn ["asc"; "desc"], "Sort order must be asc or desc")] ].

End Rules.
End Validation.

(** An ObjectId is kept as its 24 hexadecimal digits. *)
Definition ObjectId : Type := string.

(** [Model.findById(id)] on a collection kept in insertion order, for an
    id in the spelling of the stored one. *)
Definition findById {A} (idOf : A -> ObjectId) (id : ObjectId) (l : list A) : option A :=
  find (fun d => (idOf d =? id)%string) l.

(** Two strings of hexadecimal digits are the same ObjectId: the driver
    reads the digits whatever their case. *)
Definition sameId (a b : string) : bool :=
  (Js.toLowerCase a =? Js.toLowerCase b)%string.

(** Casting a string of a request to an ObjectId, which prints in lower
    case; [None] is a [CastError]. *)
Definition castObjectId (s : string) : option ObjectId :=
  if Js.isObjectId s then Some (Js.toLowerCase s) else None.

Definition optJSON {A} (f : A -> JSON) (x : option A) : option JSON :=
  match x with Some a => Some (f a) | None => None end.

(* ================================================================== *)
(** * server/models/User.js *)
(* ================================================================== *)

Module UserModel.

Record Preferences : Type := mkPreferences {
  theme : string;
  notifyEmail : bool;
  notifyPush : bool;
  notifyTaskAssigned : bool;
  notifyTaskDue : bool;
  timezone : string
}.

Record User : Type := mkUser {
  _id : ObjectId;
  name : string;
  email : string;
  password : string;
  role : string;
  avatar : string;
  department : option string;
  position : option string;
  phone : option string;
  isActive : bool;
  lastLogin : option Z;
  preferences : Preferences;
  createdAt : Z;
  updatedAt : Z
}.

Definition toUpper (c : ascii) : ascii :=
  let n := nat_of_ascii c in
  if ((97 <=? n) && (n <=? 122))%nat then ascii_of_nat (n - 32) else c.

(** [s.split(' ')] on the characters of [s]. *)
Fixpoint split (l : list ascii) : list (list ascii) :=
  match l with
  | [] => [[]]
  | c :: r =>
      if (nat_of_ascii c =? 32)%nat then [] :: split r
      else match split r with
           | w :: ws => (c :: w) :: ws
           | [] => [[c]]
           end
  end.

(** The [initials] virtual:
    [this.name.split(' ').map(n => n[0]).join('').toUpperCase()]. *)
Definition initials (u : User) : string :=
  string_of_list_ascii
    (map toUpper
       (flat_map (fun w => match w with c :: _ => [c] | [] => [] end)
                 (split (list_ascii_of_string (name u))))).

(** The [displayName] virtual. *)
Definition displayName (u : User) : string := name u.

Definition preferencesJSON (p : Preferences) : JSON :=
  JObj [("theme", JStr (theme p));
        ("notifications",
         JObj [("email", JBool (notifyEmail p));
               ("push", JBool (notifyPush p));
               ("taskAssigned", JBool (notifyTaskAssigned p));
               ("taskDue", JBool (notifyTaskDue p))]);
        ("timezone", JStr (timezone p))].

(** The stored paths of a document loaded with every path selected. *)
Definition paths (u : User) : Obj.t :=
  Obj.ofOptions
    [("_id", Some (JStr (_id u)));
     ("name", Some (JStr (name u)));
     ("email", Some (JStr (email u)));
     ("password", Some (JStr (password u)));
     ("role", Some (JStr (role u)));
     ("avatar", Some (JStr (avatar u)));
     ("department", optJSON JStr (department u));
     ("position", optJSON JStr (position u));
     ("phone", optJSON JStr (phone u));
     ("isActive", Some (JBool (isActive u)));
     ("lastLogin", optJSON JNum (lastLogin u));
     ("preferences", Some (preferencesJSON (preferences u)));
     ("createdAt", Some (JNum (createdAt u)));
     ("updatedAt", Some (JNum (updatedAt u)))].

Definition virtuals (u : User) : Obj.t :=
  [("displayName", JStr (displayName u));
   ("initials", JStr (initials u));
   ("id", JStr (_id u))].

(** [doc.toObject()] with [{ virtuals: true }]. *)
Definition toObject (u : User) : Obj.t := (paths u ++ virtuals u)%list.

(** The [toJSON] transform of the schema:
    [function(doc, ret) { delete ret.password; return ret; }] *)
Definition transform (ret : Obj.t) : Obj.t := Obj.delete "password" ret.

(** [doc.toJSON()], what [res.json] writes for a user document. *)
Definition toJSON (u : User) : Obj.t := transform (toObject u).

(** [getPublicProfile()] *)
Definition getPublicProfile (u : User) : Obj.t :=
  Obj.delete "password" (toObject u).

(** A document loaded by [populate(path, 'name email')]: the selected
    paths and [_id], then [toJSON]. *)
Definition populated (u : User) : Obj.t :=
  transform
    (filter (fun kv => Js.includes ["_id"; "name"; "email"] (fst kv)) (paths u)
     ++ virtuals u)%list.

(** [populate] of a reference against the user collection: an absent
    reference stays absent, a dangling one becomes [null]. *)
Definition populate (users : list User) (ref : option ObjectId) : option JSON :=
  match ref with
  | None => None
  | Some id =>
      match findById _id id users with
      | Some u => Some (JObj (populated u))
      | None => Some JNull
      end
  end.

End UserModel.

(* ================================================================== *)
(** * server/models/Task.js *)
(* ================================================================== *)

Module TaskModel.

(** A task document.  [createdBy] is what the constructor is handed
    under that name; [taskSchema] declares no such path (see [paths]), so
    no document built by the routes has one. *)
Record Task : Type := mkTask {
  _id : ObjectId;
  title : string;
  description : option string;
  status : string;
  priority : string;
  category : string;
  dueDate : option Z;
  assignedTo : option ObjectId;
  tags : list string;
  completedAt : option Z;
  createdBy : option ObjectId;
  createdAt : Z;
  updatedAt : Z
}.

(** The paths [taskSchema] declares, with those its [timestamps] option
    adds. *)
Definition paths : list string :=
  ["title"; "description"; "status"; "priority"; "category"; "dueDate"; "assignedTo";
   "tags"; "attachments"; "completedAt"; "estimatedHours"; "actualHours";
   "createdAt"; "updatedAt"].

Definition statusValues := ["pending"; "in-progress"; "completed"; "cancelled"].
Definition priorityValues := ["low"; "medium"; "high"; "urgent"].
Definition categoryValues :=
  ["work"; "personal"; "shopping"; "health"; "education"; "other"].

Definition maxlength (n : nat) (s : string) : bool := (String.length s <=? n)%nat.

(** The [dueDate] validator: [!date || date > new Date()]. *)
Definition dueDateValidator (now : Z) (date : option Z) : bool :=
  match date with
  | None => true
  | Some d => now <? d
  end.

(** The schema validators of the paths written by the routes; [None] is
    a path that is not set.  [required] rejects an empty title. *)
Definition validPaths (now : Z)
    (title description status priority category : option string)
    (dueDate : option Z) (tags : option (list string)) : bool :=
  match title with
  | Some s => negb (s =? "")%string && maxlength 100 s
  | None => true
  end
  && match description with Some s => maxlength 500 s | None => true end
  && match status with Some s => Js.includes statusValues s | None => true end
  && match priority with Some s => Js.includes priorityValues s | None => true end
  && match category with Some s => Js.includes categoryValues s | None => true end
  && dueDateValidator now dueDate
  && match tags with Some l => forallb (maxlength 20) l | None => true end.

(** The [isOverdue] virtual:
    [this.dueDate && this.dueDate < new Date() && this.status !== 'completed'].
    The result of [&&] is its first falsy operand: [None] is the
    [undefined] of a task without due date. *)
Definition isOverdue (now : Z) (t : Task) : option bool :=
  match dueDate t with
  | None => None
  | Some d =>
      if d <? now then Some (negb (status t =? "completed")%string)
      else Some false
  end.

(** The [ageInDays] virtual. *)
Definition ageInDays (now : Z) (t : Task) : Z :=
  (now - createdAt t) / (1000 * 60 * 60 * 24).

Definition setCompletedAt (v : option Z) (t : Task) : Task :=
  mkTask (_id t) (title t) (description t) (status t) (priority t) (category t)
         (dueDate t) (assignedTo t) (tags t) v (createdBy t) (createdAt t)
         (updatedAt t).

(** The [pre('save')] hook; [statusModified] is [this.isModified('status')]. *)
Definition preSave (now : Z) (statusModified : bool) (t : Task) : Task :=
  if statusModified then
    if (status t =? "completed")%string && negb (Js.defined (completedAt t))
    then setCompletedAt (Some now) t
    else if negb (status t =? "completed")%string && Js.defined (completedAt t)
         then setCompletedAt None t
         else t
  else t.

(** The document as [res.json] writes it ([toJSON] with virtuals), once
    its references are populated. *)
Record TaskOut : Type := mkTaskOut {
  doc : Task;
  assignedToOut : option JSON;
  createdByOut : option JSON;
  ageInDaysOut : Z;
  isOverdueOut : option bool
}.

Definition toJSON (o : TaskOut) : Obj.t :=
  let t := doc o in
  Obj.ofOptions
    [("_id", Some (JStr (_id t)));
     ("title", Some (JStr (title t)));
     ("description", optJSON JStr (description t));
     ("status", Some (JStr (status t)));
     ("priority", Some (JStr (priority t)));
     ("category", Some (JStr (category t)));
     ("dueDate", optJSON JNum (dueDate t));
     ("assignedTo", assignedToOut o);
     ("tags", Some (JArr (map JStr (tags t))));
     ("attachments", Some (JArr []));
     ("completedAt", optJSON JNum (completedAt t));
     ("createdBy", createdByOut o);
     ("createdAt", Some (JNum (createdAt t)));
     ("updatedAt", Some (JNum (updatedAt t)));
     ("__v", Some (JNum 0));
     ("ageInDays", Some (JNum (ageInDaysOut o)));
     ("isOverdue", optJSON JBool (isOverdueOut o));
     ("id", Some (JStr (_id t)))].

(** The record with both references populated, were both [populate]
    calls of the routes to return; [populated] below says whether they
    do. *)
Definition output (now : Z) (users : list UserModel.User) (t : Task) : TaskOut :=
  mkTaskOut t
    (UserModel.populate users (assignedTo t))
    (UserModel.populate users (createdBy t))
    (ageInDays now t)
    (isOverdue now t).

(** [populate(path, 'name email')] on a document that was found or
    saved.  The schema leaves [strictPopulate] at its default, so a path
    it does not declare is refused with a [StrictPopulateError]: the
    [None] of the result. *)
Definition populate (path : string) (users : list UserModel.User)
    (ref : option ObjectId) : option (option JSON) :=
  if Js.includes paths path then Some (UserModel.populate users ref) else None.

(** [.populate('assignedTo', 'name email').populate('createdBy', 'name email')],
    the two calls every route that answers with a task makes, in this
    order; [None] when one of them is refused. *)
Definition populated (now : Z) (users : list UserModel.User) (t : Task) : option TaskOut :=
  match populate "assignedTo" users (assignedTo t) with
  | Some a =>
      match populate "createdBy" users (createdBy t) with
      | Some c => Some (mkTaskOut t a c (ageInDays now t) (isOverdue now t))
      | None => None
      end
  | None => None
  end.

(** The documents of a query result, populated; an empty result is
    populated by no call. *)
Fixpoint populatedAll (now : Z) (users : list UserModel.User) (l : list Task)
  : option (list TaskOut) :=
  match l with
  | [] => Some []
  | t :: r =>
      match populated now users t, populatedAll now users r with
      | Some o, Some os => Some (o :: os)
      | _, _ => None
      end
  end.

End TaskModel.

(* ================================================================== *)
(** * server/routes/tasks.js *)
(* ================================================================== *)

(** The handlers of the routes.  Three routes ([GET /:id], [DELETE /:id]
    and [PATCH /:id/status]) name rule sets, [taskValidationRules.params]
    and [taskValidationRules.status], that validation.js does not define:
    of these routes the handlers are modelled, the middleware in front of
    them is not.  A handler takes the id of a task in the spelling of the
    stored one. *)
Module TaskRoutes.

Import Validation.

(** [req.query] of the list route. *)
Module Query.
Record t : Type := mk {
  page : option string;
  limit : option string;
  status : option string;
  priority : option string;
  category : option string;
  assignedTo : option string;
  search : option string;
  sortBy : option string;
  sortOrder : option string;
  overdue : option string
}.

Definition get (q : t) (n : string) : option string :=
  if (n =? "page")%string then page q
  else if (n =? "limit")%string then limit q
  else if (n =? "status")%string then status q
  else if (n =? "priority")%string then priority q
  else if (n =? "category")%string then category q
  else if (n =? "assignedTo")%string then assignedTo q
  else if (n =? "search")%string then search q
  else if (n =? "sortBy")%string then sortBy q
  else if (n =? "sortOrder")%string then sortOrder q
  else if (n =? "overdue")%string then overdue q
  else None.
End Query.

(** [req.body] of the create and update routes. *)
Module Body.
Record t : Type := mk {
  title : option string;
  description : option string;
  status : option string;
  priority : option string;
  category : option string;
  assignedTo : option string;
  dueDate : option string;
  tags : option Raw;
  estimatedHours : option string;
  actualHours : option string
}.

Definition get (b : t) (n : string) : option Raw :=
  if (n =? "title")%string then option_map RStr (title b)
  else if (n =? "description")%string then option_map RStr (description b)
  else if (n =? "status")%string then option_map RStr (status b)
  else if (n =? "priority")%string then option_map RStr (priority b)
  else if (n =? "category")%string then option_map RStr (category b)
  else if (n =? "assignedTo")%string then option_map RStr (assignedTo b)
  else if (n =? "dueDate")%string then option_map RStr (dueDate b)
  else if (n =? "tags")%string then tags b
  else if (n =? "estimatedHours")%string then option_map RStr (estimatedHours b)
  else if (n =? "actualHours")%string then option_map RStr (actualHours b)
  else None.

Definition empty : t := mk None None None None None None None None None None.
End Body.

(** The query object handed to [Task.find] and [Task.countDocuments]. *)
Module Filter.
(** ['s'] and [{ $ne: 's' }] *)
Inductive StatusCond : Type :=
| Equals (s : string)
| NotEquals (s : string).

Record t : Type := mk {
  status : option StatusCond;
  priority : option string;
  category : option string;
  assignedTo : option string;
  (** [$or] of the two [$regex] clauses on title and description *)
  search : option string;
  (** [dueDate: { $lt: d }] *)
  dueDateBefore : option Z
}.

Definition empty : t := mk None None None None None None.

Definition setStatus (c : StatusCond) (f : t) : t :=
  mk (Some c) (priority f) (category f) (assignedTo f) (search f) (dueDateBefore f).
Definition setPriority (s : string) (f : t) : t :=
  mk (status f) (Some s) (category f) (assignedTo f) (search f) (dueDateBefore f).
Definition setCategory (s : string) (f : t) : t :=
  mk (status f) (priority f) (Some s) (assignedTo f) (search f) (dueDateBefore f).
Definition setAssignedTo (s : string) (f : t) : t :=
  mk (status f) (priority f) (category f) (Some s) (search f) (dueDateBefore f).
Definition setSearch (s : string) (f : t) : t :=
  mk (status f) (priority f) (category f) (assignedTo f) (Some s) (dueDateBefore f).
Definition setDueDateBefore (d : Z) (f : t) : t :=
  mk (status f) (priority f) (category f) (assignedTo f) (search f) (Some d).
End Filter.

Record Store : Type := mkStore {
  tasks : list TaskModel.Task;
  users : list UserModel.User
}.

Inductive Data : Type :=
| One (t : TaskModel.TaskOut)
| Many (l : list TaskModel.TaskOut).

Definition Response : Type := Http.Response Data.

(** The value a sort compares: a missing path sorts before numbers,
    numbers before strings. *)
Inductive SortKey : Type :=
| KNull
| KNum (n : Z)
| KStr (s : string).

Definition sortKey (field : string) (t : TaskModel.Task) : SortKey :=
  if (field =? "createdAt")%string then KNum (TaskModel.createdAt t)
  else if (field =? "updatedAt")%string then KNum (TaskModel.updatedAt t)
  else if (field =? "dueDate")%string then
    match TaskModel.dueDate t with Some d => KNum d | None => KNull end
  else if (field =? "priority")%string then KStr (TaskModel.priority t)
  else if (field =? "title")%string then KStr (TaskModel.title t)
  else KNull.

Definition keyLe (a b : SortKey) : bool :=
  match a, b with
  | KNull, _ => true
  | KNum _, KNull => false
  | KNum x, KNum y => x <=? y
  | KNum _, KStr _ => true
  | KStr x, KStr y => String.leb x y
  | KStr _, _ => false
  end.

Fixpoint insert {A} (le : A -> A -> bool) (x : A) (l : list A) : list A :=
  match l with
  | [] => [x]
  | y :: r => if le x y then x :: l else y :: insert le x r
  end.

(** [.sort({ [field]: dir })]; documents with equal keys keep their
    collection order. *)
Definition sortTasks (field : string) (dir : Z) (l : list TaskModel.Task)
  : list TaskModel.Task :=
  let le a b :=
    if dir =? 1 then keyLe (sortKey field a) (sortKey field b)
    else keyLe (sortKey field b) (sortKey field a) in
  fold_right (insert le) [] l.

(** [l.slice(skip, skip + limit)] of the sorted matches:
    [.skip(skip).limit(limit)]. *)
Definition window {A} (skip limit : Z) (l : list A) : list A :=
  firstn (Z.to_nat limit) (skipn (Z.to_nat skip) l).

Definition whenTruthy {A} (x : option string) (f : string -> A -> A) (a : A) : A :=
  match x with
  | Some s => if negb (s =? "")%string then f s a else a
  | None => a
  end.

(** The query object of the list route, built in the order of the
    source: the equality filters, the search, then the overdue filter,
    whose assignment to [query.status] replaces an earlier one. *)
Definition buildQuery (now : Z) (q : Query.t) : Filter.t :=
  let query := Filter.empty in
  let query := whenTruthy (Query.status q) (fun s => Filter.setStatus (Filter.Equals s)) query in
  let query := whenTruthy (Query.priority q) Filter.setPriority query in
  let query := whenTruthy (Query.category q) Filter.setCategory query in
  let query := whenTruthy (Query.assignedTo q) Filter.setAssignedTo query in
  let query := whenTruthy (Query.search q) Filter.setSearch query in
  match Query.overdue q with
  | Some o =>
      if (o =? "true")%string
      then Filter.setStatus (Filter.NotEquals "completed")
             (Filter.setDueDateBefore now query)
      else query
  | None => query
  end.

(** The chained query [Task.find(query).sort(..).skip(..).limit(..)]. *)
Record Plan : Type := mkPlan {
  filterOf : Filter.t;
  sortField : string;
  sortDir : Z;
  skip : Z;
  limit : Z
}.

Definition queryRequest (q : Query.t) : Request :=
  fun loc n =>
    match loc with
    | InQuery => option_map RStr (Query.get q n)
    | _ => None
    end.

Definition request (id : string) (b : Body.t) : Request :=
  fun loc n =>
    match loc with
    | InParams => if (n =? "id")%string then Some (RStr id) else None
    | InBody => Body.get b n
    | InQuery => None
    end.

Section Handlers.
Context {L : Library}.

Definition optEq (want : option string) (have : string) : bool :=
  match want with
  | Some s => (have =? s)%string
  | None => true
  end.

(** A document satisfies the query object. *)
Definition matches (f : Filter.t) (t : TaskModel.Task) : bool :=
  match Filter.status f with
  | None => true
  | Some (Filter.Equals s) => (TaskModel.status t =? s)%string
  | Some (Filter.NotEquals s) => negb (TaskModel.status t =? s)%string
  end
  && optEq (Filter.priority f) (TaskModel.priority t)
  && optEq (Filter.category f) (TaskModel.category t)
  && match Filter.assignedTo f with
     | None => true
     | Some id =>
         match TaskModel.assignedTo t with
         | Some a => sameId a id
         | None => false
         end
     end
  && match Filter.search f with
     | None => true
     | Some p =>
         regexTestI p (TaskModel.title t)
         || match TaskModel.description t with
            | Some d => regexTestI p d
            | None => false
            end
     end
  && match Filter.dueDateBefore f with
     | None => true
     | Some n =>
         match TaskModel.dueDate t with
         | Some d => d <? n
         | None => false
         end
     end.

(** A query object that [Task.find] rejects: its [assignedTo] does not
    cast to an ObjectId, or the store does not compile the pattern of its
    [$regex]. *)
Definition rejectedQuery (f : Filter.t) : bool :=
  match Filter.assignedTo f with
  | Some id => negb (Js.isObjectId id)
  | None => false
  end
  || match Filter.search f with
     | Some p => negb (regexValid p)
     | None => false
     end.

(** [Task.countDocuments(query)] *)
Definition countDocuments (f : Filter.t) (l : list TaskModel.Task) : Z :=
  Z.of_nat (List.length (filter (matches f) l)).

(** Running a chained query on the collection. *)
Definition exec (p : Plan) (l : list TaskModel.Task) : list TaskModel.Task :=
  window (skip p) (limit p)
    (sortTasks (sortField p) (sortDir p) (filter (matches (filterOf p)) l)).

(** The chained query of the list route, with
    [skip = (parseInt(page) - 1) * parseInt(limit)] computed on Numbers;
    [None] when [parseInt] of the page or the limit is NaN, which the
    route's validation excludes. *)
Definition listPlan (now : Z) (q : Query.t) : option Plan :=
  let page := Js.orDefault (Query.page q) "1" in
  let limit := Js.orDefault (Query.limit q) "10" in
  let sortBy := Js.orDefault (Query.sortBy q) "createdAt" in
  let sortOrder := Js.orDefault (Query.sortOrder q) "desc" in
  match Js.parseInt page, Js.parseInt limit with
  | Some p, Some l =>
      Some (mkPlan (buildQuery now q) sortBy
                   (if (sortOrder =? "asc")%string then 1 else -1)
                   (Js.times (Js.minus p 1) l) l)
  | _, _ => None
  end.

Definition paginationJSON (page total l : Z) : Obj.t :=
  let totalPages := Js.ceilDiv total l in
  [("currentPage", JNum page);
   ("totalPages", JNum totalPages);
   ("totalTasks", JNum total);
   ("hasNextPage", JBool (page <? totalPages));
   ("hasPrevPage", JBool (1 <? page))].

(** The handler of [GET /api/tasks]: the query is run and its result
    populated, then the matches are counted; whatever is thrown on the way
    is answered by the [catch] block. *)
Definition listHandler (now : Z) (q : Query.t) (st : Store) : Response * Store :=
  match listPlan now q, Js.parseInt (Js.orDefault (Query.page q) "1") with
  | Some plan, Some page =>
      if rejectedQuery (filterOf plan)
      then (Http.failure 500 "Server error while fetching tasks", st)
      else
        match TaskModel.populatedAll now (users st) (exec plan (tasks st)) with
        | Some found =>
            let total := countDocuments (filterOf plan) (tasks st) in
            (Http.mkResponse 200 true None [] (Some (Many found))
               (paginationJSON page total (limit plan)), st)
        | None => (Http.failure 500 "Server error while fetching tasks", st)
        end
  | _, _ => (Http.failure 500 "Server error while fetching tasks", st)
  end.

(** [GET /api/tasks] *)
Definition getTasks (now : Z) (q : Query.t) (st : Store) : Response * Store :=
  handleValidationErrors
    (validationResult now Validation.query (queryRequest q))
    (listHandler now q) st.

(** The handler of [GET /api/tasks/:id]: a document that is found is
    populated before it is tested. *)
Definition getHandler (now : Z) (id : string) (st : Store) : Response * Store :=
  match findById TaskModel._id id (tasks st) with
  | None => (Http.failure 404 "Task not found", st)
  | Some t =>
      match TaskModel.populated now (users st) t with
      | Some out => (Http.mkResponse 200 true None [] (Some (One out)) [], st)
      | None => (Http.failure 500 "Server error while fetching task", st)
      end
  end.

(** Casting the body to the schema types.  The outer [None] is a
    [CastError].  String paths with [trim: true] are trimmed. *)
Definition castDate (x : option string) : option (option Z) :=
  match x with
  | None => Some None
  | Some s =>
      match dateParse s with
      | Some d => Some (Some d)
      | None => None
      end
  end.

Definition castTags (x : option Raw) : option (list string) :=
  match x with
  | None => None
  | Some (RArr l) => Some (map Js.trim l)
  | Some (RStr s) => Some [Js.trim s]
  end.

Definition castRef (x : option string) : option (option ObjectId) :=
  match x with
  | None => Some None
  | Some s =>
      match castObjectId s with
      | Some id => Some (Some id)
      | None => None
      end
  end.

Definition orElse {A} (x : option A) (d : A) : A :=
  match x with Some a => a | None => d end.

(** [new Task({ ... })] followed by the validation and the hooks of
    [save()]: schema defaults, the path validators, the [pre('save')]
    hook (the status was set, so it counts as modified) and the
    timestamps.  [None] when [save()] rejects. *)
Definition newTask (now : Z) (newId : ObjectId) (b : Body.t) : option TaskModel.Task :=
  let status := Js.orDefault (Body.status b) "pending" in
  let priority := Js.orDefault (Body.priority b) "medium" in
  let title := option_map Js.trim (Body.title b) in
  let description := option_map Js.trim (Body.description b) in
  let tags := castTags (Body.tags b) in
  match castDate (Body.dueDate b), castRef (Body.assignedTo b), title with
  | Some dueDate, Some assignedTo, Some ti =>
      if TaskModel.validPaths now title description (Some status) (Some priority)
           (Body.category b) dueDate tags
      then Some (TaskModel.preSave now true
                   (TaskModel.mkTask newId ti description status priority
                      (Js.orDefault (Body.category b) "other")
                      dueDate assignedTo (orElse tags []) None None now now))
      else None
  | _, _, _ => None
  end.

(** [User.findById(assignedTo)] casts the id it is given: [true] when the
    reference is given and is not the 24 digits of an ObjectId, a
    [CastError] that the [catch] block of the handler answers. *)
Definition assignedUncastable (assignedTo : option string) : bool :=
  match assignedTo with
  | Some id => negb (id =? "")%string && negb (Js.isObjectId id)
  | None => false
  end.

(** [if (assignedTo) { const user = await User.findById(assignedTo);
    if (!user) ... }]: [true] when the reference is given and dangling. *)
Definition assignedUserMissing (st : Store) (assignedTo : option string) : bool :=
  match assignedTo with
  | Some id =>
      negb (id =? "")%string
      && negb (existsb (fun u => sameId (UserModel._id u) id) (users st))
  | None => false
  end.

(** The handler of [POST /api/tasks]; [newId] is the id the driver
    generates for the new document.  The document is saved, then
    populated. *)
Definition createHandler (now : Z) (newId : ObjectId) (b : Body.t) (st : Store)
  : Response * Store :=
  if assignedUncastable (Body.assignedTo b)
  then (Http.failure 500 "Server error while creating task", st)
  else if assignedUserMissing st (Body.assignedTo b)
  then (Http.failure 400 "Assigned user not found", st)
  else
    match newTask now newId b, findById TaskModel._id newId (tasks st) with
    | Some t, None =>
        let st' := mkStore (tasks st ++ [t]) (users st) in
        match TaskModel.populated now (users st') t with
        | Some out =>
            (Http.mkResponse 201 true (Some "Task created successfully") []
               (Some (One out)) [], st')
        | None => (Http.failure 500 "Server error while creating task", st')
        end
    | _, _ => (Http.failure 500 "Server error while creating task", st)
    end.

(** [POST /api/tasks] *)
Definition createTask (now : Z) (newId : ObjectId) (b : Body.t) (st : Store)
  : Response * Store :=
  handleValidationErrors
    (validationResult now Validation.create (request "" b))
    (createHandler now newId b) st.

Fixpoint replaceById (id : ObjectId) (new : TaskModel.Task) (l : list TaskModel.Task)
  : list TaskModel.Task :=
  match l with
  | [] => []
  | d :: r =>
      if (TaskModel._id d =? id)%string then new :: r
      else d :: replaceById id new r
  end.

Fixpoint removeById (id : ObjectId) (l : list TaskModel.Task) : list TaskModel.Task :=
  match l with
  | [] => []
  | d :: r =>
      if (TaskModel._id d =? id)%string then r
      else d :: removeById id r
  end.

Definition orKeep {A} (new : option A) (old : option A) : option A :=
  match new with Some _ => new | None => old end.

(** The [$set] of the update route: a key whose value is [undefined] is
    left out of the update. *)
Definition applyUpdate (now : Z) (t : TaskModel.Task)
    (title description status priority category : option string)
    (assignedTo : option ObjectId) (dueDate : option Z) (tags : option (list string))
  : TaskModel.Task :=
  TaskModel.mkTask (TaskModel._id t)
    (orElse title (TaskModel.title t))
    (orKeep description (TaskModel.description t))
    (orElse status (TaskModel.status t))
    (orElse priority (TaskModel.priority t))
    (orElse category (TaskModel.category t))
    (orKeep dueDate (TaskModel.dueDate t))
    (orKeep assignedTo (TaskModel.assignedTo t))
    (orElse tags (TaskModel.tags t))
    (TaskModel.completedAt t)
    (TaskModel.createdBy t)
    (TaskModel.createdAt t)
    now.

(** The handler of [PUT /api/tasks/:id]: [findByIdAndUpdate] with
    [runValidators], which runs no [save] hook.  The update is written,
    then the document it returns is populated. *)
Definition updateHandler (now : Z) (id : string) (b : Body.t) (st : Store)
  : Response * Store :=
  match findById TaskModel._id id (tasks st) with
  | None => (Http.failure 404 "Task not found", st)
  | Some task =>
      if assignedUncastable (Body.assignedTo b)
      then (Http.failure 500 "Server error while updating task", st)
      else if assignedUserMissing st (Body.assignedTo b)
      then (Http.failure 400 "Assigned user not found", st)
      else
        let title := option_map Js.trim (Body.title b) in
        let description := option_map Js.trim (Body.description b) in
        let tags := castTags (Body.tags b) in
        match castDate (Body.dueDate b), castRef (Body.assignedTo b) with
        | Some dueDate, Some assignedTo =>
            if TaskModel.validPaths now title description (Body.status b)
                 (Body.priority b) (Body.category b) dueDate tags
            then
              let updated :=
                applyUpdate now task title description (Body.status b)
                  (Body.priority b) (Body.category b) assignedTo dueDate tags in
              let st' := mkStore (replaceById id updated (tasks st)) (users st) in
              match TaskModel.populated now (users st') updated with
              | Some out =>
                  (Http.mkResponse 200 true (Some "Task updated successfully") []
                     (Some (One out)) [], st')
              | None => (Http.failure 500 "Server error while updating task", st')
              end
            else (Http.failure 500 "Server error while updating task", st)
        | _, _ => (Http.failure 500 "Server error while updating task", st)
        end
  end.

(** [PUT /api/tasks/:id] *)
Definition updateTask (now : Z) (id : string) (b : Body.t) (st : Store)
  : Response * Store :=
  handleValidationErrors
    (validationResult now Validation.update (request id b))
    (updateHandler now id b) st.

(** The update document of the status route:
    [{ status, updatedAt: new Date(),
       ...(status === 'completed' && { completedAt: new Date() }) }]. *)
Definition applyStatus (now : Z) (t : TaskModel.Task) (status : option string)
  : TaskModel.Task :=
  TaskModel.mkTask (TaskModel._id t) (TaskModel.title t) (TaskModel.description t)
    (orElse status (TaskModel.status t))
    (TaskModel.priority t) (TaskModel.category t) (TaskModel.dueDate t)
    (TaskModel.assignedTo t) (TaskModel.tags t)
    (match status with
     | Some s => if (s =? "completed")%string then Some now else TaskModel.completedAt t
     | None => TaskModel.completedAt t
     end)
    (TaskModel.createdBy t) (TaskModel.createdAt t) now.

(** The handler of [PATCH /api/tasks/:id/status]: the update is written,
    then the document it returns is populated. *)
Definition statusHandler (now : Z) (id : string) (b : Body.t) (st : Store)
  : Response * Store :=
  match findById TaskModel._id id (tasks st) with
  | None => (Http.failure 404 "Task not found", st)
  | Some task =>
      if TaskModel.validPaths now None None (Body.status b) None None None None
      then
        let updated := applyStatus now task (Body.status b) in
        let st' := mkStore (replaceById id updated (tasks st)) (users st) in
        match TaskModel.populated now (users st') updated with
        | Some out =>
            (Http.mkResponse 200 true (Some "Task status updated successfully") []
               (Some (One out)) [], st')
        | None => (Http.failure 500 "Server error while updating task status", st')
        end
      else (Http.failure 500 "Server error while updating task status", st)
  end.

(** The handler of [DELETE /api/tasks/:id]. *)
Definition deleteHandler (id : string) (st : Store) : Response * Store :=
  match findById TaskModel._id id (tasks st) with
  | None => (Http.failure 404 "Task not found", st)
  | Some _ =>
      (Http.mkResponse 200 true (Some "Task deleted successfully") [] None [],
       mkStore (removeById id (tasks st)) (users st))
  end.

(** The invariant of the data model on one document. *)
Definition completedAtInvariant (t : TaskModel.Task) : Prop :=
  TaskModel.completedAt t <> None <-> TaskModel.status t = "completed".

End Handlers.
End TaskRoutes.

(* ================================================================== *)
(** * The single-file server *)
(* ================================================================== *)

Module Server.

Module User.
Record t : Type := mk {
  _id : ObjectId;
  username : string;
  email : string;
  password : string;
  createdAt : Z;
  isActive : bool
}.

(** The stored paths of the document. *)
Definition paths (u : t) : Obj.t :=
  [("_id", JStr (_id u));
   ("username", JStr (username u));
   ("email", JStr (email u));
   ("password", JStr (password u));
   ("createdAt", JNum (createdAt u));
   ("isActive", JBool (isActive u));
   ("__v", JNum 0)].
End User.

Module Task.
Record t : Type := mk {
  _id : ObjectId;
  title : string;
  description : option string;
  priority : string;
  status : string;
  dueDate : option Z;
  userId : ObjectId;
  createdAt : Z;
  updatedAt : Z
}.
End Task.

Module Category.
Record t : Type := mk {
  _id : ObjectId;
  name : string;
  description : option string;
  color : string;
  createdAt : Z
}.
End Category.

Module Project.
Record t : Type := mk {
  _id : ObjectId;
  name : string;
  description : option string;
  status : string;
  startDate : Z;
  endDate : option Z;
  userId : ObjectId;
  tasks : list ObjectId;
  createdAt : Z
}.
End Project.

Record Store : Type := mkStore {
  users : list User.t;
  tasks : list Task.t;
  categories : list Category.t;
  projects : list Project.t
}.

(** What a rejected store operation carries to the global error
    handler. *)
Inductive Err : Type :=
| CastError
| ValidationError (messages : list string)
| DuplicateKey (field : string)
| MongoServerError.

Inductive Outcome (A : Type) : Type :=
| Return (a : A)
| Throw (e : Err).
Arguments Return {A}.
Arguments Throw {A}.

(** An [async] function on the store: it returns or throws, and keeps
    the writes made before a throw. *)
Definition M (A : Type) : Type := Store -> Outcome A * Store.

Definition ret {A} (a : A) : M A := fun st => (Return a, st).
Definition throw {A} (e : Err) : M A := fun st => (Throw e, st).
Definition bind {A B} (m : M A) (k : A -> M B) : M B :=
  fun st =>
    match m st with
    | (Return a, st') => k a st'
    | (Throw e, st') => (Throw e, st')
    end.
Definition gets {A} (f : Store -> A) : M A := fun st => (Return (f st), st).
Definition modify (f : Store -> Store) : M unit := fun st => (Return tt, f st).

Declare Scope async_scope.
Delimit Scope async_scope with async.
Notation "x <- m ;; k" := (bind m (fun x => k))
  (at level 61, m at next level, right associativity) : async_scope.
Notation "m ;; k" := (bind m (fun _ => k))
  (at level 61, right associativity) : async_scope.
Local Open Scope async_scope.

(** A task as [res.json] writes it, [userId] populated with
    ['username email']. *)
Record TaskOut : Type := mkTaskOut {
  doc : Task.t;
  userOut : JSON
}.

Record ProjectOut : Type := mkProjectOut {
  projectDoc : Project.t;
  ownerOut : JSON
}.

Inductive Data : Type :=
| UserData (u : Obj.t)
| UsersData (l : list Obj.t)
| TaskData (t : TaskOut)
| TasksData (l : list TaskOut)
| ProjectsData (l : list ProjectOut).

Definition Response : Type := Http.Response Data.

(** The id strings the driver casts to an [ObjectId]. *)
Definition castable (id : string) : bool := Js.isObjectId id.

(** The global error handler. *)
Definition errorHandler (e : Err) : Response :=
  match e with
  | ValidationError messages =>
      Http.mkResponse 400 false (Some "Validation Error") (map JStr messages) None []
  | DuplicateKey field =>
      Http.failure 400 (field ++ " already exists")
  | _ => Http.failure 500 "Internal Server Error"
  end.

(** [asyncHandler(fn)]: a rejection goes to the global error handler. *)
Definition asyncHandler (h : M Response) (st : Store) : Response * Store :=
  match h st with
  | (Return r, st') => (r, st')
  | (Throw e, st') => (errorHandler e, st')
  end.

(** ** Collections *)

(** The cast of the id of a request; a string that is no ObjectId is a
    [CastError].  The driver reads the digits whatever their case; the id
    is kept as the request spells it, so [findById] finds a document
    under the spelling of its stored id. *)
Definition castId (id : string) : M ObjectId :=
  if castable id then ret id else throw CastError.

Definition User_findById (id : string) : M (option User.t) :=
  oid <- castId id ;;
  gets (fun st => findById User._id oid (users st)).

Fixpoint removeFirst {A} (p : A -> bool) (l : list A) : list A :=
  match l with
  | [] => []
  | d :: r => if p d then r else d :: removeFirst p r
  end.

Definition setUsers (l : list User.t) (st : Store) : Store :=
  mkStore l (tasks st) (categories st) (projects st).
Definition setTasks (l : list Task.t) (st : Store) : Store :=
  mkStore (users st) l (categories st) (projects st).
Definition setProjects (l : list Project.t) (st : Store) : Store :=
  mkStore (users st) (tasks st) (categories st) l.

(** [User.findByIdAndDelete(id)] *)
Definition User_findByIdAndDelete (id : string) : M (option User.t) :=
  oid <- castId id ;;
  found <- gets (fun st => findById User._id oid (users st)) ;;
  match found with
  | None => ret None
  | Some u =>
      modify (fun st =>
        setUsers (removeFirst (fun d => (User._id d =? oid)%string) (users st)) st) ;;
      ret (Some u)
  end.

(** [Task.deleteMany({ userId: id })] *)
Definition Task_deleteMany (id : string) : M unit :=
  oid <- castId id ;;
  modify (fun st =>
    setTasks (filter (fun t => negb (Task.userId t =? oid)%string) (tasks st)) st).

(** [Project.deleteMany({ userId: id })] *)
Definition Project_deleteMany (id : string) : M unit :=
  oid <- castId id ;;
  modify (fun st =>
    setProjects (filter (fun p => negb (Project.userId p =? oid)%string) (projects st)) st).

(** [.select('-password')] on the paths of a document. *)
Definition selectWithoutPassword (o : Obj.t) : Obj.t := Obj.delete "password" o.

(** [populate('userId', 'username email')] *)
Definition populateUser (us : list User.t) (id : ObjectId) : JSON :=
  match findById User._id id us with
  | Some u =>
      JObj (filter (fun kv => Js.includes ["_id"; "username"; "email"] (fst kv))
                   (User.paths u))
  | None => JNull
  end.

Fixpoint insertBy {A} (le : A -> A -> bool) (x : A) (l : list A) : list A :=
  match l with
  | [] => [x]
  | y :: r => if le x y then x :: l else y :: insertBy le x r
  end.

(** [.sort({ createdAt: -1 })] *)
Definition sortNewestFirst {A} (createdAt : A -> Z) (l : list A) : list A :=
  fold_right (insertBy (fun a b => createdAt b <=? createdAt a)) [] l.

(** [.limit(limit * 1).skip((page - 1) * limit)] on the sorted matches:
    a negative skip is rejected by the store, a zero limit is no limit,
    a negative limit counts as its absolute value. *)
Definition page {A} (skip limit : Z) (l : list A) : M (list A) :=
  if skip <? 0 then throw MongoServerError
  else
    let rest := skipn (Z.to_nat skip) l in
    ret (if limit =? 0 then rest else firstn (Z.to_nat (Z.abs limit)) rest).

(** [Math.ceil(total / limit)] as JSON: a division by zero gives
    [Infinity] or [NaN], which [JSON.stringify] writes as [null]. *)
Definition pagesJSON (total limit : Z) : JSON :=
  if limit =? 0 then JNull else JNum (Js.ceilDiv total limit).

(** [req.query] of the list routes: [page] and [limit] are the integers
    the parameters denote, which the handlers read as Numbers. *)
Record ListQuery : Type := mkListQuery {
  pageOf : option Z;
  limitOf : option Z;
  statusOf : option string;
  priorityOf : option string;
  userIdOf : option string
}.

Definition orZ (x : option Z) (d : Z) : Z :=
  match x with Some v => v | None => d end.

(** The Numbers the handlers read [page] and [limit] as, 1 and 10 by
    default. *)
Definition pageNumber (q : ListQuery) : Z := Js.number (orZ (pageOf q) 1).
Definition limitNumber (q : ListQuery) : Z := Js.number (orZ (limitOf q) 10).

(** [(page - 1) * limit] *)
Definition skipOf (q : ListQuery) : Z :=
  Js.times (Js.minus (pageNumber q) 1) (limitNumber q).

(** [{ page: parseInt(page), limit: parseInt(limit), total,
       pages: Math.ceil(total / limit) }] *)
Definition paginationJSON (q : ListQuery) (total : Z) : Obj.t :=
  [("page", JNum (pageNumber q));
   ("limit", JNum (limitNumber q));
   ("total", JNum total);
   ("pages", pagesJSON total (limitNumber q))].

Definition lengthZ {A} (l : list A) : Z := Z.of_nat (List.length l).

(** ** Users *)

Definition userMatches (q : ListQuery) (u : User.t) : bool :=
  match statusOf q with
  | Some s =>
      if negb (s =? "")%string
      then Bool.eqb (User.isActive u) (s =? "active")%string
      else true
  | None => true
  end.

(** The handler of [GET /api/users]. *)
Definition getUsersHandler (q : ListQuery) : M Response :=
  all <- gets users ;;
  found <- page (skipOf q) (limitNumber q)
             (sortNewestFirst User.createdAt (filter (userMatches q) all)) ;;
  total <- gets (fun st => lengthZ (filter (userMatches q) (users st))) ;;
  ret (Http.mkResponse 200 true None []
         (Some (UsersData (map (fun u => selectWithoutPassword (User.paths u)) found)))
         (paginationJSON q total)).

Definition getUsers (q : ListQuery) : Store -> Response * Store :=
  asyncHandler (getUsersHandler q).

(** The built-in validator messages of the schema library; those on the
    length of a string give the length after the value. *)
Definition valueAndLength (value : string) : string :=
  "(`" ++ value ++ "`, length " ++ Validation.natString (String.length value) ++ ")".
Definition shorter (path value : string) (n : string) : string :=
  "Path `" ++ path ++ "` " ++ valueAndLength value
    ++ " is shorter than the minimum allowed length (" ++ n ++ ").".
Definition longer (path value : string) (n : string) : string :=
  "Path `" ++ path ++ "` " ++ valueAndLength value
    ++ " is longer than the maximum allowed length (" ++ n ++ ").".
Definition invalid (path value : string) : string :=
  "Path `" ++ path ++ "` is invalid (" ++ value ++ ").".
Definition required (path : string) : string :=
  "Path `" ++ path ++ "` is required.".
Definition notInEnum (path value : string) : string :=
  "`" ++ value ++ "` is not a valid enum value for path `" ++ path ++ "`.".

(** Every way to write [l] as [a ++ c :: b]. *)
Fixpoint splitsAt (c : ascii) (l : list ascii) : list (list ascii * list ascii) :=
  match l with
  | [] => []
  | x :: r =>
      ((if Ascii.eqb x c then [([], r)] else [])
       ++ map (fun ab => (x :: fst ab, snd ab)) (splitsAt c r))%list
  end.

Definition nonEmpty {A} (l : list A) : bool :=
  match l with [] => false | _ => true end.

(** The [match] of the email path: one or more non-blank characters, an
    at sign, one or more, a dot, one or more, and nothing else. *)
Definition emailMatch (s : string) : bool :=
  let l := list_ascii_of_string s in
  forallb (fun c => negb (Js.isSpace c)) l
  && existsb (fun ab =>
                nonEmpty (fst ab)
                && existsb (fun bc => nonEmpty (fst bc) && nonEmpty (snd bc))
                           (splitsAt "."%char (snd ab)))
             (splitsAt "@"%char l).

Definition when (b : bool) (m : string) : list string := if b then [m] else [].

(** The validators of the paths of a user that are set; an empty string
    fails [required] and nothing else. *)
Definition usernameErrors (s : string) : list string :=
  if (s =? "")%string then [required "username"]
  else (when (String.length s <? 3)%nat (shorter "username" s "3")
        ++ when (30 <? String.length s)%nat (longer "username" s "30"))%list.

Definition emailErrors (s : string) : list string :=
  if (s =? "")%string then [required "email"]
  else when (negb (emailMatch s)) (invalid "email" s).

Definition passwordErrors (s : string) : list string :=
  if (s =? "")%string then [required "password"]
  else when (String.length s <? 6)%nat (shorter "password" s "6").

Definition optErrors (f : string -> list string) (x : option string) : list string :=
  match x with Some s => f s | None => [] end.

(** The unique indexes, checked in the order of their creation; [self]
    is the id of the document being written. *)
Definition duplicateKey (self : ObjectId) (username email : option string)
    (l : list User.t) : option string :=
  let others := filter (fun d => negb (User._id d =? self)%string) l in
  if match username with
     | Some s => existsb (fun d => (User.username d =? s)%string) others
     | None => false
     end
  then Some "username"
  else if match email with
          | Some s => existsb (fun d => (User.email d =? s)%string) others
          | None => false
          end
       then Some "email"
       else None.

(** [user.save()] of a new document. *)
Definition User_save (u : User.t) : M unit :=
  match (usernameErrors (User.username u) ++ emailErrors (User.email u)
         ++ passwordErrors (User.password u))%list with
  | (_ :: _) as messages => throw (ValidationError messages)
  | [] =>
      all <- gets users ;;
      if Js.defined (findById User._id (User._id u) all) then throw (DuplicateKey "_id")
      else match duplicateKey (User._id u) (Some (User.username u)) (Some (User.email u)) all with
           | Some field => throw (DuplicateKey field)
           | None => modify (fun st => setUsers (users st ++ [u]) st)
           end
  end.

Module UserBody.
Record t : Type := mk {
  username : option string;
  email : option string;
  password : option string;
  isActive : option bool
}.
End UserBody.

(** The handler of [POST /api/users]; [newId] is the id the driver
    generates. *)
Definition createUserHandler (now : Z) (newId : ObjectId) (b : UserBody.t) : M Response :=
  match UserBody.username b, UserBody.email b, UserBody.password b with
  | Some username, Some email, Some password =>
      if (username =? "")%string || (email =? "")%string || (password =? "")%string
      then ret (Http.failure 400 "Username, email, and password are required")
      else
        let user := User.mk newId username email password now true in
        User_save user ;;
        let userResponse := Obj.delete "password" (User.paths user) in
        ret (Http.mkResponse 201 true (Some "User created successfully") []
               (Some (UserData userResponse)) [])
  | _, _, _ => ret (Http.failure 400 "Username, email, and password are required")
  end.

Definition createUser (now : Z) (newId : ObjectId) (b : UserBody.t)
  : Store -> Response * Store :=
  asyncHandler (createUserHandler now newId b).

Definition applyUserUpdate (b : UserBody.t) (u : User.t) : User.t :=
  User.mk (User._id u)
    (match UserBody.username b with Some s => s | None => User.username u end)
    (match UserBody.email b with Some s => s | None => User.email u end)
    (User.password u)
    (User.createdAt u)
    (match UserBody.isActive b with Some a => a | None => User.isActive u end).

Fixpoint replaceFirst {A} (p : A -> bool) (new : A) (l : list A) : list A :=
  match l with
  | [] => []
  | d :: r => if p d then new :: r else d :: replaceFirst p new r
  end.

(** [User.findByIdAndUpdate(id, { username, email, isActive },
    { new: true, runValidators: true })]; the update validators report
    the email before the user name. *)
Definition User_findByIdAndUpdate (id : string) (b : UserBody.t) : M (option User.t) :=
  oid <- castId id ;;
  match (optErrors emailErrors (UserBody.email b)
         ++ optErrors usernameErrors (UserBody.username b))%list with
  | (_ :: _) as messages => throw (ValidationError messages)
  | [] =>
      all <- gets users ;;
      match findById User._id oid all with
      | None => ret None
      | Some u =>
          match duplicateKey oid (UserBody.username b) (UserBody.email b) all with
          | Some field => throw (DuplicateKey field)
          | None =>
              let updated := applyUserUpdate b u in
              modify (fun st =>
                setUsers (replaceFirst (fun d => (User._id d =? oid)%string) updated
                            (users st)) st) ;;
              ret (Some updated)
          end
      end
  end.

(** The handler of [PUT /api/users/:id]. *)
Definition updateUserHandler (id : string) (b : UserBody.t) : M Response :=
  user <- User_findByIdAndUpdate id b ;;
  match user with
  | None => ret (Http.failure 404 "User not found")
  | Some u =>
      ret (Http.mkResponse 200 true (Some "User updated successfully") []
             (Some (UserData (selectWithoutPassword (User.paths u)))) [])
  end.

Definition updateUser (id : string) (b : UserBody.t) : Store -> Response * Store :=
  asyncHandler (updateUserHandler id b).

(** The handler of [DELETE /api/users/:id]. *)
Definition deleteUserHandler (id : string) : M Response :=
  user <- User_findByIdAndDelete id ;;
  match user with
  | None => ret (Http.failure 404 "User not found")
  | Some _ =>
      Task_deleteMany id ;;
      Project_deleteMany id ;;
      ret (Http.mkResponse 200 true
             (Some "User and associated data deleted successfully") [] None [])
  end.

Definition deleteUser (id : string) : Store -> Response * Store :=
  asyncHandler (deleteUserHandler id).

(** ** Tasks *)

(** A filter value that is an id: absent or empty adds no filter, any
    other string is cast. *)
Definition castFilterId (x : option string) : M (option ObjectId) :=
  match x with
  | Some s =>
      if negb (s =? "")%string then (oid <- castId s ;; ret (Some oid)) else ret None
  | None => ret None
  end.

Definition fieldMatches (want : option string) (have : string) : bool :=
  match want with
  | Some s => if negb (s =? "")%string then (have =? s)%string else true
  | None => true
  end.

Definition idMatches (want : option ObjectId) (have : ObjectId) : bool :=
  match want with
  | Some s => (have =? s)%string
  | None => true
  end.

Definition taskMatches (q : ListQuery) (uid : option ObjectId) (t : Task.t) : bool :=
  fieldMatches (statusOf q) (Task.status t)
  && fieldMatches (priorityOf q) (Task.priority t)
  && idMatches uid (Task.userId t).

Definition taskOut (us : list User.t) (t : Task.t) : TaskOut :=
  mkTaskOut t (populateUser us (Task.userId t)).

(** The handler of [GET /api/tasks]. *)
Definition getTasksHandler (q : ListQuery) : M Response :=
  uid <- castFilterId (userIdOf q) ;;
  all <- gets tasks ;;
  us <- gets users ;;
  found <- page (skipOf q) (limitNumber q)
             (sortNewestFirst Task.createdAt (filter (taskMatches q uid) all)) ;;
  total <- gets (fun st => lengthZ (filter (taskMatches q uid) (tasks st))) ;;
  ret (Http.mkResponse 200 true None []
         (Some (TasksData (map (taskOut us) found)))
         (paginationJSON q total)).

Definition getTasks (q : ListQuery) : Store -> Response * Store :=
  asyncHandler (getTasksHandler q).

Definition projectMatches (q : ListQuery) (uid : option ObjectId) (p : Project.t) : bool :=
  fieldMatches (statusOf q) (Project.status p)
  && idMatches uid (Project.userId p).

(** The handler of [GET /api/projects]; the populated task summaries of
    a project are left out of [ProjectOut]. *)
Definition getProjectsHandler (q : ListQuery) : M Response :=
  uid <- castFilterId (userIdOf q) ;;
  all <- gets projects ;;
  us <- gets users ;;
  found <- page (skipOf q) (limitNumber q)
             (sortNewestFirst Project.createdAt (filter (projectMatches q uid) all)) ;;
  total <- gets (fun st => lengthZ (filter (projectMatches q uid) (projects st))) ;;
  ret (Http.mkResponse 200 true None []
         (Some (ProjectsData
                  (map (fun p => mkProjectOut p (populateUser us (Project.userId p))) found)))
         (paginationJSON q total)).

Definition getProjects (q : ListQuery) : Store -> Response * Store :=
  asyncHandler (getProjectsHandler q).

Module TaskBody.
Record t : Type := mk {
  title : option string;
  description : option string;
  priority : option string;
  status : option string;
  dueDate : option string;
  userId : option string
}.
End TaskBody.

Section Create.
Context {L : Library}.

Definition quote : string := String (ascii_of_nat 34) EmptyString.

Definition castToDateFailed : string :=
  "Cast to date failed for value " ++ quote ++ "Invalid Date" ++ quote
    ++ " (type Date) at path " ++ quote ++ "dueDate" ++ quote.

(** The messages of a task that fails validation: the cast error the
    constructor recorded comes first, then the validators in the order of
    the schema. *)
Definition taskErrors (title : string) (description : option string)
    (priority status : string) (dueDate : option (option Z)) : list string :=
  (match dueDate with
   | Some None =>
       [castToDateFailed]
   | _ => []
   end
   ++ when (200 <? String.length title)%nat (longer "title" title "200")
   ++ match description with
      | Some d => when (1000 <? String.length d)%nat (longer "description" d "1000")
      | None => []
      end
   ++ when (negb (Js.includes ["low"; "medium"; "high"] priority))
           (notInEnum "priority" priority)
   ++ when (negb (Js.includes ["pending"; "in-progress"; "completed"] status))
           (notInEnum "status" status))%list.

(** [dueDate ? new Date(dueDate) : undefined]: [Some None] is an invalid
    date. *)
Definition dueDateOf (x : option string) : option (option Z) :=
  match x with
  | Some s => if negb (s =? "")%string then Some (dateParse s) else None
  | None => None
  end.

(** [new Task({ ... })] and [task.save()]. *)
Definition Task_create (now : Z) (newId : ObjectId) (title : string) (userId : ObjectId)
    (b : TaskBody.t) : M Task.t :=
  let priority := Js.orDefault (TaskBody.priority b) "medium" in
  let status := Js.orDefault (TaskBody.status b) "pending" in
  let dueDate := dueDateOf (TaskBody.dueDate b) in
  match taskErrors title (TaskBody.description b) priority status dueDate with
  | (_ :: _) as messages => throw (ValidationError messages)
  | [] =>
      all <- gets tasks ;;
      if Js.defined (findById Task._id newId all) then throw (DuplicateKey "_id")
      else
        let task :=
          Task.mk newId title (TaskBody.description b) priority status
                  (match dueDate with Some d => d | None => None end)
                  userId now now in
        modify (fun st => setTasks (tasks st ++ [task]) st) ;;
        ret task
  end.

(** The handler of [POST /api/tasks]. *)
Definition createTaskHandler (now : Z) (newId : ObjectId) (b : TaskBody.t) : M Response :=
  match TaskBody.title b, TaskBody.userId b with
  | Some title, Some userId =>
      if (title =? "")%string || (userId =? "")%string
      then ret (Http.failure 400 "Title and userId are required")
      else
        user <- User_findById userId ;;
        match user with
        | None => ret (Http.failure 400 "Invalid userId")
        | Some _ =>
            task <- Task_create now newId title userId b ;;
            us <- gets users ;;
            ret (Http.mkResponse 201 true (Some "Task created successfully") []
                   (Some (TaskData (taskOut us task))) [])
        end
  | _, _ => ret (Http.failure 400 "Title and userId are required")
  end.

Definition createTask (now : Z) (newId : ObjectId) (b : TaskBody.t)
  : Store -> Response * Store :=
  asyncHandler (createTaskHandler now newId b).

End Create.
End Server.

(* ================================================================== *)
(** * Aggregation pipelines *)
(* ================================================================== *)

Module Aggregate.

Section Group.
Variable K : Type.
Variable eqb : K -> K -> bool.

(** One more document for the group of key [k]. *)
Fixpoint bump (k : K) (rows : list (K * Z)) : list (K * Z) :=
  match rows with
  | [] => [(k, 1)]
  | (k', n) :: r => if eqb k' k then (k', n + 1) :: r else (k', n) :: bump k r
  end.

(** [{ $group: { _id: '$path', count: { $sum: 1 } } }] over the values of
    the path: one row per distinct value.  The store fixes no order of the
    rows; they are kept here in the order the values are first met. *)
Definition groupCount (keys : list K) : list (K * Z) :=
  fold_left (fun rows k => bump k rows) keys [].

(** The count of the row of a key. *)
Fixpoint lookup (k : K) (rows : list (K * Z)) : option Z :=
  match rows with
  | [] => None
  | (k', n) :: r => if eqb k' k then Some n else lookup k r
  end.

(** The count the rows hold for a key, zero when it has no row. *)
Definition held (k : K) (rows : list (K * Z)) : Z :=
  match lookup k rows with Some n => n | None => 0 end.

End Group.

(** [acc[k] = v] *)
Fixpoint assign (k : string) (v : JSON) (o : Obj.t) : Obj.t :=
  match o with
  | [] => [(k, v)]
  | (k', v') :: r => if (k' =? k)%string then (k, v) :: r else (k', v') :: assign k v r
  end.

(** [rows.reduce((acc, stat) => { acc[stat._id] = stat.count; return acc; }, {})];
    [render] is the property key a group id becomes. *)
Definition reduceCounts {K} (render : K -> string) (rows : list (K * Z)) : Obj.t :=
  fold_left (fun acc row => assign (render (fst row)) (JNum (snd row)) acc) rows [].

(** [countDocuments(filter)] *)
Definition countWhere {A} (p : A -> bool) (l : list A) : Z :=
  Z.of_nat (List.length (filter p l)).

End Aggregate.

(* ================================================================== *)
(** * server/models/Task.js: statics and methods *)
(* ================================================================== *)

Module TaskMethods.

(** A [find] without sort returns the matching documents in an order of
    the store's choosing: [unsorted found result] holds of every list
    [result] the call may return when [found] lists the matching
    documents. *)
Definition unsorted (found result : list TaskModel.Task) : Prop :=
  Permutation found result.

(** [Task.getTasksByStatus(status)]: [find({ status })], with
    [assignedTo] populated.  The query has no sort: the list holds the
    matching documents, and the call returns them [unsorted]. *)
Definition getTasksByStatus (status : string) (l : list TaskModel.Task)
  : list TaskModel.Task :=
  filter (fun t => (TaskModel.status t =? status)%string) l.

(** [Task.getOverdueTasks()]:
    [find({ dueDate: { $lt: new Date() }, status: { $ne: 'completed' } })],
    without sort: the list holds the matching documents, and the call
    returns them [unsorted]. *)
Definition getOverdueTasks (now : Z) (l : list TaskModel.Task) : list TaskModel.Task :=
  filter (fun t =>
            match TaskModel.dueDate t with Some d => d <? now | None => false end
            && negb (TaskModel.status t =? "completed")%string) l.

Record Stats : Type := mkStats {
  byStatus : Obj.t;
  byPriority : Obj.t;
  byCategory : Obj.t
}.

(** [Task.getTaskStats()] *)
Definition getTaskStats (l : list TaskModel.Task) : Stats :=
  let stats := Aggregate.groupCount String.eqb (map TaskModel.status l) in
  let priorityStats := Aggregate.groupCount String.eqb (map TaskModel.priority l) in
  let categoryStats := Aggregate.groupCount String.eqb (map TaskModel.category l) in
  mkStats (Aggregate.reduceCounts (fun k => k) stats)
          (Aggregate.reduceCounts (fun k => k) priorityStats)
          (Aggregate.reduceCounts (fun k => k) categoryStats).

Definition setTags (tags : list string) (t : TaskModel.Task) : TaskModel.Task :=
  TaskModel.mkTask (TaskModel._id t) (TaskModel.title t) (TaskModel.description t)
    (TaskModel.status t) (TaskModel.priority t) (TaskModel.category t)
    (TaskModel.dueDate t) (TaskModel.assignedTo t) tags (TaskModel.completedAt t)
    (TaskModel.createdBy t) (TaskModel.createdAt t) (TaskModel.updatedAt t).

Definition setStatus (s : string) (t : TaskModel.Task) : TaskModel.Task :=
  TaskModel.mkTask (TaskModel._id t) (TaskModel.title t) (TaskModel.description t)
    s (TaskModel.priority t) (TaskModel.category t)
    (TaskModel.dueDate t) (TaskModel.assignedTo t) (TaskModel.tags t)
    (TaskModel.completedAt t) (TaskModel.createdBy t) (TaskModel.createdAt t)
    (TaskModel.updatedAt t).

Definition setUpdatedAt (now : Z) (t : TaskModel.Task) : TaskModel.Task :=
  TaskModel.mkTask (TaskModel._id t) (TaskModel.title t) (TaskModel.description t)
    (TaskModel.status t) (TaskModel.priority t) (TaskModel.category t)
    (TaskModel.dueDate t) (TaskModel.assignedTo t) (TaskModel.tags t)
    (TaskModel.completedAt t) (TaskModel.createdBy t) (TaskModel.createdAt t) now.

(** The schema validators on every path of a document. *)
Definition validDocument (now : Z) (t : TaskModel.Task) : bool :=
  TaskModel.validPaths now (Some (TaskModel.title t)) (TaskModel.description t)
    (Some (TaskModel.status t)) (Some (TaskModel.priority t))
    (Some (TaskModel.category t)) (TaskModel.dueDate t) (Some (TaskModel.tags t)).

(** [doc.save()] of a stored document: the document is validated and the
    [pre('save')] hook runs; when a path was modified, [updatedAt] is
    stamped and the stored copy is replaced, otherwise nothing is written.
    The result is the saved document and the collection; [None] when the
    validation rejects. *)
Definition save (now : Z) (modified statusModified : bool) (t : TaskModel.Task)
    (l : list TaskModel.Task) : option (TaskModel.Task * list TaskModel.Task) :=
  if validDocument now t then
    if modified then
      let t' := setUpdatedAt now (TaskModel.preSave now statusModified t) in
      Some (t', TaskRoutes.replaceById (TaskModel._id t') t' l)
    else Some (t, l)
  else None.

(** [task.markAsCompleted()]: the completion time is set anew, so the
    document is modified; the status counts as modified when its value
    changes. *)
Definition markAsCompleted (now : Z) (t : TaskModel.Task) (l : list TaskModel.Task)
  : option (TaskModel.Task * list TaskModel.Task) :=
  save now true (negb (TaskModel.status t =? "completed")%string)
       (TaskModel.setCompletedAt (Some now) (setStatus "completed" t)) l.

(** [task.addTag(tag)]: the pushed value is cast by the schema, which
    trims it; with a tag already included the document is returned as it
    is, unsaved. *)
Definition addTag (now : Z) (tag : string) (t : TaskModel.Task) (l : list TaskModel.Task)
  : option (TaskModel.Task * list TaskModel.Task) :=
  if negb (Js.includes (TaskModel.tags t) tag) then
    save now true false (setTags (TaskModel.tags t ++ [Js.trim tag])%list t) l
  else Some (t, l).

(** [task.removeTag(tag)]: the tags are modified when the filter drops
    one. *)
Definition removeTag (now : Z) (tag : string) (t : TaskModel.Task) (l : list TaskModel.Task)
  : option (TaskModel.Task * list TaskModel.Task) :=
  let kept := filter (fun x => negb (x =? tag)%string) (TaskModel.tags t) in
  save now (negb (List.length kept =? List.length (TaskModel.tags t))%nat) false
       (setTags kept t) l.

End TaskMethods.

(* ================================================================== *)
(** * server/routes/tasks.js: the statistics summary *)
(* ================================================================== *)

Module TaskSummary.
Section Summary.

(** Whether an aggregation expression finds a missing value less than a
    date (the store compares values of different types by type). *)
Variable missingBeforeDate : bool.

Definition hasStatus (s : string) (t : TaskModel.Task) : bool :=
  (TaskModel.status t =? s)%string.

(** [{ $and: [{ $lt: ['$dueDate', new Date()] }, { $ne: ['$status', 'completed'] }] }] *)
Definition overdueCond (now : Z) (t : TaskModel.Task) : bool :=
  match TaskModel.dueDate t with
  | Some d => d <? now
  | None => missingBeforeDate
  end
  && negb (TaskModel.status t =? "completed")%string.

(** [Task.aggregate([{ $group: { _id: null, ... } }])]: one row for a
    collection that is not empty, none for an empty one. *)
Definition aggregate (now : Z) (l : list TaskModel.Task) : list Obj.t :=
  match l with
  | [] => []
  | _ :: _ =>
      [[("_id", JNull);
        ("total", JNum (Z.of_nat (List.length l)));
        ("pending", JNum (Aggregate.countWhere (hasStatus "pending") l));
        ("inProgress", JNum (Aggregate.countWhere (hasStatus "in-progress") l));
        ("completed", JNum (Aggregate.countWhere (hasStatus "completed") l));
        ("overdue", JNum (Aggregate.countWhere (overdueCond now) l))]]
  end.

Definition zeros : Obj.t :=
  [("total", JNum 0); ("pending", JNum 0); ("inProgress", JNum 0);
   ("completed", JNum 0); ("overdue", JNum 0)].

(** [GET /api/tasks/stats/summary] *)
Definition getSummary (now : Z) (st : TaskRoutes.Store)
  : Http.Response Obj.t * TaskRoutes.Store :=
  let stats := aggregate now (TaskRoutes.tasks st) in
  let summary := match stats with s :: _ => s | [] => zeros end in
  (Http.mkResponse 200 true None [] (Some summary) [], st).

End Summary.
End TaskSummary.

(* ================================================================== *)
(** * server/routes/tasks.js: requests served one after the other *)
(* ================================================================== *)

Module TaskApi.

(** A request that has passed the validation middleware of its route,
    with the clock reading and the id the driver would generate where the
    handler needs them.  A request the middleware rejects leaves the store
    as it is. *)
Inductive Call : Type :=
| List (now : Z) (q : TaskRoutes.Query.t)
| Get (now : Z) (id : string)
| Create (now : Z) (newId : ObjectId) (b : TaskRoutes.Body.t)
| Update (now : Z) (id : string) (b : TaskRoutes.Body.t)
| Status (now : Z) (id : string) (b : TaskRoutes.Body.t)
| Delete (id : string)
| Summary (now : Z).

Section Serve.
Context {L : Library}.
Variable missingBeforeDate : bool.

(** The status code of the answer and the store the request leaves. *)
Definition serve (c : Call) (st : TaskRoutes.Store) : Z * TaskRoutes.Store :=
  match c with
  | List now q => let (r, st') := TaskRoutes.listHandler now q st in (Http.status r, st')
  | Get now id => let (r, st') := TaskRoutes.getHandler now id st in (Http.status r, st')
  | Create now newId b =>
      let (r, st') := TaskRoutes.createHandler now newId b st in (Http.status r, st')
  | Update now id b =>
      let (r, st') := TaskRoutes.updateHandler now id b st in (Http.status r, st')
  | Status now id b =>
      let (r, st') := TaskRoutes.statusHandler now id b st in (Http.status r, st')
  | Delete id => let (r, st') := TaskRoutes.deleteHandler id st in (Http.status r, st')
  | Summary now =>
      let (r, st') := TaskSummary.getSummary missingBeforeDate now st in (Http.status r, st')
  end.

(** The store after a sequence of requests. *)
Definition run (calls : list Call) (st : TaskRoutes.Store) : TaskRoutes.Store :=
  fold_left (fun s c => snd (serve c s)) calls st.

End Serve.
End TaskApi.

(* ================================================================== *)
(** * server/models/User.js: statics, default avatar and hook *)
(* ================================================================== *)

Module UserMethods.

(** A document loaded with [.select('-password')]. *)
Definition selected (u : UserModel.User) : Obj.t :=
  Obj.delete "password" (UserModel.paths u).

Definition optEqb (a b : option string) : bool :=
  match a, b with
  | Some x, Some y => (x =? y)%string
  | None, None => true
  | _, _ => false
  end.

(** The property key of a group id: [null] becomes ["null"]. *)
Definition renderKey (k : option string) : string :=
  match k with Some s => s | None => "null" end.

Record Stats : Type := mkStats {
  total : Z;
  active : Z;
  inactive : Z;
  byRole : Obj.t;
  byDepartment : Obj.t
}.

(** [User.getUserStats()].  In [{ department: { $ne: null, $ne: '' } }]
    the second [$ne] replaces the first, so the match stage keeps every
    document whose department is not the empty string, the documents with
    no department among them. *)
Definition getUserStats (l : list UserModel.User) : Stats :=
  let totalUsers := Z.of_nat (List.length l) in
  let activeUsers := Aggregate.countWhere UserModel.isActive l in
  let usersByRole := Aggregate.groupCount String.eqb (map UserModel.role l) in
  let usersByDepartment :=
    Aggregate.groupCount optEqb
      (map UserModel.department
           (filter (fun u => negb (optEqb (UserModel.department u) (Some ""))) l)) in
  mkStats totalUsers activeUsers (totalUsers - activeUsers)
          (Aggregate.reduceCounts (fun k => k) usersByRole)
          (Aggregate.reduceCounts renderKey usersByDepartment).

(** The [options] of [searchUsers]. *)
Record Options : Type := mkOptions {
  limit : option Z;
  skip : option Z;
  role : option string;
  department : option string;
  isActive : option bool
}.

(** [.sort({ name: 1 })] *)
Definition sortByName (l : list UserModel.User) : list UserModel.User :=
  fold_right
    (TaskRoutes.insert (fun a b => String.leb (UserModel.name a) (UserModel.name b))) [] l.

Section Search.
Context {L : Library}.

Definition optTest (pattern : string) (x : option string) : bool :=
  match x with Some s => regexTestI pattern s | None => false end.

(** The [searchQuery] object as a predicate on documents. *)
Definition searchMatches (query : option string) (o : Options) (u : UserModel.User) : bool :=
  match query with
  | Some q =>
      if negb (q =? "")%string
      then regexTestI q (UserModel.name u)
           || regexTestI q (UserModel.email u)
           || optTest q (UserModel.department u)
           || optTest q (UserModel.position u)
      else true
  | None => true
  end
  && match role o with
     | Some r => if negb (r =? "")%string then (UserModel.role u =? r)%string else true
     | None => true
     end
  && match department o with
     | Some d =>
         if negb (d =? "")%string then optEqb (UserModel.department u) (Some d) else true
     | None => true
     end
  && match isActive o with
     | Some a => Bool.eqb (UserModel.isActive u) a
     | None => true
     end.

(** [User.searchUsers(query, options)]; [None] when the store rejects
    the query: a negative skip, or a search text that is no pattern it
    compiles.  A zero limit is no limit, a negative one counts as its
    absolute value. *)
Definition searchUsers (query : option string) (o : Options) (l : list UserModel.User)
  : option (list Obj.t) :=
  let lim := match limit o with Some n => n | None => 10 end in
  let sk := match skip o with Some n => n | None => 0 end in
  if sk <? 0 then None
  else if match query with
          | Some q => negb (q =? "")%string && negb (regexValid q)
          | None => false
          end then None
  else
    let rest := skipn (Z.to_nat sk) (sortByName (filter (searchMatches query o) l)) in
    Some (map selected (if lim =? 0 then rest else firstn (Z.to_nat (Z.abs lim)) rest)).

End Search.

Definition setAvatar (a : string) (u : UserModel.User) : UserModel.User :=
  UserModel.mkUser (UserModel._id u) (UserModel.name u) (UserModel.email u)
    (UserModel.password u) (UserModel.role u) a (UserModel.department u)
    (UserModel.position u) (UserModel.phone u) (UserModel.isActive u)
    (UserModel.lastLogin u) (UserModel.preferences u) (UserModel.createdAt u)
    (UserModel.updatedAt u).

Section Avatar.

(** [encodeURIComponent], a built-in of the language. *)
Variable encodeURIComponent : string -> string.

(** The [default] of the [avatar] path, computed from [this.name]. *)
Definition defaultAvatar (u : UserModel.User) : string :=
  "https://ui-avatars.com/api/?name=" ++ encodeURIComponent (UserModel.initials u)
    ++ "&background=random".

(** The [pre('save')] hook of the avatar; [nameModified] is
    [this.isModified('name')]. *)
Definition avatarHook (nameModified : bool) (u : UserModel.User) : UserModel.User :=
  if nameModified && negb (String.prefix "http" (UserModel.avatar u))
  then setAvatar (defaultAvatar u) u
  else u.

End Avatar.

End UserMethods.

(* ================================================================== *)
(** * The single-file server: updates, deletions, categories, projects *)
(* ================================================================== *)

Module Resources.
Import Server.
Local Open Scope async_scope.

Inductive Data : Type :=
| TaskData (t : TaskOut)
| CategoryData (c : Category.t)
| CategoriesData (l : list Category.t)
| ProjectData (p : ProjectOut).

Definition Response : Type := Http.Response Data.

(** The global error handler and [asyncHandler], for the handlers of
    this part. *)
Definition errorHandler {D} (e : Err) : Http.Response D :=
  match e with
  | ValidationError messages =>
      Http.mkResponse 400 false (Some "Validation Error") (map JStr messages) None []
  | DuplicateKey field =>
      Http.failure 400 (field ++ " already exists")
  | _ => Http.failure 500 "Internal Server Error"
  end.

Definition asyncHandler {D} (h : M (Http.Response D)) (st : Store)
  : Http.Response D * Store :=
  match h st with
  | (Return r, st') => (r, st')
  | (Throw e, st') => (errorHandler e, st')
  end.

Definition setCategories (l : list Category.t) (st : Store) : Store :=
  mkStore (users st) (tasks st) l (projects st).

(** The validators of a string path with [maxlength: n]. *)
Definition lengthErrors (path : string) (n : nat) (s : string) : list string :=
  when (n <? String.length s)%nat (longer path s (Validation.natString n)).

(** The validators of a required string path with [maxlength: n]. *)
Definition nameErrors (path : string) (n : nat) (s : string) : list string :=
  if (s =? "")%string then [required path] else lengthErrors path n s.

Definition enumErrors (path : string) (values : list string) (s : string) : list string :=
  when (negb (Js.includes values s)) (notInEnum path s).

(** ** Tasks *)

Section Tasks.
Context {L : Library}.

Definition applyTaskUpdate (now : Z) (b : TaskBody.t) (dueDate : option (option Z))
    (t : Task.t) : Task.t :=
  Task.mk (Task._id t)
    (match TaskBody.title b with Some s => s | None => Task.title t end)
    (match TaskBody.description b with Some s => Some s | None => Task.description t end)
    (match TaskBody.priority b with Some s => s | None => Task.priority t end)
    (match TaskBody.status b with Some s => s | None => Task.status t end)
    (match dueDate with Some d => d | None => Task.dueDate t end)
    (Task.userId t)
    (Task.createdAt t)
    now.

(** [Task.findByIdAndUpdate(id, { title, description, priority, status,
    dueDate, updatedAt }, { new: true, runValidators: true })]: the id and
    the update are cast, the paths that are set are validated, and the
    document, when there is one, is written. *)
Definition Task_findByIdAndUpdate (now : Z) (id : string) (b : TaskBody.t)
  : M (option Task.t) :=
  oid <- castId id ;;
  let dueDate := dueDateOf (TaskBody.dueDate b) in
  match dueDate with
  | Some None => throw CastError
  | _ =>
      match (optErrors (nameErrors "title" 200) (TaskBody.title b)
             ++ optErrors (lengthErrors "description" 1000) (TaskBody.description b)
             ++ optErrors (enumErrors "priority" ["low"; "medium"; "high"])
                          (TaskBody.priority b)
             ++ optErrors (enumErrors "status" ["pending"; "in-progress"; "completed"])
                          (TaskBody.status b))%list with
      | (_ :: _) as messages => throw (ValidationError messages)
      | [] =>
          all <- gets tasks ;;
          match findById Task._id oid all with
          | None => ret None
          | Some t =>
              let updated := applyTaskUpdate now b dueDate t in
              modify (fun st =>
                setTasks (replaceFirst (fun d => (Task._id d =? oid)%string) updated
                            (tasks st)) st) ;;
              ret (Some updated)
          end
      end
  end.

(** The handler of [PUT /api/tasks/:id]. *)
Definition updateTaskHandler (now : Z) (id : string) (b : TaskBody.t) : M Response :=
  task <- Task_findByIdAndUpdate now id b ;;
  match task with
  | None => ret (Http.failure 404 "Task not found")
  | Some t =>
      us <- gets users ;;
      ret (Http.mkResponse 200 true (Some "Task updated successfully") []
             (Some (TaskData (taskOut us t))) [])
  end.

Definition updateTask (now : Z) (id : string) (b : TaskBody.t)
  : Store -> Response * Store :=
  asyncHandler (updateTaskHandler now id b).

End Tasks.

(** [Task.findByIdAndDelete(id)] *)
Definition Task_findByIdAndDelete (id : string) : M (option Task.t) :=
  oid <- castId id ;;
  found <- gets (fun st => findById Task._id oid (tasks st)) ;;
  match found with
  | None => ret None
  | Some t =>
      modify (fun st =>
        setTasks (removeFirst (fun d => (Task._id d =? oid)%string) (tasks st)) st) ;;
      ret (Some t)
  end.

(** The handler of [DELETE /api/tasks/:id]. *)
Definition deleteTaskHandler (id : string) : M Response :=
  task <- Task_findByIdAndDelete id ;;
  match task with
  | None => ret (Http.failure 404 "Task not found")
  | Some _ => ret (Http.mkResponse 200 true (Some "Task deleted successfully") [] None [])
  end.

Definition deleteTask (id : string) : Store -> Response * Store :=
  asyncHandler (deleteTaskHandler id).

(** ** Categories *)

(** [.sort({ name: 1 })] *)
Definition sortByName (l : list Category.t) : list Category.t :=
  fold_right (insertBy (fun a b => String.leb (Category.name a) (Category.name b))) [] l.

(** The handler of [GET /api/categories]. *)
Definition getCategoriesHandler : M Response :=
  categories <- gets (fun st => sortByName (categories st)) ;;
  ret (Http.mkResponse 200 true None [] (Some (CategoriesData categories)) []).

Definition getCategories : Store -> Response * Store :=
  asyncHandler getCategoriesHandler.

(** The [match] of the colour path: a hash sign and six hexadecimal
    digits of either case. *)
Definition isHexColor (s : string) : bool :=
  match list_ascii_of_string s with
  | c :: r =>
      Ascii.eqb c "#"%char && (List.length r =? 6)%nat && forallb Js.isHexDigit r
  | [] => false
  end.

(** The [match] validator passes the empty string. *)
Definition colorErrors (s : string) : list string :=
  when (negb (s =? "")%string && negb (isHexColor s)) (invalid "color" s).

(** The unique index on [name]; [self] is the id of the document being
    written. *)
Definition duplicateName (self : ObjectId) (name : option string)
    (l : list Category.t) : bool :=
  match name with
  | Some s =>
      existsb (fun d => (Category.name d =? s)%string)
              (filter (fun d => negb (Category._id d =? self)%string) l)
  | None => false
  end.

(** [category.save()] of a new document. *)
Definition Category_save (c : Category.t) : M unit :=
  match (nameErrors "name" 50 (Category.name c)
         ++ optErrors (lengthErrors "description" 200) (Category.description c)
         ++ colorErrors (Category.color c))%list with
  | (_ :: _) as messages => throw (ValidationError messages)
  | [] =>
      all <- gets categories ;;
      if Js.defined (findById Category._id (Category._id c) all)
      then throw (DuplicateKey "_id")
      else if duplicateName (Category._id c) (Some (Category.name c)) all
           then throw (DuplicateKey "name")
           else modify (fun st => setCategories (categories st ++ [c]) st)
  end.

Module CategoryBody.
Record t : Type := mk {
  name : option string;
  description : option string;
  color : option string
}.
End CategoryBody.

(** The handler of [POST /api/categories]. *)
Definition createCategoryHandler (now : Z) (newId : ObjectId) (b : CategoryBody.t)
  : M Response :=
  match CategoryBody.name b with
  | Some name =>
      if (name =? "")%string
      then ret (Http.failure 400 "Category name is required")
      else
        let category :=
          Category.mk newId name (CategoryBody.description b)
                      (Js.orDefault (CategoryBody.color b) "#007bff") now in
        Category_save category ;;
        ret (Http.mkResponse 201 true (Some "Category created successfully") []
               (Some (CategoryData category)) [])
  | None => ret (Http.failure 400 "Category name is required")
  end.

Definition createCategory (now : Z) (newId : ObjectId) (b : CategoryBody.t)
  : Store -> Response * Store :=
  asyncHandler (createCategoryHandler now newId b).

Definition applyCategoryUpdate (b : CategoryBody.t) (c : Category.t) : Category.t :=
  Category.mk (Category._id c)
    (match CategoryBody.name b with Some s => s | None => Category.name c end)
    (match CategoryBody.description b with
     | Some s => Some s
     | None => Category.description c
     end)
    (match CategoryBody.color b with Some s => s | None => Category.color c end)
    (Category.createdAt c).

(** [Category.findByIdAndUpdate(id, { name, description, color },
    { new: true, runValidators: true })] *)
Definition Category_findByIdAndUpdate (id : string) (b : CategoryBody.t)
  : M (option Category.t) :=
  oid <- castId id ;;
  match (optErrors (nameErrors "name" 50) (CategoryBody.name b)
         ++ optErrors (lengthErrors "description" 200) (CategoryBody.description b)
         ++ optErrors colorErrors (CategoryBody.color b))%list with
  | (_ :: _) as messages => throw (ValidationError messages)
  | [] =>
      all <- gets categories ;;
      match findById Category._id oid all with
      | None => ret None
      | Some c =>
          if duplicateName oid (CategoryBody.name b) all
          then throw (DuplicateKey "name")
          else
            let updated := applyCategoryUpdate b c in
            modify (fun st =>
              setCategories
                (replaceFirst (fun d => (Category._id d =? oid)%string) updated
                              (categories st)) st) ;;
            ret (Some updated)
      end
  end.

(** The handler of [PUT /api/categories/:id]. *)
Definition updateCategoryHandler (id : string) (b : CategoryBody.t) : M Response :=
  category <- Category_findByIdAndUpdate id b ;;
  match category with
  | None => ret (Http.failure 404 "Category not found")
  | Some c =>
      ret (Http.mkResponse 200 true (Some "Category updated successfully") []
             (Some (CategoryData c)) [])
  end.

Definition updateCategory (id : string) (b : CategoryBody.t)
  : Store -> Response * Store :=
  asyncHandler (updateCategoryHandler id b).

(** [Category.findByIdAndDelete(id)] *)
Definition Category_findByIdAndDelete (id : string) : M (option Category.t) :=
  oid <- castId id ;;
  found <- gets (fun st => findById Category._id oid (categories st)) ;;
  match found with
  | None => ret None
  | Some c =>
      modify (fun st =>
        setCategories
          (removeFirst (fun d => (Category._id d =? oid)%string) (categories st)) st) ;;
      ret (Some c)
  end.

(** The handler of [DELETE /api/categories/:id]. *)
Definition deleteCategoryHandler (id : string) : M Response :=
  category <- Category_findByIdAndDelete id ;;
  match category with
  | None => ret (Http.failure 404 "Category not found")
  | Some _ =>
      ret (Http.mkResponse 200 true (Some "Category deleted successfully") [] None [])
  end.

Definition deleteCategory (id : string) : Store -> Response * Store :=
  asyncHandler (deleteCategoryHandler id).

(** ** Projects *)

Module ProjectBody.
Record t : Type := mk {
  name : option string;
  description : option string;
  status : option string;
  startDate : option string;
  endDate : option string;
  userId : option string
}.
End ProjectBody.

Section Projects.
Context {L : Library}.

Definition castToDateFailedAt (path : string) : string :=
  "Cast to date failed for value " ++ quote ++ "Invalid Date" ++ quote
    ++ " (type Date) at path " ++ quote ++ path ++ quote.

Definition castErrors (path : string) (date : option (option Z)) : list string :=
  match date with
  | Some None => [castToDateFailedAt path]
  | _ => []
  end.

(** [new Project({ ... })] and [project.save()]: a date that fails to
    cast is recorded when the document is built, before the validators
    of the other paths run. *)
Definition Project_create (now : Z) (newId : ObjectId) (name : string) (userId : ObjectId)
    (b : ProjectBody.t) : M Project.t :=
  let status := Js.orDefault (ProjectBody.status b) "active" in
  let startDate := dueDateOf (ProjectBody.startDate b) in
  let endDate := dueDateOf (ProjectBody.endDate b) in
  match (castErrors "startDate" startDate
         ++ castErrors "endDate" endDate
         ++ lengthErrors "name" 100 name
         ++ optErrors (lengthErrors "description" 500) (ProjectBody.description b)
         ++ enumErrors "status" ["active"; "completed"; "on-hold"] status)%list with
  | (_ :: _) as messages => throw (ValidationError messages)
  | [] =>
      all <- gets projects ;;
      if Js.defined (findById Project._id newId all) then throw (DuplicateKey "_id")
      else
        let project :=
          Project.mk newId name (ProjectBody.description b) status
                     (match startDate with Some (Some d) => d | _ => now end)
                     (match endDate with Some d => d | None => None end)
                     userId [] now in
        modify (fun st => setProjects (projects st ++ [project]) st) ;;
        ret project
  end.

(** The handler of [POST /api/projects]. *)
Definition createProjectHandler (now : Z) (newId : ObjectId) (b : ProjectBody.t)
  : M Response :=
  match ProjectBody.name b, ProjectBody.userId b with
  | Some name, Some userId =>
      if (name =? "")%string || (userId =? "")%string
      then ret (Http.failure 400 "Project name and userId are required")
      else
        user <- User_findById userId ;;
        match user with
        | None => ret (Http.failure 400 "Invalid userId")
        | Some _ =>
            project <- Project_create now newId name userId b ;;
            us <- gets users ;;
            ret (Http.mkResponse 201 true (Some "Project created successfully") []
                   (Some (ProjectData
                            (mkProjectOut project
                               (populateUser us (Project.userId project))))) [])
        end
  | _, _ => ret (Http.failure 400 "Project name and userId are required")
  end.

Definition createProject (now : Z) (newId : ObjectId) (b : ProjectBody.t)
  : Store -> Response * Store :=
  asyncHandler (createProjectHandler now newId b).

Definition applyProjectUpdate (b : ProjectBody.t) (endDate : option (option Z))
    (p : Project.t) : Project.t :=
  Project.mk (Project._id p)
    (match ProjectBody.name b with Some s => s | None => Project.name p end)
    (match ProjectBody.description b with
     | Some s => Some s
     | None => Project.description p
     end)
    (match ProjectBody.status b with Some s => s | None => Project.status p end)
    (Project.startDate p)
    (match endDate with Some d => d | None => Project.endDate p end)
    (Project.userId p)
    (Project.tasks p)
    (Project.createdAt p).

(** [Project.findByIdAndUpdate(id, { name, description, status, endDate },
    { new: true, runValidators: true })] *)
Definition Project_findByIdAndUpdate (id : string) (b : ProjectBody.t)
  : M (option Project.t) :=
  oid <- castId id ;;
  let endDate := dueDateOf (ProjectBody.endDate b) in
  match endDate with
  | Some None => throw CastError
  | _ =>
      match (optErrors (nameErrors "name" 100) (ProjectBody.name b)
             ++ optErrors (lengthErrors "description" 500) (ProjectBody.description b)
             ++ optErrors (enumErrors "status" ["active"; "completed"; "on-hold"])
                          (ProjectBody.status b))%list with
      | (_ :: _) as messages => throw (ValidationError messages)
      | [] =>
          all <- gets projects ;;
          match findById Project._id oid all with
          | None => ret None
          | Some p =>
              let updated := applyProjectUpdate b endDate p in
              modify (fun st =>
                setProjects
                  (replaceFirst (fun d => (Project._id d =? oid)%string) updated
                                (projects st)) st) ;;
              ret (Some updated)
          end
      end
  end.

(** The handler of [PUT /api/projects/:id]. *)
Definition updateProjectHandler (id : string) (b : ProjectBody.t) : M Response :=
  project <- Project_findByIdAndUpdate id b ;;
  match project with
  | None => ret (Http.failure 404 "Project not found")
  | Some p =>
      us <- gets users ;;
      ret (Http.mkResponse 200 true (Some "Project updated successfully") []
             (Some (ProjectData (mkProjectOut p (populateUser us (Project.userId p))))) [])
  end.

Definition updateProject (id : string) (b : ProjectBody.t)
  : Store -> Response * Store :=
  asyncHandler (updateProjectHandler id b).

End Projects.

(** [Project.findByIdAndDelete(id)] *)
Definition Project_findByIdAndDelete (id : string) : M (option Project.t) :=
  oid <- castId id ;;
  found <- gets (fun st => findById Project._id oid (projects st)) ;;
  match found with
  | None => ret None
  | Some p =>
      modify (fun st =>
        setProjects
          (removeFirst (fun d => (Project._id d =? oid)%string) (projects st)) st) ;;
      ret (Some p)
  end.

(** The handler of [DELETE /api/projects/:id]. *)
Definition deleteProjectHandler (id : string) : M Response :=
  project <- Project_findByIdAndDelete id ;;
  match project with
  | None => ret (Http.failure 404 "Project not found")
  | Some _ =>
      ret (Http.mkResponse 200 true (Some "Project deleted successfully") [] None [])
  end.

Definition deleteProject (id : string) : Store -> Response * Store :=
  asyncHandler (deleteProjectHandler id).

End Resources.

(* ================================================================== *)
(** * The single-file server: requests served one after the other *)
(* ================================================================== *)

Module Api.
Import Server.

(** A request to one of the routes, with the clock reading and the id
    the driver would generate where the handler needs them. *)
Inductive Call : Type :=
| GetUsers (q : ListQuery)
| CreateUser (now : Z) (newId : ObjectId) (b : UserBody.t)
| UpdateUser (id : string) (b : UserBody.t)
| DeleteUser (id : string)
| GetTasks (q : ListQuery)
| CreateTask (now : Z) (newId : ObjectId) (b : TaskBody.t)
| UpdateTask (now : Z) (id : string) (b : TaskBody.t)
| DeleteTask (id : string)
| GetCategories
| CreateCategory (now : Z) (newId : ObjectId) (b : Resources.CategoryBody.t)
| UpdateCategory (id : string) (b : Resources.CategoryBody.t)
| DeleteCategory (id : string)
| GetProjects (q : ListQuery)
| CreateProject (now : Z) (newId : ObjectId) (b : Resources.ProjectBody.t)
| UpdateProject (id : string) (b : Resources.ProjectBody.t)
| DeleteProject (id : string).

Section Serve.
Context {L : Library}.

(** The status code of the answer and the store the request leaves. *)
Definition serve (c : Call) (st : Store) : Z * Store :=
  match c with
  | GetUsers q => let (r, st') := getUsers q st in (Http.status r, st')
  | CreateUser now newId b => let (r, st') := createUser now newId b st in (Http.status r, st')
  | UpdateUser id b => let (r, st') := updateUser id b st in (Http.status r, st')
  | DeleteUser id => let (r, st') := deleteUser id st in (Http.status r, st')
  | GetTasks q => let (r, st') := getTasks q st in (Http.status r, st')
  | CreateTask now newId b => let (r, st') := createTask now newId b st in (Http.status r, st')
  | UpdateTask now id b =>
      let (r, st') := Resources.updateTask now id b st in (Http.status r, st')
  | DeleteTask id => let (r, st') := Resources.deleteTask id st in (Http.status r, st')
  | GetCategories => let (r, st') := Resources.getCategories st in (Http.status r, st')
  | CreateCategory now newId b =>
      let (r, st') := Resources.createCategory now newId b st in (Http.status r, st')
  | UpdateCategory id b =>
      let (r, st') := Resources.updateCategory id b st in (Http.status r, st')
  | DeleteCategory id => let (r, st') := Resources.deleteCategory id st in (Http.status r, st')
  | GetProjects q => let (r, st') := getProjects q st in (Http.status r, st')
  | CreateProject now newId b =>
      let (r, st') := Resources.createProject now newId b st in (Http.status r, st')
  | UpdateProject id b =>
      let (r, st') := Resources.updateProject id b st in (Http.status r, st')
  | DeleteProject id => let (r, st') := Resources.deleteProject id st in (Http.status r, st')
  end.

(** The store after a sequence of requests. *)
Definition run (calls : list Call) (st : Store) : Store :=
  fold_left (fun s c => snd (serve c s)) calls st.

End Serve.

(** The store of a server that has served nothing yet. *)
Definition empty : Store := mkStore [] [] [] [].

End Api.

(* ================================================================== *)
(** * A library instance and sample data for the examples *)
(* ================================================================== *)

Module Sample.

(** Days since the epoch of a civil date. *)
Definition daysFromCivil (y m d : Z) : Z :=
  let y' := if m <=? 2 then y - 1 else y in
  let era := y' / 400 in
  let yoe := y' - era * 400 in
  let doy := (153 * (if 2 <? m then m - 3 else m + 9) + 2) / 5 + d - 1 in
  let doe := yoe * 365 + yoe / 4 - yoe / 100 + doy in
  era * 146097 + doe - 719468.

(** Calendar dates [YYYY-MM-DD], read as midnight UTC. *)
Definition calendarDate (s : string) : option Z :=
  match list_ascii_of_string s with
  | [y1; y2; y3; y4; "-"%char; m1; m2; "-"%char; d1; d2] =>
      if forallb Js.isDigit [y1; y2; y3; y4; m1; m2; d1; d2]
      then
        let y := Js.digitsVal [y1; y2; y3; y4] in
        let m := Js.digitsVal [m1; m2] in
        let d := Js.digitsVal [d1; d2] in
        if (1 <=? m) && (m <=? 12) && (1 <=? d) && (d <=? 31)
        then Some (daysFromCivil y m d * 86400000)
        else None
      else None
  | _ => None
  end.

Definition lower (c : ascii) : ascii :=
  let n := nat_of_ascii c in
  if ((65 <=? n) && (n <=? 90))%nat then ascii_of_nat (n + 32) else c.

Fixpoint isPrefix (p l : list ascii) : bool :=
  match p, l with
  | [], _ => true
  | _ :: _, [] => false
  | a :: p', b :: l' => Ascii.eqb a b && isPrefix p' l'
  end.

Fixpoint contains (p l : list ascii) : bool :=
  isPrefix p l || match l with [] => false | _ :: r => contains p r end.

(** A character that stands for itself in a pattern: a letter, a digit
    or a blank. *)
Definition plain (c : ascii) : bool :=
  let n := nat_of_ascii (lower c) in
  Js.isDigit c || ((97 <=? n) && (n <=? 122))%nat || (n =? 32)%nat.

(** The fragment of the libraries the examples run on: calendar dates,
    whole numbers for [isFloat], and patterns without metacharacters,
    which match as substrings whatever the case. *)
#[export] Instance library : Library := {|
  isISO8601 := fun s => Js.defined (calendarDate s);
  dateParse := calendarDate;
  isFloat := fun lo hi s => Js.isInt lo hi s;
  regexTestI := fun p s =>
    contains (map lower (list_ascii_of_string p)) (map lower (list_ascii_of_string s));
  regexValid := fun p => forallb plain (list_ascii_of_string p)
|}.

Definition id1 : ObjectId := "64a1b2c3d4e5f6a7b8c9d0e1".
Definition id2 : ObjectId := "64a1b2c3d4e5f6a7b8c9d0e2".
Definition id3 : ObjectId := "64a1b2c3d4e5f6a7b8c9d0e3".
Definition id4 : ObjectId := "64a1b2c3d4e5f6a7b8c9d0e4".
Definition uid1 : ObjectId := "74a1b2c3d4e5f6a7b8c9d0f1".
Definition uid2 : ObjectId := "74a1b2c3d4e5f6a7b8c9d0f2".

(** 2024-06-15T00:00:00Z *)
Definition today : Z := 1718409600000.
Definition day : Z := 86400000.

Definition task (id : ObjectId) (title status : string) (due : option Z)
    (completed : option Z) : TaskModel.Task :=
  TaskModel.mkTask id title None status "medium" "other" due None [] completed None
                   (today - 10 * day) (today - 10 * day).

(** A task completed five days ago. *)
Definition doneTask : TaskModel.Task :=
  task id1 "Ship release" "completed" None (Some (today - 5 * day)).

(** A task still pending. *)
Definition pendingTask : TaskModel.Task :=
  task id2 "Write spec" "pending" None None.

Definition store : TaskRoutes.Store :=
  TaskRoutes.mkStore [doneTask; pendingTask] [].

(** A(due yesterday, pending), B(due yesterday, completed),
    C(due tomorrow, pending). *)
Definition taskA := task id1 "A" "pending" (Some (today - day)) None.
Definition taskB := task id2 "B" "completed" (Some (today - day)) (Some (today - day)).
Definition taskC := task id3 "C" "pending" (Some (today + day)) None.

Definition abc : TaskRoutes.Store := TaskRoutes.mkStore [taskA; taskB; taskC] [].

Definition overdueQuery (status : option string) : TaskRoutes.Query.t :=
  TaskRoutes.Query.mk None None status None None None None None None (Some "true").

Definition statusBody (s : string) : TaskRoutes.Body.t :=
  TaskRoutes.Body.mk None None (Some s) None None None None None None None.

(** A full update that completes the task:
    [{ title, description, status: 'completed', priority, category, tags }] *)
Definition completeBody : TaskRoutes.Body.t :=
  TaskRoutes.Body.mk (Some "Write spec") (Some "First draft") (Some "completed")
    (Some "medium") (Some "other") None None (Some (Validation.RArr [])) None None.

Definition alice : Server.User.t :=
  Server.User.mk uid1 "alice" "alice@example.com" "secret1" (today - 3 * day) true.

Definition serverTask (id : ObjectId) (owner : ObjectId) : Server.Task.t :=
  Server.Task.mk id "T" None "medium" "pending" None owner (today - day) (today - day).

Definition serverProject (id : ObjectId) (owner : ObjectId) : Server.Project.t :=
  Server.Project.mk id "P" None "active" (today - day) None owner [] (today - day).

Definition bob : Server.User.t :=
  Server.User.mk uid2 "bob" "bob@example.com" "secret2" (today - 2 * day) true.

(** Alice owns two tasks and one project, Bob one task and one project. *)
Definition serverStore : Server.Store :=
  Server.mkStore [alice; bob]
    [serverTask id1 uid1; serverTask id2 uid2; serverTask id3 uid1]
    []
    [serverProject id1 uid1; serverProject id2 uid2].

Definition emptyServer : Server.Store := Server.mkStore [] [] [] [].

Definition listQuery (page limit : option Z) (userId : option string) : Server.ListQuery :=
  Server.mkListQuery page limit None None userId.

Definition userBody (username email password : string) : Server.UserBody.t :=
  Server.UserBody.mk (Some username) (Some email) (Some password) None.

End Sample.

(* ================================================================== *)
(** * Orders and invariants of the stores *)
(* ================================================================== *)

Module Invariant.

(** Two documents are in the order of [.sort({ [field]: dir })]. *)
Definition inOrder (field : string) (dir : Z) (a b : TaskModel.Task) : Prop :=
  (if dir =? 1
   then TaskRoutes.keyLe (TaskRoutes.sortKey field a) (TaskRoutes.sortKey field b)
   else TaskRoutes.keyLe (TaskRoutes.sortKey field b) (TaskRoutes.sortKey field a)) = true.

(** A task passes the schema validators of every path but the due date,
    whose validator depends on the clock. *)
Definition validTask (t : TaskModel.Task) : bool :=
  TaskModel.validPaths 0 (Some (TaskModel.title t)) (TaskModel.description t)
    (Some (TaskModel.status t)) (Some (TaskModel.priority t))
    (Some (TaskModel.category t)) None (Some (TaskModel.tags t)).

(** The task collection has one document per id, and each passes the
    schema validators. *)
Definition tasksOk (st : TaskRoutes.Store) : Prop :=
  NoDup (map TaskModel._id (TaskRoutes.tasks st))
  /\ Forall (fun t => validTask t = true) (TaskRoutes.tasks st).

(** [{ title }] *)
Definition titleBody (title : string) : TaskRoutes.Body.t :=
  TaskRoutes.Body.mk (Some title) None None None None None None None None None.

(** [{ dueDate }] *)
Definition dueDateBody (dueDate : string) : TaskRoutes.Body.t :=
  TaskRoutes.Body.mk None None None None None None (Some dueDate) None None None.

(** Two users of the modular server: Ann, active, in a department and
    with a generated avatar; Bo, inactive, in no department and with an
    avatar of his own. *)
Definition preferences : UserModel.Preferences :=
  UserModel.mkPreferences "light" true true true true "UTC".

Definition ann : UserModel.User :=
  UserModel.mkUser Sample.uid1 "Ann Lee" "ann@example.com" "hash1" "admin"
    "https://ui-avatars.com/api/?name=AL&background=random" (Some "Research") None None
    true None preferences Sample.today Sample.today.

Definition bo : UserModel.User :=
  UserModel.mkUser Sample.uid2 "Bo Chen" "bo@example.com" "hash2" "user"
    "bo.png" None None None false None preferences Sample.today Sample.today.

(** The users of the single-file server have one document per id, per
    user name and per email. *)
Definition usersOk (us : list Server.User.t) : Prop :=
  NoDup (map Server.User._id us)
  /\ NoDup (map Server.User.username us)
  /\ NoDup (map Server.User.email us).

(** Every task names, as its owner, the id of a stored user. *)
Definition tasksOwned (us : list Server.User.t) (ts : list Server.Task.t) : Prop :=
  Forall (fun t => In (Server.Task.userId t) (map Server.User._id us)) ts.

(** Every project names, as its owner, the id of a stored user, and
    lists no task. *)
Definition projectsOwned (us : list Server.User.t) (ps : list Server.Project.t) : Prop :=
  Forall (fun p => In (Server.Project.userId p) (map Server.User._id us)
                   /\ Server.Project.tasks p = []) ps.

(** A category has a name of 1 to 50 characters, a description of at
    most 200, and a colour that is empty or a hash sign and six
    hexadecimal digits. *)
Definition categoryOk (c : Server.Category.t) : Prop :=
  Server.Category.name c <> ""
  /\ (String.length (Server.Category.name c) <= 50)%nat
  /\ match Server.Category.description c with
     | Some d => (String.length d <= 200)%nat
     | None => True
     end
  /\ (Server.Category.color c = ""
      \/ Resources.isHexColor (Server.Category.color c) = true).

Definition categoriesOk (cs : list Server.Category.t) : Prop :=
  NoDup (map Server.Category._id cs)
  /\ NoDup (map Server.Category.name cs)
  /\ Forall categoryOk cs.

(** The invariant of the store of the single-file server. *)
Definition consistent (st : Server.Store) : Prop :=
  usersOk (Server.users st)
  /\ NoDup (map Server.Task._id (Server.tasks st))
  /\ tasksOwned (Server.users st) (Server.tasks st)
  /\ NoDup (map Server.Project._id (Server.projects st))
  /\ projectsOwned (Server.users st) (Server.projects st)
  /\ categoriesOk (Server.categories st).

End Invariant.

(* ================================================================== *)
(** * Properties *)
(* ================================================================== *)

Unset Implicit Arguments.

(** ** The statements the properties are compared with *)

Module Spec.

(** A task is overdue at [now]: it has a due date before [now] and is not
    completed. *)
Definition overdue (now : Z) (t : TaskModel.Task) : Prop :=
  (exists d, TaskModel.dueDate t = Some d /\ d < now)
  /\ TaskModel.status t <> "completed".

Definition overdueb (now : Z) (t : TaskModel.Task) : bool :=
  match TaskModel.dueDate t with
  | Some d => d <? now
  | None => false
  end
  && negb (TaskModel.status t =? "completed")%string.

(** [n] is the ceiling of [total / limit]. *)
Definition isCeiling (n total limit : Z) : Prop :=
  (n - 1) * limit < total <= n * limit.

(** The user objects of a payload of the single-file server. *)
Definition userPayloads (r : Server.Response) : list Obj.t :=
  match Http.data r with
  | Some (Server.UserData u) => [u]
  | Some (Server.UsersData l) => l
  | _ => []
  end.

(** The populated owners of the tasks of a payload. *)
Definition ownerPayloads (r : Server.Response) : list JSON :=
  match Http.data r with
  | Some (Server.TaskData t) => [Server.userOut t]
  | Some (Server.TasksData l) => map Server.userOut l
  | Some (Server.ProjectsData l) => map Server.ownerOut l
  | _ => []
  end.

(** A JSON value that is a user object carries no password; [null] and
    other values carry none either. *)
Definition noPassword (j : JSON) : Prop :=
  match j with
  | JObj o => Obj.get "password" o = None
  | _ => True
  end.

Definition setPassword (p : string) (u : Server.User.t) : Server.User.t :=
  Server.User.mk (Server.User._id u) (Server.User.username u) (Server.User.email u)
                 p (Server.User.createdAt u) (Server.User.isActive u).

(** The store with every password rewritten by [f]. *)
Definition rewritePasswords (f : Server.User.t -> string) (st : Server.Store) : Server.Store :=
  Server.setUsers (map (fun u => setPassword (f u) u) (Server.users st)) st.

Definition setModelPassword (p : string) (u : UserModel.User) : UserModel.User :=
  UserModel.mkUser (UserModel._id u) (UserModel.name u) (UserModel.email u) p
    (UserModel.role u) (UserModel.avatar u) (UserModel.department u)
    (UserModel.position u) (UserModel.phone u) (UserModel.isActive u)
    (UserModel.lastLogin u) (UserModel.preferences u) (UserModel.createdAt u)
    (UserModel.updatedAt u).

(** The tasks and the projects a user owns. *)
Definition ownsTask (id : ObjectId) (t : Server.Task.t) : bool :=
  (Server.Task.userId t =? id)%string.
Definition ownsProject (id : ObjectId) (p : Server.Project.t) : bool :=
  (Server.Project.userId p =? id)%string.

Definition setStatus (s : option string) (q : TaskRoutes.Query.t) : TaskRoutes.Query.t :=
  TaskRoutes.Query.mk (TaskRoutes.Query.page q) (TaskRoutes.Query.limit q) s
    (TaskRoutes.Query.priority q) (TaskRoutes.Query.category q)
    (TaskRoutes.Query.assignedTo q) (TaskRoutes.Query.search q)
    (TaskRoutes.Query.sortBy q) (TaskRoutes.Query.sortOrder q)
    (TaskRoutes.Query.overdue q).

(** [{ title, priority: 'high' }] *)
Definition highPriorityBody (title : string) : TaskRoutes.Body.t :=
  TaskRoutes.Body.mk (Some title) None None (Some "high") None None None None None None.

(** The document [save()] stores for such a body. *)
Definition created (now : Z) (newId : ObjectId) (title : string) : TaskModel.Task :=
  TaskModel.mkTask newId (Js.trim title) None "pending" "high" "other" None None []
                   None None now now.





(** The two answers of the list route to a query that passes its
    validation: 200 with no document and the pagination object, and the
    500 of the [catch] block. *)
Definition emptyPage (page total limit : Z) : TaskRoutes.Response :=
  Http.mkResponse 200 true None [] (Some (TaskRoutes.Many []))
    (TaskRoutes.paginationJSON page total limit).

Definition fetchFailed : TaskRoutes.Response :=
  Http.failure 500 "Server error while fetching tasks".


(** A parameter that adds a filter: present and not empty. *)
Definition given (x : option string) : option string :=
  match x with
  | Some s => if (s =? "")%string then None else Some s
  | None => None
  end.

(** The query object of an overdue listing. *)
Definition overdueFilter (now : Z) (q : TaskRoutes.Query.t) : TaskRoutes.Filter.t :=
  TaskRoutes.Filter.mk
    (Some (TaskRoutes.Filter.NotEquals "completed"))
    (given (TaskRoutes.Query.priority q))
    (given (TaskRoutes.Query.category q))
    (given (TaskRoutes.Query.assignedTo q))
    (given (TaskRoutes.Query.search q))
    (Some now).

Section WithLibrary.
Context {L : Library}.

(** The filters of a list query other than [status] and [overdue]: an
    absent or empty parameter filters nothing, and a task is assigned to
    the user of the parameter when the two ids are the same ObjectId. *)
Definition otherFilters (q : TaskRoutes.Query.t) (t : TaskModel.Task) : bool :=
  match TaskRoutes.Query.priority q with
  | Some s => (s =? "")%string || (TaskModel.priority t =? s)%string
  | None => true
  end
  && match TaskRoutes.Query.category q with
     | Some s => (s =? "")%string || (TaskModel.category t =? s)%string
     | None => true
     end
  && match TaskRoutes.Query.assignedTo q with
     | Some s =>
         (s =? "")%string
         || match TaskModel.assignedTo t with
            | Some a => sameId a s
            | None => false
            end
     | None => true
     end
  && match TaskRoutes.Query.search q with
     | Some s =>
         (s =? "")%string
         || regexTestI s (TaskModel.title t)
         || match TaskModel.description t with
            | Some d => regexTestI s d
            | None => false
            end
     | None => true
     end.

(** A field instance of a rule set that some validator rejects. *)
Definition fieldFails (now : Z) (rules : list Validation.Chain) (req : Validation.Request)
    (f : string) (m : string) : Prop :=
  exists c x v,
    In c rules
    /\ In (f, x) (Validation.instances req (Validation.location c) (Validation.selector c))
    /\ ~ (Validation.isOptional c = true /\ x = None)
    /\ In (v, m) (Validation.checks c)
    /\ Validation.rejected now v x <> [].

(** The chained query of an overdue listing for the page [v] and the
    limit [l], written without the status of the request. *)
Definition overduePlan (now : Z) (q : TaskRoutes.Query.t) (v l : Z) : TaskRoutes.Plan :=
  TaskRoutes.mkPlan (overdueFilter now q)
    (Js.orDefault (TaskRoutes.Query.sortBy q) "createdAt")
    (if (Js.orDefault (TaskRoutes.Query.sortOrder q) "desc" =? "asc")%string then 1 else -1)
    (Js.times (Js.minus (Js.number v) 1) l) l.

(** The answer to an overdue listing, written without the status of the
    request. *)
Definition overdueResponse (now : Z) (q : TaskRoutes.Query.t) (st : TaskRoutes.Store) (v l : Z)
  : TaskRoutes.Response :=
  if TaskRoutes.rejectedQuery (overdueFilter now q) then fetchFailed
  else
    match TaskRoutes.exec (overduePlan now q v l) (TaskRoutes.tasks st) with
    | [] =>
        emptyPage (Js.number v)
          (TaskRoutes.countDocuments (overdueFilter now q) (TaskRoutes.tasks st)) l
    | _ :: _ => fetchFailed
    end.

End WithLibrary.
End Spec.

(** ** Collections *)

Lemma findById_app_fresh {A} (idOf : A -> ObjectId) (id : ObjectId) (l : list A) (x : A) :
  findById idOf id l = None ->
  idOf x = id ->
  findById idOf id (l ++ [x]) = Some x.
Proof.
  unfold findById.
  induction l as [|d r IH]; simpl; intros Hnone Hid.
  - rewrite Hid, String.eqb_refl. reflexivity.
  - destruct (idOf d =? id)%string; [discriminate | auto].
Qed.

Lemma findById_some {A} (idOf : A -> ObjectId) (id : ObjectId) (l : list A) (x : A) :
  findById idOf id l = Some x -> In x l /\ idOf x = id.
Proof.
  unfold findById. intros H. apply find_some in H.
  destruct H as [Hin Heq]. apply String.eqb_eq in Heq. auto.
Qed.

Lemma findById_none {A} (idOf : A -> ObjectId) (id : ObjectId) (l : list A) :
  findById idOf id l = None -> forall x, In x l -> idOf x <> id.
Proof.
  unfold findById. intros H x Hin Heq.
  apply (find_none _ _ H) in Hin. rewrite Heq, String.eqb_refl in Hin. discriminate.
Qed.



(** ** Populating the references of a task (models/Task.js, routes/tasks.js) *)

Module Populate.

(** [assignedTo] is a path of the schema, [createdBy] is not. *)
Lemma assignedTo_declared : Js.includes TaskModel.paths "assignedTo" = true.
Proof. reflexivity. Qed.

Lemma createdBy_undeclared : Js.includes TaskModel.paths "createdBy" = false.
Proof. reflexivity. Qed.

(** The second [populate] of the routes is refused, whatever the
    document. *)
Lemma populated_refused (now : Z) (us : list UserModel.User) (t : TaskModel.Task) :
  TaskModel.populated now us t = None.
Proof. reflexivity. Qed.

(** A query result is populated exactly when it is empty. *)
Lemma populatedAll_empty (now : Z) (us : list UserModel.User) (l : list TaskModel.Task) :
  TaskModel.populatedAll now us l = match l with [] => Some [] | _ :: _ => None end.
Proof. destruct l; reflexivity. Qed.

End Populate.

(** ** The completion timestamp (models/Task.js, routes/tasks.js) *)

Module CompletedAt.
Section Facts.
Context {L : Library}.

(** The hook of [save] establishes the invariant on a document that has
    no completion timestamp yet, whatever its status. *)
Lemma preSave_new (now : Z) (t : TaskModel.Task) :
  TaskModel.completedAt t = None ->
  TaskRoutes.completedAtInvariant (TaskModel.preSave now true t).
Proof.
  intros Hnone. unfold TaskRoutes.completedAtInvariant, TaskModel.preSave.
  rewrite Hnone. simpl.
  destruct (TaskModel.status t =? "completed")%string eqn:E; simpl.
  - apply String.eqb_eq in E. split; [auto | discriminate].
  - apply String.eqb_neq in E. rewrite Hnone. split; [congruence | contradiction].
Qed.

(** The hook restores the invariant on any document whose status was
    modified. *)
Lemma preSave_modified (now : Z) (t : TaskModel.Task) :
  TaskRoutes.completedAtInvariant (TaskModel.preSave now true t).
Proof.
  unfold TaskRoutes.completedAtInvariant, TaskModel.preSave.
  destruct (TaskModel.status t =? "completed")%string eqn:E;
    destruct (TaskModel.completedAt t) eqn:C; simpl; rewrite ?C.
  - apply String.eqb_eq in E. split; [auto | discriminate].
  - apply String.eqb_eq in E. split; [auto | discriminate].
  - apply String.eqb_neq in E. split; [congruence | contradiction].
  - apply String.eqb_neq in E. split; [congruence | contradiction].
Qed.

Lemma newTask_invariant (now : Z) (newId : ObjectId) (b : TaskRoutes.Body.t)
    (t : TaskModel.Task) :
  TaskRoutes.newTask now newId b = Some t ->
  TaskRoutes.completedAtInvariant t.
Proof.
  unfold TaskRoutes.newTask. intros H.
  destruct (TaskRoutes.castDate (TaskRoutes.Body.dueDate b)); [|discriminate].
  destruct (TaskRoutes.castRef (TaskRoutes.Body.assignedTo b)); [|discriminate].
  destruct (option_map Js.trim (TaskRoutes.Body.title b)); [|discriminate].
  destruct (TaskModel.validPaths _ _ _ _ _ _ _ _); [|discriminate].
  assert (E : forall x y : TaskModel.Task, Some x = Some y -> x = y) by (intros; congruence).
  apply E in H. rewrite <- H. apply preSave_modified.
Qed.

(** The create path keeps the invariant: every stored document satisfies
    it after [POST /api/tasks] if every one did before. *)
Lemma createTask_keeps_invariant (now : Z) (newId : ObjectId) (b : TaskRoutes.Body.t)
    (st : TaskRoutes.Store) :
  Forall TaskRoutes.completedAtInvariant (TaskRoutes.tasks st) ->
  Forall TaskRoutes.completedAtInvariant
         (TaskRoutes.tasks (snd (TaskRoutes.createTask now newId b st))).
Proof.
  intros Hall. unfold TaskRoutes.createTask, Validation.handleValidationErrors.
  destruct (Validation.validationResult _ _ _); [|exact Hall].
  unfold TaskRoutes.createHandler.
  destruct (TaskRoutes.assignedUncastable _); [exact Hall|].
  destruct (TaskRoutes.assignedUserMissing _ _); [exact Hall|].
  destruct (TaskRoutes.newTask now newId b) eqn:Hnew; [|exact Hall].
  destruct (findById _ _ _); [exact Hall|].
  rewrite Populate.populated_refused.
  simpl. apply Forall_app. split; [exact Hall|].
  constructor; [|constructor]. eapply newTask_invariant; eauto.
Qed.

End Facts.
End CompletedAt.

(** C1. The stored record does not always satisfy "completedAt is non-null
    iff status is completed" after a write.  In a store whose two tasks
    satisfy it, the handler of the status-only patch, given the completed
    task and the status "pending", writes the status and leaves the
    completion timestamp set, and the full update of the pending task to
    "completed" writes the status and leaves the completion timestamp
    unset: both stored records break the invariant.  (Each request is
    answered 500 after its write, because the [populate] of [createdBy]
    that follows is refused.  The create path keeps the invariant:
    [CompletedAt.createTask_keeps_invariant].) *)
Theorem C1_update_paths_break_completedAt_invariant (L : Library) :
  Forall TaskRoutes.completedAtInvariant (TaskRoutes.tasks Sample.store)
  /\ (let (r, st') :=
        TaskRoutes.statusHandler Sample.today Sample.id1 (Sample.statusBody "pending")
                                 Sample.store in
      Http.status r = 500
      /\ exists t, findById TaskModel._id Sample.id1 (TaskRoutes.tasks st') = Some t
                   /\ TaskModel.status t = "pending"
                   /\ TaskModel.completedAt t = Some (Sample.today - 5 * Sample.day)
                   /\ ~ TaskRoutes.completedAtInvariant t)
  /\ (let (r, st') :=
        TaskRoutes.updateTask Sample.today Sample.id2 Sample.completeBody
                              Sample.store in
      Http.status r = 500
      /\ exists t, findById TaskModel._id Sample.id2 (TaskRoutes.tasks st') = Some t
                   /\ TaskModel.status t = "completed"
                   /\ TaskModel.completedAt t = None
                   /\ ~ TaskRoutes.completedAtInvariant t).
Proof.
  split; [|split].
  - repeat constructor; unfold TaskRoutes.completedAtInvariant; simpl;
      try congruence; try discriminate.
  - vm_compute. split; [reflexivity|]. eexists. split; [reflexivity|].
    repeat split; try reflexivity.
    intros [H _]. assert (E : "pending" = "completed") by (apply H; discriminate).
    discriminate E.
  - vm_compute. split; [reflexivity|]. eexists. split; [reflexivity|].
    repeat split; try reflexivity.
    intros [_ H]. apply H; reflexivity.
Qed.

(** ** Unique keys of the user collection (single-file server) *)

Module UniqueKeys.

Lemma existsb_false {A} (p : A -> bool) (l : list A) :
  (forall x, In x l -> p x = false) -> existsb p l = false.
Proof.
  induction l as [|a r IH]; simpl; intros H; [reflexivity|].
  rewrite (H a (or_introl eq_refl)). simpl. apply IH. intros x Hx. apply H. now right.
Qed.

(** A second creation with the email of a stored user, a new user name
    and a new id is rejected by the unique index on the email: the global
    error handler answers 400 with the message [email already exists] and
    the store is what it was. *)
Lemma createUser_duplicate_email (now : Z) (newId : ObjectId)
    (username email password : string) (active : option bool)
    (st : Server.Store) (u : Server.User.t) :
  username <> "" -> email <> "" -> password <> "" ->
  Server.usernameErrors username = [] ->
  Server.emailErrors email = [] ->
  Server.passwordErrors password = [] ->
  findById Server.User._id newId (Server.users st) = None ->
  (forall d, In d (Server.users st) -> Server.User.username d <> username) ->
  In u (Server.users st) ->
  Server.User.email u = email ->
  Server.createUser now newId
    (Server.UserBody.mk (Some username) (Some email) (Some password) active) st
  = (Http.failure 400 "email already exists", st).
Proof.
  intros Hu He Hp Eu Ee Ep Hfresh Hname Hin Hmail.
  apply String.eqb_neq in Hu, He, Hp.
  unfold Server.createUser, Server.asyncHandler, Server.createUserHandler. simpl.
  rewrite Hu, He, Hp. simpl.
  unfold Server.bind, Server.User_save. simpl. rewrite Eu, Ee, Ep. simpl.
  unfold Server.bind, Server.gets. rewrite Hfresh. simpl.
  unfold Server.duplicateKey.
  rewrite existsb_false.
  2:{ intros x Hx. apply filter_In in Hx. destruct Hx as [Hx _].
      apply String.eqb_neq. apply Hname. exact Hx. }
  assert (Hex : existsb (fun d => (Server.User.email d =? email)%string)
                  (filter (fun d => negb (Server.User._id d =? newId)%string)
                          (Server.users st)) = true).
  { apply existsb_exists. exists u. split.
    - apply filter_In. split; [exact Hin|].
      apply negb_true_iff, String.eqb_neq.
      exact (findById_none _ _ _ Hfresh u Hin).
    - rewrite Hmail. apply String.eqb_refl. }
  rewrite Hex. reflexivity.
Qed.

End UniqueKeys.

(** C6. Two user creations with the same email: the first answers 201, the
    second is rejected with the message [email already exists] and leaves
    the first record as it was, but the status the global error handler
    gives it is 400, not 409. *)
Theorem C6_duplicate_email_is_answered_400 :
  let (r1, st1) :=
    Server.createUser Sample.today Sample.uid1
      (Sample.userBody "alice" "a@x.io" "secret1") Sample.emptyServer in
  let (r2, st2) :=
    Server.createUser (Sample.today + 1) Sample.uid2
      (Sample.userBody "bob" "a@x.io" "secret2") st1 in
  Http.status r1 = 201
  /\ Http.status r2 = 400
  /\ Http.status r2 <> 409
  /\ Http.message r2 = Some "email already exists"
  /\ st2 = st1
  /\ Server.users st2
     = [Server.User.mk Sample.uid1 "alice" "a@x.io" "secret1" Sample.today true].
Proof.
  vm_compute. repeat split; try reflexivity. discriminate.
Qed.

(** ** Deleting a user (single-file server) *)

Module Cascade.

Lemma castable_nonempty (id : string) :
  Server.castable id = true -> (id =? "")%string = false.
Proof.
  unfold Server.castable, Js.isMongoId. destruct id; simpl; [discriminate | reflexivity].
Qed.

Lemma filter_none {A} (p : A -> bool) (l : list A) :
  (forall x, In x l -> p x = false) -> filter p l = [].
Proof.
  induction l as [|a r IH]; simpl; intros H; [reflexivity|].
  rewrite (H a (or_introl eq_refl)). apply IH. intros x Hx. apply H. now right.
Qed.

Lemma removeFirst_subset {A} (p : A -> bool) (l : list A) (x : A) :
  In x (Server.removeFirst p l) -> In x l.
Proof.
  induction l as [|a r IH]; simpl; [auto|].
  destruct (p a); simpl; intuition.
Qed.

Lemma removeFirst_keeps {A} (p : A -> bool) (l : list A) (x : A) :
  In x l -> p x = false -> In x (Server.removeFirst p l).
Proof.
  induction l as [|a r IH]; simpl; [auto|].
  intros [<- | Hin] Hp.
  - rewrite Hp. now left.
  - destruct (p a); [exact Hin | right; auto].
Qed.

(** With unique ids, removing the first document with an id removes the
    id from the collection. *)
Lemma removeFirst_gone (id : ObjectId) (l : list Server.User.t) :
  NoDup (map Server.User._id l) ->
  findById Server.User._id id
    (Server.removeFirst (fun d => (Server.User._id d =? id)%string) l) = None.
Proof.
  unfold findById.
  induction l as [|d r IH]; simpl; intros Hnd; [reflexivity|].
  inversion Hnd as [|? ? Hnotin Hnd']; subst.
  destruct (Server.User._id d =? id)%string eqn:E.
  - apply String.eqb_eq in E. subst id.
    destruct (find _ r) eqn:F; [|reflexivity].
    apply find_some in F. destruct F as [Hin Heq]. apply String.eqb_eq in Heq.
    exfalso. apply Hnotin. rewrite <- Heq. apply in_map. exact Hin.
  - simpl. rewrite E. apply IH. exact Hnd'.
Qed.

Lemma filter_split_length {A} (p : A -> bool) (l : list A) :
  (List.length (filter (fun x => negb (p x)) l) + List.length (filter p l)
   = List.length l)%nat.
Proof.
  induction l as [|a r IH]; simpl; [reflexivity|].
  destruct (p a); simpl; lia.
Qed.

(** The store after the deletion of a stored user. *)
Lemma deleteUser_found (id : string) (st : Server.Store) (u : Server.User.t) :
  Server.castable id = true ->
  findById Server.User._id id (Server.users st) = Some u ->
  Server.deleteUser id st
  = (Http.mkResponse 200 true (Some "User and associated data deleted successfully")
       [] None [],
     Server.mkStore
       (Server.removeFirst (fun d => (Server.User._id d =? id)%string) (Server.users st))
       (filter (fun t => negb (Spec.ownsTask id t)) (Server.tasks st))
       (Server.categories st)
       (filter (fun p => negb (Spec.ownsProject id p)) (Server.projects st))).
Proof.
  intros Hc Hfound.
  unfold Server.deleteUser, Server.asyncHandler, Server.deleteUserHandler,
    Server.User_findByIdAndDelete, Server.Task_deleteMany, Server.Project_deleteMany,
    Server.bind, Server.castId, Server.gets, Server.modify, Server.ret.
  rewrite Hc. simpl. rewrite Hfound. simpl. reflexivity.
Qed.

(** An id that matches no user: the store is what it was, whatever the
    shape of the id. *)
Lemma deleteUser_missing_store (id : string) (st : Server.Store) :
  findById Server.User._id id (Server.users st) = None ->
  snd (Server.deleteUser id st) = st.
Proof.
  intros Hnone.
  unfold Server.deleteUser, Server.asyncHandler, Server.deleteUserHandler,
    Server.User_findByIdAndDelete, Server.bind, Server.castId, Server.gets,
    Server.throw, Server.ret.
  destruct (Server.castable id); simpl; [rewrite Hnone|]; reflexivity.
Qed.

(** The task list filtered by an id that owns no task is empty. *)
Lemma getTasks_none_owned (q : Server.ListQuery) (id : string) (st : Server.Store) :
  Server.castable id = true ->
  Server.userIdOf q = Some id ->
  0 <= Server.skipOf q ->
  (forall t, In t (Server.tasks st) -> Server.Task.userId t <> id) ->
  Server.getTasks q st
  = (Http.mkResponse 200 true None [] (Some (Server.TasksData []))
       (Server.paginationJSON q 0), st).
Proof.
  intros Hc Hq Hskip Hnone.
  assert (Hf : filter (Server.taskMatches q (@Some ObjectId id)) (Server.tasks st) = []).
  { apply filter_none. intros t Ht. unfold Server.taskMatches, Server.idMatches.
    apply (Hnone t) in Ht. apply String.eqb_neq in Ht. rewrite Ht.
    apply andb_false_r. }
  unfold Server.getTasks, Server.asyncHandler, Server.getTasksHandler,
    Server.castFilterId, Server.bind, Server.castId, Server.gets, Server.ret.
  rewrite Hq, (castable_nonempty id Hc), Hc. simpl.
  rewrite Hf. simpl.
  unfold Server.page, Server.ret.
  destruct (Server.skipOf q <? 0) eqn:E; [apply Z.ltb_lt in E; lia|].
  rewrite skipn_nil, firstn_nil.
  destruct (Server.limitNumber q =? 0); rewrite Hf; reflexivity.
Qed.

End Cascade.

(** C5. Deleting a stored user answers 200 and removes the user, every
    task and every project whose [userId] is the user's id (N tasks and M
    projects fewer), and nothing else: the tasks and projects of other
    owners, the other users and the categories are as before.  A task list
    query filtered by the user's id then answers 200 with no task and a
    total of zero. *)
Theorem C5_delete_user_removes_dependents
    (st : Server.Store) (id : string) (u : Server.User.t) (q : Server.ListQuery) :
  Server.castable id = true ->
  NoDup (map Server.User._id (Server.users st)) ->
  findById Server.User._id id (Server.users st) = Some u ->
  Server.userIdOf q = Some id ->
  0 <= Server.skipOf q ->
  let (r, st') := Server.deleteUser id st in
  Http.status r = 200
  /\ findById Server.User._id id (Server.users st') = None
  /\ ~ In u (Server.users st')
  /\ (forall v, In v (Server.users st') -> In v (Server.users st))
  /\ (forall v, In v (Server.users st) -> Server.User._id v <> id ->
                In v (Server.users st'))
  /\ Server.tasks st' = filter (fun t => negb (Spec.ownsTask id t)) (Server.tasks st)
  /\ Server.projects st'
     = filter (fun p => negb (Spec.ownsProject id p)) (Server.projects st)
  /\ (List.length (Server.tasks st')
      + List.length (filter (Spec.ownsTask id) (Server.tasks st))
      = List.length (Server.tasks st))%nat
  /\ (List.length (Server.projects st')
      + List.length (filter (Spec.ownsProject id) (Server.projects st))
      = List.length (Server.projects st))%nat
  /\ Server.categories st' = Server.categories st
  /\ (let r2 := fst (Server.getTasks q st') in
      Http.status r2 = 200
      /\ Http.data r2 = Some (Server.TasksData [])
      /\ Obj.get "total" (Http.pagination r2) = Some (JNum 0)).
Proof.
  intros Hc Hnd Hfound Hq Hskip.
  rewrite (Cascade.deleteUser_found id st u Hc Hfound).
  cbn [Http.status Server.users Server.tasks Server.projects Server.categories].
  split; [reflexivity|].
  split; [apply Cascade.removeFirst_gone; exact Hnd|].
  split.
  { intros Hin.
    apply (findById_none _ _ _ (Cascade.removeFirst_gone id _ Hnd) u Hin).
    apply (findById_some _ _ _ _ Hfound). }
  split.
  { intros v H. eapply Cascade.removeFirst_subset; eauto. }
  split.
  { intros v Hin Hne. apply Cascade.removeFirst_keeps; [exact Hin|].
    apply String.eqb_neq. exact Hne. }
  split; [reflexivity|]. split; [reflexivity|].
  split; [apply Cascade.filter_split_length|].
  split; [apply Cascade.filter_split_length|].
  split; [reflexivity|].
  rewrite (Cascade.getTasks_none_owned q id _ Hc Hq Hskip).
  - simpl. repeat split; reflexivity.
  - simpl. intros t Ht. apply filter_In in Ht. destruct Ht as [_ Ht].
    apply negb_true_iff in Ht. unfold Spec.ownsTask in Ht.
    apply String.eqb_neq. exact Ht.
Qed.


Lemma sample_users_unique : NoDup (map Server.User._id (Server.users Sample.serverStore)).
Proof.
  repeat constructor; simpl; intros H; repeat destruct H as [H | H];
    try discriminate H; exact H.
Qed.

(** Alice, who owns two of three tasks and one of two projects, is
    deleted. *)
Lemma C5_witness :
  Server.castable Sample.uid1 = true
  /\ findById Server.User._id Sample.uid1 (Server.users Sample.serverStore)
     = Some Sample.alice
  /\ Server.skipOf (Sample.listQuery None None (Some Sample.uid1)) = 0
  /\ Server.users (snd (Server.deleteUser Sample.uid1 Sample.serverStore)) = [Sample.bob]
  /\ Server.tasks (snd (Server.deleteUser Sample.uid1 Sample.serverStore))
     = [Sample.serverTask Sample.id2 Sample.uid2]
  /\ Server.projects (snd (Server.deleteUser Sample.uid1 Sample.serverStore))
     = [Sample.serverProject Sample.id2 Sample.uid2]
  /\ Http.data
       (fst (Server.getTasks (Sample.listQuery None None (Some Sample.uid1))
               (snd (Server.deleteUser Sample.uid1 Sample.serverStore))))
     = Some (Server.TasksData []).
Proof.
  pose proof (C5_delete_user_removes_dependents Sample.serverStore Sample.uid1
                Sample.alice (Sample.listQuery None None (Some Sample.uid1))
                eq_refl sample_users_unique eq_refl eq_refl) as H.
  assert (Hskip : 0 <= Server.skipOf (Sample.listQuery None None (Some Sample.uid1)))
    by (vm_compute; discriminate).
  specialize (H Hskip).
  destruct (Server.deleteUser Sample.uid1 Sample.serverStore) as [r st'] eqn:E.
  destruct H as (_ & _ & _ & _ & _ & Ht & Hp & _ & _ & _ & _ & Hd & _).
  cbn [snd].
  assert (Hu : Server.users st' = [Sample.bob]).
  { apply (f_equal snd) in E. cbn [snd] in E. rewrite <- E. reflexivity. }
  repeat split; try reflexivity; assumption.
Defined.


(** ** Number parameters *)

Module Numbers.

Lemma isDigit_not_space (c : ascii) : Js.isDigit c = true -> Js.isSpace c = false.
Proof.
  unfold Js.isDigit, Js.isSpace. intros H.
  apply andb_true_iff in H. destruct H as [H1 H2].
  apply Nat.leb_le in H1. apply Nat.leb_le in H2.
  apply orb_false_iff. split.
  - apply andb_false_iff. right. apply Nat.leb_gt. lia.
  - apply Nat.eqb_neq. lia.
Qed.

Lemma takeWhile_all {A} (p : A -> bool) (l : list A) :
  forallb p l = true -> Js.takeWhile p l = l.
Proof.
  induction l as [|a r IH]; simpl; [reflexivity|].
  intros H. apply andb_true_iff in H. destruct H as [Ha Hr].
  rewrite Ha, (IH Hr). reflexivity.
Qed.

Lemma dropWhile_head {A} (p : A -> bool) (a : A) (l : list A) :
  p a = false -> Js.dropWhile p (a :: l) = a :: l.
Proof. intros H. simpl. rewrite H. reflexivity. Qed.

(** Integers up to 2^53 in absolute value are Numbers. *)
Lemma number_exact (n : Z) : Z.abs n <= Js.maxExact -> Js.number n = n.
Proof.
  intros H. unfold Js.number. apply Z.leb_le in H. rewrite H. reflexivity.
Qed.

Lemma number_nonneg (n : Z) : 0 <= n -> 0 <= Js.number n.
Proof.
  intros Hn. unfold Js.number.
  destruct (Z.abs n <=? Js.maxExact) eqn:E; [exact Hn|].
  apply Z.leb_gt in E. unfold Js.maxExact in E.
  assert (Hs : Z.sgn n = 1) by (apply Z.sgn_pos; lia).
  rewrite Hs, Z.mul_1_l. apply Z.shiftl_nonneg.
  assert (Hq : 0 <= Z.shiftr (Z.abs n) (Z.log2 (Z.abs n) - 52))
    by (apply Z.shiftr_nonneg; lia).
  destruct (_ <? _); [exact Hq|].
  destruct (_ <? _); [lia|].
  destruct (Z.even _); lia.
Qed.

Lemma number_positive (n : Z) : 1 <= n -> 1 <= Js.number n.
Proof.
  intros Hn. unfold Js.number.
  destruct (Z.abs n <=? Js.maxExact) eqn:E; [exact Hn|].
  apply Z.leb_gt in E. unfold Js.maxExact in E.
  assert (Hs : Z.sgn n = 1) by (apply Z.sgn_pos; lia).
  rewrite Hs, Z.mul_1_l.
  set (a := Z.abs n) in *.
  assert (Hlog : 53 <= Z.log2 a).
  { change 53 with (Z.log2 9007199254740992). apply Z.log2_le_mono. lia. }
  set (e := Z.log2 a - 52).
  assert (He : 0 <= e) by (unfold e; lia).
  assert (Hpow : 0 < 2 ^ e) by (apply Z.pow_pos_nonneg; lia).
  assert (Hle : 2 ^ e <= a).
  { transitivity (2 ^ Z.log2 a).
    - apply Z.pow_le_mono_r; unfold e; lia.
    - apply (Z.log2_spec a). lia. }
  assert (Hq : 1 <= Z.shiftr a e).
  { rewrite Z.shiftr_div_pow2 by exact He.
    apply Z.div_le_lower_bound; lia. }
  rewrite Z.shiftl_mul_pow2 by exact He.
  destruct (_ <? _); [nia|].
  destruct (_ <? _); [nia|].
  destruct (Z.even _); nia.
Qed.

(** The skip of a list route is not negative on a page of at least 1 and
    a limit that is not negative. *)
Lemma skip_nonneg (p l : Z) : 1 <= p -> 0 <= l -> 0 <= Js.times (Js.minus p 1) l.
Proof.
  intros Hp Hl. unfold Js.times, Js.minus. apply number_nonneg.
  pose proof (number_nonneg (p - 1) ltac:(lia)). nia.
Qed.


(** On an integer literal [parseInt] reads the Number of the integer the
    literal denotes. *)
Lemma intLiteral_parseInt (s : string) (v : Z) :
  Js.intLiteral s = Some v -> Js.parseInt s = Some (Js.number v).
Proof.
  unfold Js.intLiteral, Js.parseInt.
  destruct (list_ascii_of_string s) as [|c r]; [simpl; discriminate|].
  assert (Hdigits : forall neg ds,
            ds <> [] -> forallb Js.isDigit ds = true ->
            match Js.takeWhile Js.isDigit ds with
            | [] => None
            | x :: l =>
                Some (Js.number (if neg : bool then - Js.digitsVal (x :: l)
                                 else Js.digitsVal (x :: l)))
            end
            = Some (Js.number (if neg then - Js.digitsVal ds else Js.digitsVal ds))).
  { intros neg ds Hne F. rewrite (takeWhile_all _ _ F).
    destruct ds; [contradiction | reflexivity]. }
  unfold Js.signed at 1.
  destruct (Ascii.eqb c "-") eqn:Em.
  - apply Ascii.eqb_eq in Em. subst c.
    rewrite dropWhile_head by reflexivity. simpl Js.signed.
    destruct r as [|d r']; [discriminate|].
    destruct (forallb Js.isDigit (d :: r')) eqn:F; [|discriminate].
    intros H. injection H as <-. apply (Hdigits true); [discriminate | exact F].
  - destruct (Ascii.eqb c "+") eqn:Ep.
    + apply Ascii.eqb_eq in Ep. subst c.
      rewrite dropWhile_head by reflexivity. simpl Js.signed.
      destruct r as [|d r']; [discriminate|].
      destruct (forallb Js.isDigit (d :: r')) eqn:F; [|discriminate].
      intros H. injection H as <-. apply (Hdigits false); [discriminate | exact F].
    + destruct (forallb Js.isDigit (c :: r)) eqn:F; [|discriminate].
      assert (Hc : Js.isDigit c = true)
        by (simpl in F; apply andb_true_iff in F; tauto).
      rewrite (dropWhile_head _ _ _ (isDigit_not_space c Hc)).
      unfold Js.signed. rewrite Em, Ep.
      intros H. injection H as <-. apply (Hdigits false); [discriminate | exact F].
Qed.

Lemma isInt_parseInt (lo hi : option Z) (s : string) :
  Js.isInt lo hi s = true ->
  exists v, Js.intLiteral s = Some v
            /\ Js.parseInt s = Some (Js.number v)
            /\ Js.inRange lo hi v = true.
Proof.
  unfold Js.isInt. destruct (Js.intLiteral s) as [v|] eqn:E; [|discriminate].
  intros H. exists v. split; [reflexivity|].
  split; [apply intLiteral_parseInt; exact E | exact H].
Qed.


(** A ceiling is unique. *)
Lemma isCeiling_unique (n m a b : Z) :
  0 < b -> Spec.isCeiling n a b -> Spec.isCeiling m a b -> n = m.
Proof. unfold Spec.isCeiling. intros Hb Hn Hm. nia. Qed.

End Numbers.

(** ** The rule sets *)

Module Rules.
Section Facts.
Context {L : Library}.

Lemma flat_map_nil {A B} (f : A -> list B) (l : list A) :
  flat_map f l = [] -> forall x, In x l -> f x = [].
Proof.
  induction l as [|a r IH]; simpl; intros H x Hx; [contradiction|].
  apply app_eq_nil in H. destruct H as [Ha Hr].
  destruct Hx as [<- | Hx]; [exact Ha | apply IH; assumption].
Qed.

(** When a rule set reports nothing, none of its chains does. *)
Lemma chain_passes (now : Z) (rules : list Validation.Chain) (req : Validation.Request)
    (c : Validation.Chain) :
  Validation.validationResult now rules req = [] ->
  In c rules ->
  Validation.runChain now req c = [].
Proof. unfold Validation.validationResult. intros H. apply flat_map_nil. exact H. Qed.

(** A passing chain on one field: the field is optional and absent, or
    every validator accepts it. *)
Lemma field_passes (now : Z) (req : Validation.Request) (loc : Validation.Location)
    (n : string) (opt : bool) (checks : list (Validation.Validator * string))
    (v : Validation.Validator) (m : string) :
  Validation.runChain now req (Validation.mkChain loc (Validation.Field n) opt checks) = [] ->
  In (v, m) checks ->
  req loc n = None \/ Validation.rejected now v (req loc n) = [].
Proof.
  unfold Validation.runChain. simpl. rewrite app_nil_r.
  unfold Validation.runInstance. simpl.
  intros H Hin.
  destruct opt; destruct (req loc n) as [x|] eqn:E; try (left; reflexivity); right.
  all: pose proof (flat_map_nil _ _ H (v, m) Hin) as Hv; simpl in Hv;
    apply map_eq_nil in Hv; exact Hv.
Qed.

(** A string that a standard validator does not reject is accepted. *)
Lemma accepted_string (now : Z) (v : Validation.Validator) (s : string) :
  v <> Validation.IsArray ->
  Validation.rejected now v (Some (Validation.RStr s)) = [] ->
  Validation.standard now v s = true.
Proof.
  intros Hv. unfold Validation.rejected.
  destruct v; try contradiction;
    (destruct (Validation.standard now _ s); [reflexivity | discriminate]).
Qed.

(** A present string field of a passing rule set is accepted by each
    validator of its chain. *)
Lemma string_field_valid (now : Z) (rules : list Validation.Chain)
    (req : Validation.Request) (loc : Validation.Location) (n : string) (opt : bool)
    (checks : list (Validation.Validator * string)) (v : Validation.Validator)
    (m s : string) :
  Validation.validationResult now rules req = [] ->
  In (Validation.mkChain loc (Validation.Field n) opt checks) rules ->
  In (v, m) checks ->
  v <> Validation.IsArray ->
  req loc n = Some (Validation.RStr s) ->
  Validation.standard now v s = true.
Proof.
  intros Hres Hc Hv Hna Hreq.
  pose proof (chain_passes _ _ _ _ Hres Hc) as Hchain.
  destruct (field_passes _ _ _ _ _ _ _ _ Hchain Hv) as [Hn | Hr].
  - rewrite Hreq in Hn. discriminate.
  - rewrite Hreq in Hr. apply accepted_string; assumption.
Qed.

(** What a passing list query says about [page] and [limit]: the page is
    the literal of an integer of at least 1, which the handler reads as a
    Number; the limit is an integer from 1 to 100. *)
Lemma query_page (now : Z) (q : TaskRoutes.Query.t) :
  Validation.validationResult now Validation.query (TaskRoutes.queryRequest q) = [] ->
  exists v,
    Js.intLiteral (Js.orDefault (TaskRoutes.Query.page q) "1") = Some v
    /\ 1 <= v
    /\ Js.parseInt (Js.orDefault (TaskRoutes.Query.page q) "1") = Some (Js.number v).
Proof.
  intros H. destruct (TaskRoutes.Query.page q) as [s|] eqn:E; simpl.
  - assert (Hs : Validation.standard now (Validation.IsInt (Some 1) None) s = true).
    { eapply string_field_valid with (n := "page"); try exact H.
      - simpl. left. reflexivity.
      - simpl. left. reflexivity.
      - discriminate.
      - unfold TaskRoutes.queryRequest, TaskRoutes.Query.get. simpl.
        rewrite E. reflexivity. }
    simpl in Hs. apply Numbers.isInt_parseInt in Hs. destruct Hs as (v & Hv & Hp & Hr).
    exists v. split; [exact Hv|]. split; [|exact Hp]. unfold Js.inRange in Hr.
    apply andb_true_iff in Hr. destruct Hr as [Hr _]. apply Z.leb_le in Hr. exact Hr.
  - exists 1. split; [reflexivity|]. split; [lia | reflexivity].
Qed.

Lemma query_limit (now : Z) (q : TaskRoutes.Query.t) :
  Validation.validationResult now Validation.query (TaskRoutes.queryRequest q) = [] ->
  exists l, Js.parseInt (Js.orDefault (TaskRoutes.Query.limit q) "10") = Some l
            /\ 1 <= l <= 100.
Proof.
  intros H. destruct (TaskRoutes.Query.limit q) as [s|] eqn:E; simpl.
  - assert (Hs : Validation.standard now (Validation.IsInt (Some 1) (Some 100)) s = true).
    { eapply string_field_valid with (n := "limit"); try exact H.
      - simpl. right. left. reflexivity.
      - simpl. left. reflexivity.
      - discriminate.
      - unfold TaskRoutes.queryRequest, TaskRoutes.Query.get. simpl.
        rewrite E. reflexivity. }
    simpl in Hs. apply Numbers.isInt_parseInt in Hs. destruct Hs as (v & _ & Hp & Hr).
    unfold Js.inRange in Hr.
    apply andb_true_iff in Hr. destruct Hr as [H1 H2].
    apply Z.leb_le in H1. apply Z.leb_le in H2.
    exists v. split; [|lia].
    rewrite Hp, Numbers.number_exact; [reflexivity | unfold Js.maxExact; lia].
  - exists 10. split; [reflexivity | lia].
Qed.

End Facts.
End Rules.

(** ** Pagination *)

Module Pagination.
Section Facts.
Context {L : Library}.

(** A passing list query reaches the handler. *)
Lemma getTasks_valid (now : Z) (q : TaskRoutes.Query.t) (st : TaskRoutes.Store) :
  Validation.validationResult now Validation.query (TaskRoutes.queryRequest q) = [] ->
  TaskRoutes.getTasks now q st = TaskRoutes.listHandler now q st.
Proof.
  intros H. unfold TaskRoutes.getTasks, Validation.handleValidationErrors.
  rewrite H. reflexivity.
Qed.

(** The list route of routes/tasks.js on a passing query: the answer is
    200, with no document, when the store accepts the query object and
    the page of the matches is empty, and the 500 of the [catch] block
    otherwise. *)
Lemma tasks_list (now : Z) (q : TaskRoutes.Query.t) (st : TaskRoutes.Store) :
  Validation.validationResult now Validation.query (TaskRoutes.queryRequest q) = [] ->
  exists v l plan,
    Js.intLiteral (Js.orDefault (TaskRoutes.Query.page q) "1") = Some v
    /\ 1 <= v
    /\ Js.parseInt (Js.orDefault (TaskRoutes.Query.limit q) "10") = Some l
    /\ 1 <= l <= 100
    /\ TaskRoutes.listPlan now q = Some plan
    /\ plan = TaskRoutes.mkPlan (TaskRoutes.buildQuery now q)
                (Js.orDefault (TaskRoutes.Query.sortBy q) "createdAt")
                (if (Js.orDefault (TaskRoutes.Query.sortOrder q) "desc" =? "asc")%string
                 then 1 else -1)
                (Js.times (Js.minus (Js.number v) 1) l) l
    /\ TaskRoutes.getTasks now q st
       = (if TaskRoutes.rejectedQuery (TaskRoutes.buildQuery now q)
          then Spec.fetchFailed
          else match TaskRoutes.exec plan (TaskRoutes.tasks st) with
               | [] =>
                   Spec.emptyPage (Js.number v)
                     (TaskRoutes.countDocuments (TaskRoutes.buildQuery now q)
                        (TaskRoutes.tasks st)) l
               | _ :: _ => Spec.fetchFailed
               end,
          st).
Proof.
  intros H.
  destruct (Rules.query_page now q H) as (v & Hv & Hv1 & Hp).
  destruct (Rules.query_limit now q H) as (l & Hl & Hl1).
  exists v, l. eexists.
  split; [exact Hv|]. split; [exact Hv1|]. split; [exact Hl|]. split; [exact Hl1|].
  split; [unfold TaskRoutes.listPlan; rewrite Hp, Hl; reflexivity|].
  split; [reflexivity|].
  rewrite (getTasks_valid now q st H). unfold TaskRoutes.listHandler, TaskRoutes.listPlan.
  rewrite Hp, Hl. cbn [TaskRoutes.filterOf TaskRoutes.limit].
  destruct (TaskRoutes.rejectedQuery (TaskRoutes.buildQuery now q)); [reflexivity|].
  rewrite Populate.populatedAll_empty.
  destruct (TaskRoutes.exec _ (TaskRoutes.tasks st)); reflexivity.
Qed.

Lemma page_ok {A} (skip limit : Z) (l : list A) (st : Server.Store) :
  0 <= skip -> 1 <= limit ->
  Server.page skip limit l st
  = (Server.Return (firstn (Z.to_nat limit) (skipn (Z.to_nat skip) l)), st).
Proof.
  intros Hs Hl. unfold Server.page.
  destruct (skip <? 0) eqn:E; [apply Z.ltb_lt in E; lia|].
  destruct (limit =? 0) eqn:E0; [apply Z.eqb_eq in E0; lia|].
  rewrite Z.abs_eq by lia. reflexivity.
Qed.

(** A limit from 1 to 100 is read as it is, and a page of at least 1
    gives a skip that is not negative. *)
Lemma limitNumber_exact (q : Server.ListQuery) :
  1 <= Server.orZ (Server.limitOf q) 10 <= 100 ->
  Server.limitNumber q = Server.orZ (Server.limitOf q) 10.
Proof.
  intros H. unfold Server.limitNumber. apply Numbers.number_exact.
  unfold Js.maxExact. lia.
Qed.

Lemma skipOf_nonneg (q : Server.ListQuery) :
  1 <= Server.orZ (Server.pageOf q) 1 ->
  1 <= Server.orZ (Server.limitOf q) 10 <= 100 ->
  0 <= Server.skipOf q.
Proof.
  intros Hp Hl. unfold Server.skipOf. rewrite (limitNumber_exact q Hl).
  apply Numbers.skip_nonneg; [|lia].
  unfold Server.pageNumber. apply Numbers.number_positive. exact Hp.
Qed.



End Facts.
End Pagination.




(** ** References to users *)

Module References.
Section Facts.
Context {L : Library}.








End Facts.
End References.




(** ** Trimmed strings *)

Module Trimming.

Lemma length_of_list (l : list ascii) :
  String.length (string_of_list_ascii l) = List.length l.
Proof. induction l as [|a r IH]; simpl; congruence. Qed.

Lemma length_to_list (s : string) :
  List.length (list_ascii_of_string s) = String.length s.
Proof. induction s as [|a r IH]; simpl; congruence. Qed.

Lemma dropWhile_length {A} (p : A -> bool) (l : list A) :
  (List.length (Js.dropWhile p l) <= List.length l)%nat.
Proof.
  induction l as [|a r IH]; simpl; [lia|].
  destruct (p a); simpl; lia.
Qed.

(** Trimming never lengthens a string. *)
Lemma trim_length (s : string) : (String.length (Js.trim s) <= String.length s)%nat.
Proof.
  unfold Js.trim. rewrite length_of_list, length_rev.
  pose proof (dropWhile_length Js.isSpace
                (rev (Js.dropWhile Js.isSpace (list_ascii_of_string s)))) as H1.
  rewrite length_rev in H1.
  pose proof (dropWhile_length Js.isSpace (list_ascii_of_string s)) as H2.
  rewrite length_to_list in H2. lia.
Qed.

End Trimming.

(** ** Create, then fetch by id (routes/tasks.js) *)

Module RoundTrip.
Section Facts.
Context {L : Library}.

Lemma newTask_body (now : Z) (newId : ObjectId) (title : string) (t : TaskModel.Task) :
  TaskRoutes.newTask now newId (Spec.highPriorityBody title) = Some t ->
  t = Spec.created now newId title.
Proof.
  unfold TaskRoutes.newTask, Spec.highPriorityBody. simpl.
  destruct (TaskModel.validPaths _ _ _ _ _ _ _ _); [|discriminate].
  intros H. injection H as <-. reflexivity.
Qed.

(** A title that is not blank and has at most 100 characters is stored
    under a fresh id; the [populate] that follows the save is refused and
    the answer is that of the [catch] block. *)
Lemma create_stores (now : Z) (newId : ObjectId) (title : string)
    (st : TaskRoutes.Store) :
  title <> "" ->
  (String.length title <= 100)%nat ->
  Js.trim title <> "" ->
  findById TaskModel._id newId (TaskRoutes.tasks st) = None ->
  TaskRoutes.createTask now newId (Spec.highPriorityBody title) st
  = (Http.failure 500 "Server error while creating task",
     TaskRoutes.mkStore (TaskRoutes.tasks st ++ [Spec.created now newId title])
                        (TaskRoutes.users st)).
Proof.
  intros Hne Hlen Htne Hfresh.
  assert (Htlen : (String.length (Js.trim title) <= 100)%nat)
    by (pose proof (Trimming.trim_length title); lia).
  apply String.eqb_neq in Hne. apply String.eqb_neq in Htne.
  apply Nat.leb_le in Hlen. apply Nat.leb_le in Htlen.
  unfold TaskRoutes.createTask, Validation.handleValidationErrors.
  assert (V : Validation.validationResult now Validation.create
                (TaskRoutes.request "" (Spec.highPriorityBody title)) = []).
  { unfold Validation.validationResult, Validation.create, Validation.commonBody.
    simpl. unfold Validation.runChain, Validation.runInstance. simpl.
    rewrite Hne, Hlen. simpl.
    destruct (String.length title) eqn:E.
    - destruct title; [discriminate | simpl in E; discriminate].
    - reflexivity. }
  rewrite V. unfold TaskRoutes.createHandler. simpl.
  unfold TaskRoutes.newTask, Spec.highPriorityBody. simpl.
  unfold TaskModel.validPaths, TaskModel.maxlength. simpl.
  rewrite Htne, Htlen, Hfresh. simpl. reflexivity.
Qed.

(** The handler of [GET /api/tasks/:id] on a stored task. *)
Lemma getHandler_stored (now : Z) (id : string) (st : TaskRoutes.Store)
    (t : TaskModel.Task) :
  findById TaskModel._id id (TaskRoutes.tasks st) = Some t ->
  TaskRoutes.getHandler now id st
  = (Http.failure 500 "Server error while fetching task", st).
Proof.
  intros Hfound. unfold TaskRoutes.getHandler. rewrite Hfound. reflexivity.
Qed.

End Facts.
End RoundTrip.

(** C8. The round trip returns no record.  For a body with only a title
    (not blank, of at most 100 characters) and priority "high", and a new
    id, [POST /api/tasks] stores a task with the title trimmed, status
    "pending", priority "high", category "other" and no due date, whose
    [isOverdue] virtual is [undefined] at any time, and then answers 500
    without a record: the [populate] of [createdBy] that follows the save
    is refused.  The handler of [GET /api/tasks/:id] finds the task and
    answers 500 without a record for the same reason. *)
Theorem C8_create_then_fetch_returns_no_record (L : Library)
    (now later : Z) (newId : ObjectId) (title : string) (st : TaskRoutes.Store) :
  title <> "" ->
  (String.length title <= 100)%nat ->
  Js.trim title <> "" ->
  findById TaskModel._id newId (TaskRoutes.tasks st) = None ->
  let (r, st') := TaskRoutes.createTask now newId (Spec.highPriorityBody title) st in
  Http.status r = 500
  /\ Http.status r <> 201
  /\ Http.message r = Some "Server error while creating task"
  /\ Http.data r = None
  /\ (exists t,
        TaskRoutes.tasks st' = (TaskRoutes.tasks st ++ [t])%list
        /\ findById TaskModel._id newId (TaskRoutes.tasks st') = Some t
        /\ TaskModel.title t = Js.trim title
        /\ TaskModel.status t = "pending"
        /\ TaskModel.priority t = "high"
        /\ TaskModel.category t = "other"
        /\ TaskModel.dueDate t = None
        /\ TaskModel.isOverdue later t = None)
  /\ (let (r2, st2) := TaskRoutes.getHandler later newId st' in
      Http.status r2 = 500
      /\ Http.status r2 <> 200
      /\ Http.message r2 = Some "Server error while fetching task"
      /\ Http.data r2 = None
      /\ st2 = st').
Proof.
  intros Hne Hlen Htne Hfresh.
  rewrite (RoundTrip.create_stores now newId title st Hne Hlen Htne Hfresh).
  assert (Hstored : findById TaskModel._id newId
                      (TaskRoutes.tasks st ++ [Spec.created now newId title])
                    = Some (Spec.created now newId title))
    by (apply findById_app_fresh; [exact Hfresh | reflexivity]).
  split; [reflexivity|]. split; [discriminate|]. split; [reflexivity|].
  split; [reflexivity|].
  split.
  { exists (Spec.created now newId title). cbn [TaskRoutes.tasks].
    split; [reflexivity|]. split; [exact Hstored|]. repeat split; reflexivity. }
  rewrite (RoundTrip.getHandler_stored later newId
             (TaskRoutes.mkStore (TaskRoutes.tasks st ++ [Spec.created now newId title])
                                 (TaskRoutes.users st))
             (Spec.created now newId title) Hstored).
  split; [reflexivity|]. split; [discriminate|]. repeat split; reflexivity.
Qed.

Lemma C8_witness :
  findById TaskModel._id Sample.id4 (TaskRoutes.tasks Sample.store) = None
  /\ Http.status
       (fst (TaskRoutes.createTask (L:=Sample.library) Sample.today Sample.id4
               (Spec.highPriorityBody "Write spec") Sample.store)) = 500
  /\ Http.status
       (fst (TaskRoutes.getHandler (Sample.today + 1) Sample.id4
               (snd (TaskRoutes.createTask (L:=Sample.library) Sample.today Sample.id4
                       (Spec.highPriorityBody "Write spec") Sample.store)))) = 500.
Proof.
  assert (Hne : "Write spec" <> "") by discriminate.
  assert (Hlen : (String.length "Write spec" <= 100)%nat) by (simpl; lia).
  assert (Htne : Js.trim "Write spec" <> "") by discriminate.
  pose proof (C8_create_then_fetch_returns_no_record Sample.library Sample.today
                (Sample.today + 1) Sample.id4 "Write spec" Sample.store
                Hne Hlen Htne eq_refl) as H.
  destruct (TaskRoutes.createTask (L:=Sample.library) Sample.today Sample.id4
              (Spec.highPriorityBody "Write spec") Sample.store) as [r st'].
  destruct H as (Hs & _ & _ & _ & _ & Hget).
  cbn [fst snd].
  destruct (TaskRoutes.getHandler (Sample.today + 1) Sample.id4 st') as [r2 st2].
  destruct Hget as (Hs2 & _).
  split; [reflexivity|]. split; [exact Hs | exact Hs2].
Defined.

(** ** Rejection by the validation middleware *)

Module Rejection.
Section Facts.
Context {L : Library}.

(** Every value a validator of a chain rejects is reported, with the
    field and the message of the validator. *)
Lemma rejection_reported (now : Z) (rules : list Validation.Chain)
    (req : Validation.Request) (c : Validation.Chain) (f m : string)
    (x r0 : option Validation.Raw) (v : Validation.Validator) :
  In c rules ->
  In (f, x) (Validation.instances req (Validation.location c) (Validation.selector c)) ->
  ~ (Validation.isOptional c = true /\ x = None) ->
  In (v, m) (Validation.checks c) ->
  In r0 (Validation.rejected now v x) ->
  In (Validation.mkError f m r0) (Validation.validationResult now rules req).
Proof.
  intros Hc Hinst Hpresent Hv Hrej.
  unfold Validation.validationResult. apply in_flat_map. exists c. split; [exact Hc|].
  unfold Validation.runChain. apply in_flat_map. exists (f, x). split; [exact Hinst|].
  assert (Hrun : In (Validation.mkError f m r0)
                    (flat_map (fun vm : Validation.Validator * string =>
                                 let '(v0, m0) := vm in
                                 map (fun r => Validation.mkError f m0 r)
                                     (Validation.rejected now v0 x))
                              (Validation.checks c))).
  { apply in_flat_map. exists (v, m). split; [exact Hv|].
    apply in_map. exact Hrej. }
  unfold Validation.runInstance.
  destruct (Validation.isOptional c) eqn:O; destruct x as [x|]; try exact Hrun.
  exfalso. apply Hpresent. split; reflexivity.
Qed.

Lemma failing_field_reported (now : Z) (rules : list Validation.Chain)
    (req : Validation.Request) (f m : string) :
  Spec.fieldFails now rules req f m ->
  exists x, In (Validation.mkError f m x) (Validation.validationResult now rules req).
Proof.
  intros (c & x & v & Hc & Hinst & Hpresent & Hv & Hrej).
  destruct (Validation.rejected now v x) as [|r0 rest] eqn:R; [contradiction|].
  exists r0.
  apply (rejection_reported now rules req c f m x r0 v); try assumption.
  rewrite R. left. reflexivity.
Qed.






(** The middleware on a non-empty report: 400 with every report, the
    store untouched and the rest of the chain not run. *)
Lemma rejects {D S : Type} (errs : list Validation.ValidationError)
    (next : S -> Http.Response D * S) (st : S) :
  errs <> [] ->
  Validation.handleValidationErrors errs next st
  = (Http.mkResponse 400 false (Some "Validation failed")
       (map Validation.errorJSON errs) None [], st).
Proof.
  destruct errs; [contradiction | reflexivity].
Qed.

(** The create route of routes/tasks.js is such a chain. *)
Lemma createTask_rejected (now : Z) (newId : ObjectId) (b : TaskRoutes.Body.t)
    (st : TaskRoutes.Store) (f m : string) :
  Spec.fieldFails now Validation.create (TaskRoutes.request "" b) f m ->
  TaskRoutes.createTask now newId b st
  = (Http.mkResponse 400 false (Some "Validation failed")
       (map Validation.errorJSON
            (Validation.validationResult now Validation.create (TaskRoutes.request "" b)))
       None [], st).
Proof.
  intros H. unfold TaskRoutes.createTask. apply rejects.
  destruct (failing_field_reported _ _ _ _ _ H) as [x Hx].
  intros E. rewrite E in Hx. contradiction.
Qed.

End Facts.
End Rejection.



(** ** The password never leaves the server *)

Module Secrecy.

Lemma delete_get (k : string) (o : Obj.t) : Obj.get k (Obj.delete k o) = None.
Proof.
  induction o as [|[k' v] r IH]; simpl; [reflexivity|].
  destruct (k' =? k)%string eqn:E; [exact IH|]. simpl. rewrite E. exact IH.
Qed.

Lemma projection_get (keep : list string) (k : string) (o : Obj.t) :
  Js.includes keep k = false ->
  Obj.get k (filter (fun kv => Js.includes keep (fst kv)) o) = None.
Proof.
  intros Hk. induction o as [|[k' v] r IH]; simpl; [reflexivity|].
  destruct (Js.includes keep k') eqn:E; [|exact IH].
  simpl. destruct (k' =? k)%string eqn:Ek; [|exact IH].
  apply String.eqb_eq in Ek. subst k'. rewrite Hk in E. discriminate.
Qed.

Lemma populateUser_noPassword (us : list Server.User.t) (id : ObjectId) :
  Spec.noPassword (Server.populateUser us id).
Proof.
  unfold Server.populateUser. destruct (findById _ _ _); simpl; [|exact I].
  reflexivity.
Qed.

Lemma model_populate_noPassword (us : list UserModel.User) (ref : option ObjectId) :
  match UserModel.populate us ref with
  | Some j => Spec.noPassword j
  | None => True
  end.
Proof.
  unfold UserModel.populate. destruct ref as [id|]; [|exact I].
  destruct (findById _ _ _); simpl; [|exact I].
  unfold UserModel.populated, UserModel.transform. apply delete_get.
Qed.

(** The three user routes of the single-file server. *)
Lemma getUsers_noPassword (q : Server.ListQuery) (st : Server.Store) :
  Forall (fun o => Obj.get "password" o = None)
         (Spec.userPayloads (fst (Server.getUsers q st))).
Proof.
  unfold Server.getUsers, Server.asyncHandler, Server.getUsersHandler, Server.bind,
    Server.gets, Server.ret.
  destruct (Server.page _ _ _ st) as [[found | e] st'].
  - unfold Spec.userPayloads. simpl. apply Forall_forall. intros o Ho.
    apply in_map_iff in Ho. destruct Ho as (u & <- & _). apply delete_get.
  - unfold Spec.userPayloads. destruct e; simpl; constructor.
Qed.

Lemma createUser_noPassword (now : Z) (newId : ObjectId) (b : Server.UserBody.t)
    (st : Server.Store) :
  Forall (fun o => Obj.get "password" o = None)
         (Spec.userPayloads (fst (Server.createUser now newId b st))).
Proof.
  unfold Server.createUser, Server.asyncHandler, Server.createUserHandler.
  destruct (Server.UserBody.username b) as [username|]; [|constructor].
  destruct (Server.UserBody.email b) as [email|]; [|constructor].
  destruct (Server.UserBody.password b) as [password|]; [|constructor].
  destruct ((username =? "")%string || (email =? "")%string || (password =? "")%string);
    [constructor|].
  unfold Server.bind.
  destruct (Server.User_save _ st) as [[[] | e] st'].
  - unfold Spec.userPayloads. simpl. constructor; [reflexivity | constructor].
  - unfold Spec.userPayloads. destruct e; simpl; constructor.
Qed.

Lemma updateUser_noPassword (id : string) (b : Server.UserBody.t) (st : Server.Store) :
  Forall (fun o => Obj.get "password" o = None)
         (Spec.userPayloads (fst (Server.updateUser id b st))).
Proof.
  unfold Server.updateUser, Server.asyncHandler, Server.updateUserHandler, Server.bind.
  destruct (Server.User_findByIdAndUpdate id b st) as [[[u|] | e] st'].
  - unfold Spec.userPayloads. simpl. constructor; [apply delete_get | constructor].
  - constructor.
  - unfold Spec.userPayloads. destruct e; simpl; constructor.
Qed.

Lemma getTasks_owner_noPassword (q : Server.ListQuery) (st : Server.Store) :
  Forall Spec.noPassword (Spec.ownerPayloads (fst (Server.getTasks q st))).
Proof.
  unfold Server.getTasks, Server.asyncHandler, Server.getTasksHandler, Server.bind,
    Server.gets, Server.ret.
  destruct (Server.castFilterId (Server.userIdOf q) st) as [[uid | e] st0].
  - destruct (Server.page _ _ _ st0) as [[found | e] st'].
    + unfold Spec.ownerPayloads. simpl. apply Forall_forall. intros j Hj.
      apply in_map_iff in Hj. destruct Hj as (t & <- & Ht).
      apply in_map_iff in Ht. destruct Ht as (t0 & <- & _).
      apply populateUser_noPassword.
    + unfold Spec.ownerPayloads. destruct e; simpl; constructor.
  - unfold Spec.ownerPayloads. destruct e; simpl; constructor.
Qed.

Lemma createTask_owner_noPassword (L : Library) (now : Z) (newId : ObjectId)
    (b : Server.TaskBody.t) (st : Server.Store) :
  Forall Spec.noPassword (Spec.ownerPayloads (fst (Server.createTask now newId b st))).
Proof.
  unfold Server.createTask, Server.asyncHandler, Server.createTaskHandler.
  destruct (Server.TaskBody.title b) as [title|]; [|constructor].
  destruct (Server.TaskBody.userId b) as [userId|]; [|constructor].
  destruct ((title =? "")%string || (userId =? "")%string); [constructor|].
  unfold Server.bind.
  destruct (Server.User_findById userId st) as [[[u|] | e] st0].
  - destruct (Server.Task_create now newId title userId b st0) as [[t | e] st1].
    + unfold Spec.ownerPayloads. simpl.
      constructor; [apply populateUser_noPassword | constructor].
    + unfold Spec.ownerPayloads. destruct e; simpl; constructor.
  - constructor.
  - unfold Spec.ownerPayloads. destruct e; simpl; constructor.
Qed.

(** The tasks of routes/tasks.js as they are written: the populated
    references carry no password. *)
Lemma output_noPassword (now : Z) (us : list UserModel.User) (t : TaskModel.Task) :
  match TaskModel.assignedToOut (TaskModel.output now us t) with
  | Some j => Spec.noPassword j
  | None => True
  end
  /\ match TaskModel.createdByOut (TaskModel.output now us t) with
     | Some j => Spec.noPassword j
     | None => True
     end.
Proof.
  split; apply model_populate_noPassword.
Qed.

(** The serialised user does not depend on the password. *)
Lemma select_setPassword (p : string) (u : Server.User.t) :
  Server.selectWithoutPassword (Server.User.paths (Spec.setPassword p u))
  = Server.selectWithoutPassword (Server.User.paths u).
Proof. reflexivity. Qed.

Lemma toJSON_setPassword (p : string) (u : UserModel.User) :
  UserModel.toJSON (Spec.setModelPassword p u) = UserModel.toJSON u.
Proof.
  unfold UserModel.toJSON, UserModel.transform, UserModel.toObject, UserModel.paths.
  simpl. reflexivity.
Qed.

Lemma insertBy_map {A} (f : A -> A) (le : A -> A -> bool) (x : A) (l : list A) :
  (forall a b, le (f a) (f b) = le a b) ->
  Server.insertBy le (f x) (map f l) = map f (Server.insertBy le x l).
Proof.
  intros Hle. induction l as [|y r IH]; simpl; [reflexivity|].
  rewrite Hle. destruct (le x y); simpl; [reflexivity | rewrite IH; reflexivity].
Qed.

Lemma sort_map {A} (f : A -> A) (key : A -> Z) (l : list A) :
  (forall a, key (f a) = key a) ->
  Server.sortNewestFirst key (map f l) = map f (Server.sortNewestFirst key l).
Proof.
  intros Hk. unfold Server.sortNewestFirst.
  induction l as [|x r IH]; simpl; [reflexivity|].
  rewrite IH. apply insertBy_map. intros a b. rewrite !Hk. reflexivity.
Qed.

Lemma filter_map_same {A} (f : A -> A) (p : A -> bool) (l : list A) :
  (forall a, p (f a) = p a) ->
  filter p (map f l) = map f (filter p l).
Proof.
  intros Hp. induction l as [|x r IH]; simpl; [reflexivity|].
  rewrite Hp. destruct (p x); simpl; rewrite IH; reflexivity.
Qed.

(** The list of users is the same whatever the stored passwords. *)
Lemma getUsers_rewritePasswords (f : Server.User.t -> string) (q : Server.ListQuery)
    (st : Server.Store) :
  fst (Server.getUsers q (Spec.rewritePasswords f st)) = fst (Server.getUsers q st).
Proof.
  set (g := fun u => Spec.setPassword (f u) u).
  unfold Server.getUsers, Server.asyncHandler, Server.getUsersHandler, Server.bind,
    Server.gets, Server.ret, Spec.rewritePasswords, Server.page. simpl.
  fold g.
  rewrite (filter_map_same g (Server.userMatches q)) by reflexivity.
  rewrite (sort_map g Server.User.createdAt) by reflexivity.
  destruct (Server.skipOf q <? 0); simpl; [reflexivity|].
  rewrite skipn_map.
  unfold Server.lengthZ.
  rewrite (filter_map_same g (Server.userMatches q)) by reflexivity.
  rewrite length_map.
  destruct (Server.limitNumber q =? 0); simpl.
  - rewrite map_map. reflexivity.
  - rewrite firstn_map, map_map. reflexivity.
Qed.

End Secrecy.

(** C9. No serialised user carries a password.  The [toJSON] transform of
    the user model removes it from whatever object it is given, so the JSON
    of a user document, its public profile and a populated reference have
    no [password] member, and the JSON of a user does not change with its
    password; the references populated into the tasks of routes/tasks.js
    have none.  In the single-file server the users of the list, create and
    update responses and the populated owners of tasks have no [password]
    member, and the list response is the same whatever the passwords in
    the store. *)
Theorem C9_password_is_never_serialized :
  (forall ret : Obj.t, Obj.get "password" (UserModel.transform ret) = None)
  /\ (forall u : UserModel.User,
        Obj.get "password" (UserModel.toJSON u) = None
        /\ Obj.get "password" (UserModel.getPublicProfile u) = None
        /\ Obj.get "password" (UserModel.populated u) = None)
  /\ (forall (u : UserModel.User) (p : string),
        UserModel.toJSON (Spec.setModelPassword p u) = UserModel.toJSON u)
  /\ (forall (q : Server.ListQuery) (st : Server.Store),
        Forall (fun o => Obj.get "password" o = None)
               (Spec.userPayloads (fst (Server.getUsers q st))))
  /\ (forall (now : Z) (newId : ObjectId) (b : Server.UserBody.t) (st : Server.Store),
        Forall (fun o => Obj.get "password" o = None)
               (Spec.userPayloads (fst (Server.createUser now newId b st))))
  /\ (forall (id : string) (b : Server.UserBody.t) (st : Server.Store),
        Forall (fun o => Obj.get "password" o = None)
               (Spec.userPayloads (fst (Server.updateUser id b st))))
  /\ (forall (q : Server.ListQuery) (st : Server.Store),
        Forall Spec.noPassword (Spec.ownerPayloads (fst (Server.getTasks q st))))
  /\ (forall (L : Library) (now : Z) (newId : ObjectId) (b : Server.TaskBody.t)
             (st : Server.Store),
        Forall Spec.noPassword
               (Spec.ownerPayloads (fst (Server.createTask now newId b st))))
  /\ (forall (now : Z) (us : list UserModel.User) (t : TaskModel.Task),
        match TaskModel.assignedToOut (TaskModel.output now us t) with
        | Some j => Spec.noPassword j
        | None => True
        end
        /\ match TaskModel.createdByOut (TaskModel.output now us t) with
           | Some j => Spec.noPassword j
           | None => True
           end)
  /\ (forall (u : Server.User.t) (p : string),
        Server.selectWithoutPassword (Server.User.paths (Spec.setPassword p u))
        = Server.selectWithoutPassword (Server.User.paths u))
  /\ (forall (f : Server.User.t -> string) (q : Server.ListQuery) (st : Server.Store),
        fst (Server.getUsers q (Spec.rewritePasswords f st)) = fst (Server.getUsers q st)).
Proof.
  split; [intros ret; apply Secrecy.delete_get|].
  split.
  { intros u. repeat split; apply Secrecy.delete_get. }
  split; [intros u p; apply Secrecy.toJSON_setPassword|].
  split; [apply Secrecy.getUsers_noPassword|].
  split; [apply Secrecy.createUser_noPassword|].
  split; [apply Secrecy.updateUser_noPassword|].
  split; [apply Secrecy.getTasks_owner_noPassword|].
  split; [apply Secrecy.createTask_owner_noPassword|].
  split; [apply Secrecy.output_noPassword|].
  split; [intros u p; apply Secrecy.select_setPassword|].
  apply Secrecy.getUsers_rewritePasswords.
Qed.

(** ** The overdue filter (routes/tasks.js) *)

Module Overdue.
Section Facts.
Context {L : Library}.

(** With [overdue=true] the status of the query object is the overdue
    one, whatever status the request named. *)
Lemma buildQuery_overdue (now : Z) (q : TaskRoutes.Query.t) (s : option string) :
  TaskRoutes.Query.overdue q = Some "true" ->
  TaskRoutes.buildQuery now (Spec.setStatus s q) = Spec.overdueFilter now q.
Proof.
  intros Ho. unfold TaskRoutes.buildQuery, Spec.overdueFilter, Spec.setStatus, Spec.given.
  cbn [TaskRoutes.Query.status TaskRoutes.Query.priority TaskRoutes.Query.category
       TaskRoutes.Query.assignedTo TaskRoutes.Query.search TaskRoutes.Query.overdue].
  rewrite Ho. cbn [String.eqb Ascii.eqb Bool.eqb].
  unfold TaskRoutes.whenTruthy.
  destruct s as [s|]; [destruct (s =? "")%string|];
    (destruct (TaskRoutes.Query.priority q) as [x1|]; [destruct (x1 =? "")%string|]);
    (destruct (TaskRoutes.Query.category q) as [x2|]; [destruct (x2 =? "")%string|]);
    (destruct (TaskRoutes.Query.assignedTo q) as [x3|]; [destruct (x3 =? "")%string|]);
    (destruct (TaskRoutes.Query.search q) as [x4|]; [destruct (x4 =? "")%string|]);
    reflexivity.
Qed.

Lemma optEq_given (x : option string) (have : string) :
  TaskRoutes.optEq (Spec.given x) have
  = match x with
    | Some s => (s =? "")%string || (have =? s)%string
    | None => true
    end.
Proof.
  unfold Spec.given, TaskRoutes.optEq. destruct x as [s|]; [|reflexivity].
  destruct (s =? "")%string; reflexivity.
Qed.

Lemma reorder (a p c x r d : bool) :
  a && p && c && x && r && d = (d && a) && (p && c && x && r).
Proof. destruct a, p, c, x, r, d; reflexivity. Qed.

(** The documents the overdue query object matches are the overdue tasks
    that pass the other filters. *)
Lemma matches_overdue (now : Z) (q : TaskRoutes.Query.t) (t : TaskModel.Task) :
  TaskRoutes.matches (Spec.overdueFilter now q) t
  = Spec.overdueb now t && Spec.otherFilters q t.
Proof.
  unfold TaskRoutes.matches, Spec.overdueFilter, Spec.overdueb, Spec.otherFilters.
  cbn [TaskRoutes.Filter.status TaskRoutes.Filter.priority TaskRoutes.Filter.category
       TaskRoutes.Filter.assignedTo TaskRoutes.Filter.search
       TaskRoutes.Filter.dueDateBefore].
  rewrite !optEq_given. rewrite reorder. f_equal. f_equal; [f_equal|].
  - unfold Spec.given. destruct (TaskRoutes.Query.assignedTo q) as [s|]; [|reflexivity].
    destruct (s =? "")%string; reflexivity.
  - unfold Spec.given. destruct (TaskRoutes.Query.search q) as [s|]; [|reflexivity].
    destruct (s =? "")%string; simpl; [reflexivity|].
    reflexivity.
Qed.

Lemma overdueb_spec (now : Z) (t : TaskModel.Task) :
  Spec.overdueb now t = true <-> Spec.overdue now t.
Proof.
  unfold Spec.overdueb, Spec.overdue. rewrite andb_true_iff, negb_true_iff.
  rewrite String.eqb_neq.
  destruct (TaskModel.dueDate t) as [d|]; split.
  - intros [Hd Hs]. apply Z.ltb_lt in Hd. split; [exists d; auto | exact Hs].
  - intros [(d' & E & Hd) Hs]. injection E as <-. split; [apply Z.ltb_lt; exact Hd | exact Hs].
  - intros [Hd _]. discriminate.
  - intros [(d' & E & _) _]. discriminate.
Qed.

Lemma insert_perm {A} (le : A -> A -> bool) (x : A) (l : list A) :
  Permutation (TaskRoutes.insert le x l) (x :: l).
Proof.
  induction l as [|y r IH]; simpl; [reflexivity|].
  destruct (le x y); [reflexivity|].
  rewrite IH. apply perm_swap.
Qed.

(** Sorting rearranges and nothing else. *)
Lemma sortTasks_perm (field : string) (dir : Z) (l : list TaskModel.Task) :
  Permutation (TaskRoutes.sortTasks field dir l) l.
Proof.
  unfold TaskRoutes.sortTasks. induction l as [|x r IH]; simpl; [reflexivity|].
  rewrite insert_perm. constructor. exact IH.
Qed.

(** An overdue listing is answered without regard to the status of the
    request. *)
Lemma getTasks_overdue (now : Z) (q : TaskRoutes.Query.t) (s : option string)
    (st : TaskRoutes.Store) :
  TaskRoutes.Query.overdue q = Some "true" ->
  Validation.validationResult now Validation.query
    (TaskRoutes.queryRequest (Spec.setStatus s q)) = [] ->
  exists v l,
    Js.intLiteral (Js.orDefault (TaskRoutes.Query.page q) "1") = Some v
    /\ 1 <= v
    /\ Js.parseInt (Js.orDefault (TaskRoutes.Query.limit q) "10") = Some l
    /\ 1 <= l <= 100
    /\ TaskRoutes.listPlan now (Spec.setStatus s q) = Some (Spec.overduePlan now q v l)
    /\ TaskRoutes.getTasks now (Spec.setStatus s q) st = (Spec.overdueResponse now q st v l, st).
Proof.
  intros Ho Hv.
  destruct (Pagination.tasks_list now (Spec.setStatus s q) st Hv)
    as (v & l & plan & Hp & Hp1 & Hl & Hl1 & Hplan & Hshape & Hresp).
  exists v, l.
  split; [exact Hp|]. split; [exact Hp1|]. split; [exact Hl|]. split; [exact Hl1|].
  rewrite (buildQuery_overdue now q s Ho) in Hshape, Hresp.
  change (Js.orDefault (TaskRoutes.Query.sortBy (Spec.setStatus s q)) "createdAt")
    with (Js.orDefault (TaskRoutes.Query.sortBy q) "createdAt") in Hshape.
  change (Js.orDefault (TaskRoutes.Query.sortOrder (Spec.setStatus s q)) "desc")
    with (Js.orDefault (TaskRoutes.Query.sortOrder q) "desc") in Hshape.
  fold (Spec.overduePlan now q v l) in Hshape. subst plan.
  split; [exact Hplan | exact Hresp].
Qed.

(** The first page of a set that is not empty holds a document. *)
Lemma first_page_nonempty (now : Z) (q : TaskRoutes.Query.t) (l : Z)
    (tasks : list TaskModel.Task) :
  1 <= l ->
  filter (TaskRoutes.matches (Spec.overdueFilter now q)) tasks <> [] ->
  TaskRoutes.exec (Spec.overduePlan now q 1 l) tasks <> [].
Proof.
  intros Hl Hne. unfold TaskRoutes.exec, Spec.overduePlan, TaskRoutes.window.
  cbn [TaskRoutes.skip TaskRoutes.limit TaskRoutes.filterOf TaskRoutes.sortField
       TaskRoutes.sortDir].
  set (found := filter (TaskRoutes.matches (Spec.overdueFilter now q)) tasks) in *.
  set (sorted := TaskRoutes.sortTasks _ _ found).
  assert (Hs : sorted <> []).
  { intros E. apply Hne. apply Permutation_nil.
    rewrite <- E. apply sortTasks_perm. }
  assert (E0 : Js.times (Js.minus (Js.number 1) 1) l = 0).
  { unfold Js.times, Js.minus. rewrite (Numbers.number_exact 1) by (vm_compute; discriminate).
    replace (1 - 1) with 0 by lia.
    rewrite (Numbers.number_exact 0) by (vm_compute; discriminate).
    apply Numbers.number_exact. vm_compute. discriminate. }
  rewrite E0. simpl skipn.
  destruct sorted as [|t r]; [contradiction|].
  destruct (Z.to_nat l) eqn:E; [lia|]. discriminate.
Qed.

End Facts.
End Overdue.

(** C2. The query of an overdue listing selects what the claim says and
    the route does not return it.  For a list query with [overdue=true]
    that passes validation, with any status parameter, the query object
    that [GET /api/tasks] hands to the store matches exactly the stored
    tasks whose due date is before [now], whose status is not "completed"
    and which pass the filters other than the status (priority, category,
    assignedTo, search), and the answer is the same for every status
    parameter.  But a page that holds a document is answered 500 without
    data, because the [populate] of [createdBy] is refused; so is the
    first page whenever some task is in the set.  The answer is 200 only
    when the page is empty (and the store accepts the query object), with
    no document and [totalTasks] the size of the set. *)
Theorem C2_overdue_listing_is_answered_500 (L : Library)
    (now : Z) (q : TaskRoutes.Query.t) (s s' : option string) (st : TaskRoutes.Store) :
  TaskRoutes.Query.overdue q = Some "true" ->
  Validation.validationResult now Validation.query
    (TaskRoutes.queryRequest (Spec.setStatus s q)) = [] ->
  Validation.validationResult now Validation.query
    (TaskRoutes.queryRequest (Spec.setStatus s' q)) = [] ->
  let overdueSet :=
    filter (fun t => Spec.overdueb now t && Spec.otherFilters q t) (TaskRoutes.tasks st) in
  exists v l plan,
    Js.intLiteral (Js.orDefault (TaskRoutes.Query.page q) "1") = Some v
    /\ Js.parseInt (Js.orDefault (TaskRoutes.Query.limit q) "10") = Some l
    /\ 1 <= v /\ 1 <= l <= 100
    /\ TaskRoutes.listPlan now (Spec.setStatus s q) = Some plan
    /\ filter (TaskRoutes.matches (TaskRoutes.filterOf plan)) (TaskRoutes.tasks st)
       = overdueSet
    /\ (forall t, In t overdueSet <->
                  In t (TaskRoutes.tasks st)
                  /\ Spec.overdue now t
                  /\ Spec.otherFilters q t = true)
    /\ TaskRoutes.getTasks now (Spec.setStatus s' q) st
       = TaskRoutes.getTasks now (Spec.setStatus s q) st
    /\ snd (TaskRoutes.getTasks now (Spec.setStatus s q) st) = st
    /\ let r := fst (TaskRoutes.getTasks now (Spec.setStatus s q) st) in
       let page := TaskRoutes.exec plan (TaskRoutes.tasks st) in
       (page <> [] ->
        Http.status r = 500
        /\ Http.message r = Some "Server error while fetching tasks"
        /\ Http.data r = None
        /\ Http.pagination r = [])
       /\ (v = 1 -> overdueSet <> [] -> Http.status r = 500 /\ Http.data r = None)
       /\ (TaskRoutes.rejectedQuery (TaskRoutes.filterOf plan) = true ->
           Http.status r = 500 /\ Http.data r = None)
       /\ (Http.status r = 200 ->
           page = []
           /\ Http.data r = Some (TaskRoutes.Many [])
           /\ Obj.get "totalTasks" (Http.pagination r)
              = Some (JNum (Z.of_nat (List.length overdueSet))))
       /\ (TaskRoutes.rejectedQuery (TaskRoutes.filterOf plan) = false ->
           page = [] -> Http.status r = 200).
Proof.
  intros Ho Hv Hv' overdueSet.
  destruct (Overdue.getTasks_overdue now q s st Ho Hv)
    as (v & l & Hp & Hp1 & Hl & Hl1 & Hplan & Hresp).
  destruct (Overdue.getTasks_overdue now q s' st Ho Hv')
    as (v' & l' & Hp' & _ & Hl' & _ & _ & Hresp').
  rewrite Hp in Hp'. injection Hp' as <-. rewrite Hl in Hl'. injection Hl' as <-.
  assert (Hset : filter (TaskRoutes.matches (Spec.overdueFilter now q)) (TaskRoutes.tasks st)
                 = overdueSet)
    by (apply filter_ext; apply Overdue.matches_overdue).
  exists v, l, (Spec.overduePlan now q v l).
  split; [exact Hp|]. split; [exact Hl|]. split; [exact Hp1|]. split; [exact Hl1|].
  split; [exact Hplan|].
  split; [exact Hset|].
  split.
  { intros t. unfold overdueSet. rewrite filter_In, andb_true_iff, Overdue.overdueb_spec.
    tauto. }
  rewrite Hresp', Hresp. cbn [fst snd Spec.overduePlan TaskRoutes.filterOf].
  split; [reflexivity|]. split; [reflexivity|].
  change (TaskRoutes.mkPlan (Spec.overdueFilter now q)
            (Js.orDefault (TaskRoutes.Query.sortBy q) "createdAt")
            (if (Js.orDefault (TaskRoutes.Query.sortOrder q) "desc" =? "asc")%string
             then 1 else -1)
            (Js.times (Js.minus (Js.number v) 1) l) l)
    with (Spec.overduePlan now q v l).
  assert (Hfirst : v = 1 -> overdueSet <> [] ->
                   TaskRoutes.exec (Spec.overduePlan now q v l) (TaskRoutes.tasks st) <> []).
  { intros -> Hne. apply Overdue.first_page_nonempty; [lia|]. rewrite Hset. exact Hne. }
  unfold Spec.overdueResponse, TaskRoutes.countDocuments. rewrite Hset.
  destruct (TaskRoutes.rejectedQuery (Spec.overdueFilter now q)).
  { repeat split; try reflexivity; try discriminate.
    all: intros H; try discriminate H. }
  destruct (TaskRoutes.exec (Spec.overduePlan now q v l) (TaskRoutes.tasks st))
    as [|t page] eqn:E.
  - split; [intros H; contradiction|].
    split; [intros H1 Hne; exfalso; exact (Hfirst H1 Hne eq_refl)|].
    split; [discriminate|].
    split; [intros _; repeat split; reflexivity|].
    reflexivity.
  - split; [intros _; repeat split; reflexivity|].
    split; [intros _ _; split; reflexivity|].
    split; [discriminate|].
    split; [discriminate|].
    intros _ H. discriminate H.
Qed.

(** A(due yesterday, pending), B(due yesterday, completed) and C(due
    tomorrow, pending): the query of [overdue=true&status=completed]
    selects A only, as that of [overdue=true] does, and both requests are
    answered 500. *)
Lemma C2_witness :
  Validation.validationResult (L:=Sample.library) Sample.today Validation.query
    (TaskRoutes.queryRequest (Spec.setStatus (Some "completed") (Sample.overdueQuery None)))
  = []
  /\ filter (TaskRoutes.matches (L:=Sample.library)
               (TaskRoutes.buildQuery Sample.today
                  (Spec.setStatus (Some "completed") (Sample.overdueQuery None))))
            (TaskRoutes.tasks Sample.abc)
     = [Sample.taskA]
  /\ Http.status
       (fst (TaskRoutes.getTasks (L:=Sample.library) Sample.today
               (Spec.setStatus (Some "completed") (Sample.overdueQuery None))
               Sample.abc))
     = 500
  /\ TaskRoutes.getTasks (L:=Sample.library) Sample.today
       (Spec.setStatus None (Sample.overdueQuery None)) Sample.abc
     = TaskRoutes.getTasks (L:=Sample.library) Sample.today
         (Spec.setStatus (Some "completed") (Sample.overdueQuery None)) Sample.abc.
Proof.
  split; [reflexivity|].
  destruct (C2_overdue_listing_is_answered_500 Sample.library Sample.today
              (Sample.overdueQuery None) (Some "completed") None Sample.abc
              eq_refl eq_refl eq_refl)
    as (v & l & plan & Hv & _ & _ & _ & _ & _ & _ & Hsame & _ & _ & Hfirst & _).
  split; [reflexivity|].
  split; [|exact Hsame].
  injection Hv as <-.
  apply (proj1 (Hfirst eq_refl ltac:(discriminate))).
Defined.

(** ** The update paths and the completion timestamp *)

Module StatusUpdates.
Section Facts.
Context {L : Library}.

Lemma replaceById_found (id : ObjectId) (new t : TaskModel.Task) (l : list TaskModel.Task) :
  findById TaskModel._id id l = Some t ->
  TaskModel._id new = id ->
  findById TaskModel._id id (TaskRoutes.replaceById id new l) = Some new.
Proof.
  unfold findById. intros Hfound Hid.
  induction l as [|d r IH]; simpl in *; [discriminate|].
  destruct (TaskModel._id d =? id)%string eqn:E.
  - simpl. rewrite Hid, String.eqb_refl. reflexivity.
  - simpl. rewrite E. apply IH. exact Hfound.
Qed.

(** The status route never clears a completion timestamp: a stored task
    patched to a status other than "completed" is written with the one it
    had, and the request is answered 500. *)
Lemma statusHandler_keeps_completedAt (now : Z) (id : string) (b : TaskRoutes.Body.t)
    (st : TaskRoutes.Store) (task : TaskModel.Task) (s : string) :
  findById TaskModel._id id (TaskRoutes.tasks st) = Some task ->
  TaskRoutes.Body.status b = Some s ->
  Js.includes TaskModel.statusValues s = true ->
  s <> "completed" ->
  let (r, st') := TaskRoutes.statusHandler now id b st in
  Http.status r = 500
  /\ exists t, findById TaskModel._id id (TaskRoutes.tasks st') = Some t
               /\ TaskModel.status t = s
               /\ TaskModel.completedAt t = TaskModel.completedAt task.
Proof.
  intros Hfound Hs Hin Hne.
  unfold TaskRoutes.statusHandler. rewrite Hfound, Hs.
  unfold TaskModel.validPaths. rewrite Hin. simpl.
  split; [reflexivity|]. eexists. split.
  - eapply replaceById_found; [exact Hfound|].
    simpl. exact (proj2 (findById_some _ _ _ _ Hfound)).
  - simpl. apply String.eqb_neq in Hne. rewrite Hne. split; reflexivity.
Qed.

(** The update route never writes the completion timestamp: a stored task
    keeps the one it had, whatever the update sets and however the
    request is answered. *)
Lemma updateHandler_keeps_completedAt (now : Z) (id : string) (b : TaskRoutes.Body.t)
    (st : TaskRoutes.Store) (task : TaskModel.Task) :
  findById TaskModel._id id (TaskRoutes.tasks st) = Some task ->
  exists t,
    findById TaskModel._id id (TaskRoutes.tasks (snd (TaskRoutes.updateHandler now id b st)))
    = Some t
    /\ TaskModel.completedAt t = TaskModel.completedAt task.
Proof.
  intros Hfound. unfold TaskRoutes.updateHandler. rewrite Hfound.
  destruct (TaskRoutes.assignedUncastable _); [exists task; split; [exact Hfound | reflexivity]|].
  destruct (TaskRoutes.assignedUserMissing st _);
    [exists task; split; [exact Hfound | reflexivity]|].
  destruct (TaskRoutes.castDate _) as [dueDate|];
    [|exists task; split; [exact Hfound | reflexivity]].
  destruct (TaskRoutes.castRef _) as [assignedTo|];
    [|exists task; split; [exact Hfound | reflexivity]].
  destruct (TaskModel.validPaths _ _ _ _ _ _ _ _);
    [|exists task; split; [exact Hfound | reflexivity]].
  cbv zeta. rewrite Populate.populated_refused.
  eexists. split.
  - simpl. eapply replaceById_found; [exact Hfound|].
    simpl. exact (proj2 (findById_some _ _ _ _ Hfound)).
  - reflexivity.
Qed.

End Facts.
End StatusUpdates.

(** ** The other list routes of the single-file server *)

Module ServerLists.

(** The task list on a page of at least one, a limit from 1 to 100 and no
    owner filter. *)
Lemma server_tasks_list (q : Server.ListQuery) (st : Server.Store) :
  1 <= Server.orZ (Server.pageOf q) 1 ->
  1 <= Server.orZ (Server.limitOf q) 10 <= 100 ->
  Server.userIdOf q = None ->
  let l := Server.orZ (Server.limitOf q) 10 in
  let found := filter (Server.taskMatches q None) (Server.tasks st) in
  Server.getTasks q st
  = (Http.mkResponse 200 true None []
       (Some (Server.TasksData
                (map (Server.taskOut (Server.users st))
                     (firstn (Z.to_nat l)
                        (skipn (Z.to_nat (Server.skipOf q))
                           (Server.sortNewestFirst Server.Task.createdAt found))))))
       [("page", JNum (Server.pageNumber q)); ("limit", JNum l);
        ("total", JNum (Server.lengthZ found));
        ("pages", JNum (Js.ceilDiv (Server.lengthZ found) l))],
     st).
Proof.
  intros Hp Hl Hu l found.
  unfold Server.getTasks, Server.asyncHandler, Server.getTasksHandler, Server.bind,
    Server.castFilterId, Server.gets, Server.ret.
  rewrite Hu. simpl.
  rewrite Pagination.page_ok;
    [| apply Pagination.skipOf_nonneg; assumption
     | rewrite Pagination.limitNumber_exact; lia].
  unfold Server.paginationJSON, Server.pagesJSON.
  rewrite (Pagination.limitNumber_exact q Hl).
  destruct (Server.orZ (Server.limitOf q) 10 =? 0) eqn:E0;
    [apply Z.eqb_eq in E0; lia|].
  reflexivity.
Qed.

(** The project list, likewise. *)
Lemma server_projects_list (q : Server.ListQuery) (st : Server.Store) :
  1 <= Server.orZ (Server.pageOf q) 1 ->
  1 <= Server.orZ (Server.limitOf q) 10 <= 100 ->
  Server.userIdOf q = None ->
  Http.status (fst (Server.getProjects q st)) = 200
  /\ Http.pagination (fst (Server.getProjects q st))
     = [("page", JNum (Server.pageNumber q));
        ("limit", JNum (Server.orZ (Server.limitOf q) 10));
        ("total",
         JNum (Server.lengthZ (filter (Server.projectMatches q None) (Server.projects st))));
        ("pages",
         JNum (Js.ceilDiv
                 (Server.lengthZ
                    (filter (Server.projectMatches q None) (Server.projects st)))
                 (Server.orZ (Server.limitOf q) 10)))].
Proof.
  intros Hp Hl Hu.
  unfold Server.getProjects, Server.asyncHandler, Server.getProjectsHandler, Server.bind,
    Server.castFilterId, Server.gets, Server.ret.
  rewrite Hu. simpl.
  rewrite Pagination.page_ok;
    [| apply Pagination.skipOf_nonneg; assumption
     | rewrite Pagination.limitNumber_exact; lia].
  unfold Server.paginationJSON, Server.pagesJSON.
  rewrite (Pagination.limitNumber_exact q Hl).
  destruct (Server.orZ (Server.limitOf q) 10 =? 0) eqn:E0;
    [apply Z.eqb_eq in E0; lia|].
  split; reflexivity.
Qed.

End ServerLists.

(* ================================================================== *)
(** * Further properties of the code *)
(* ================================================================== *)

(** ** Counting and grouping (models/Task.js, models/User.js, routes/tasks.js) *)

Module Counting.

Lemma countWhere_nonneg {A} (p : A -> bool) (l : list A) : 0 <= Aggregate.countWhere p l.
Proof. unfold Aggregate.countWhere. lia. Qed.

Lemma countWhere_cons {A} (p : A -> bool) (a : A) (l : list A) :
  Aggregate.countWhere p (a :: l)
  = (if p a then 1 else 0) + Aggregate.countWhere p l.
Proof.
  unfold Aggregate.countWhere. simpl filter.
  destruct (p a); [simpl List.length; lia | lia].
Qed.

Lemma countWhere_all {A} (l : list A) :
  Aggregate.countWhere (fun _ => true) l = Z.of_nat (List.length l).
Proof.
  unfold Aggregate.countWhere. rewrite filter_true. reflexivity.
Qed.

(** Counting by a condition splits along any second condition. *)
Lemma countWhere_split {A} (p q : A -> bool) (l : list A) :
  Aggregate.countWhere p l
  = Aggregate.countWhere (fun x => p x && q x) l
    + Aggregate.countWhere (fun x => p x && negb (q x)) l.
Proof.
  induction l as [|a r IH]; [reflexivity|].
  rewrite !countWhere_cons, IH. destruct (p a), (q a); cbn [andb negb]; lia.
Qed.

Lemma countWhere_ext {A} (p q : A -> bool) (l : list A) :
  (forall x, In x l -> p x = q x) -> Aggregate.countWhere p l = Aggregate.countWhere q l.
Proof.
  intros H. induction l as [|a r IH]; [reflexivity|].
  rewrite !countWhere_cons. rewrite (H a) by (simpl; auto).
  rewrite IH; [reflexivity|].
  intros x Hx. apply H. simpl. auto.
Qed.

Lemma countWhere_le {A} (p q : A -> bool) (l : list A) :
  (forall x, p x = true -> q x = true) ->
  Aggregate.countWhere p l <= Aggregate.countWhere q l.
Proof.
  intros H. induction l as [|a r IH]; [reflexivity|].
  rewrite !countWhere_cons. specialize (H a).
  destruct (p a), (q a); try lia; try (specialize (H eq_refl); discriminate).
Qed.

Lemma countWhere_map {A B} (f : A -> B) (p : B -> bool) (l : list A) :
  Aggregate.countWhere p (map f l) = Aggregate.countWhere (fun x => p (f x)) l.
Proof.
  induction l as [|a r IH]; [reflexivity|].
  simpl map. rewrite !countWhere_cons, IH. reflexivity.
Qed.

Section Groups.
Variable K : Type.
Variable eqb : K -> K -> bool.
Hypothesis eqb_eq : forall a b, eqb a b = true <-> a = b.

Lemma eqb_same (a : K) : eqb a a = true.
Proof. apply eqb_eq. reflexivity. Qed.

Lemma lookup_bump_same (k : K) (rows : list (K * Z)) :
  Aggregate.lookup eqb k (Aggregate.bump eqb k rows) = Some (Aggregate.held eqb k rows + 1).
Proof.
  unfold Aggregate.held. induction rows as [|[k' n] r IH]; simpl.
  - rewrite eqb_same. reflexivity.
  - destruct (eqb k' k) eqn:E; simpl; rewrite E; [reflexivity | exact IH].
Qed.

Lemma lookup_bump_other (k k0 : K) (rows : list (K * Z)) :
  eqb k0 k = false ->
  Aggregate.lookup eqb k (Aggregate.bump eqb k0 rows) = Aggregate.lookup eqb k rows.
Proof.
  intros Hne. induction rows as [|[k' n] r IH]; simpl.
  - rewrite Hne. reflexivity.
  - destruct (eqb k' k0) eqn:E; simpl.
    + apply eqb_eq in E. subst k'. rewrite Hne. reflexivity.
    + destruct (eqb k' k); [reflexivity | exact IH].
Qed.

Lemma bump_positive (k0 : K) (rows : list (K * Z)) :
  Forall (fun row => 0 < snd row) rows ->
  Forall (fun row => 0 < snd row) (Aggregate.bump eqb k0 rows).
Proof.
  induction rows as [|[k' n] r IH]; simpl; intros H.
  - constructor; [simpl; lia | constructor].
  - inversion H as [|? ? Hn Hr]; subst. simpl in Hn.
    destruct (eqb k' k0); constructor; simpl; auto; lia.
Qed.

Lemma bump_keys (k0 : K) (rows : list (K * Z)) :
  NoDup (map fst rows) -> NoDup (map fst (Aggregate.bump eqb k0 rows)).
Proof.
  intros H.
  assert (Hin : forall rows' x, In x (map fst (Aggregate.bump eqb k0 rows')) ->
                           x = k0 \/ In x (map fst rows')).
  { induction rows' as [|[k' n] r IH]; simpl; intros x Hx.
    - destruct Hx as [Hx|[]]. auto.
    - destruct (eqb k' k0); simpl in Hx.
      + destruct Hx; auto.
      + destruct Hx as [Hx|Hx]; auto. destruct (IH x Hx); auto. }
  induction rows as [|[k' n] r IH]; simpl.
  - constructor; [intros [] | constructor].
  - inversion H as [|? ? Hnot Hr]; subst.
    destruct (eqb k' k0) eqn:E; simpl.
    + constructor; assumption.
    + constructor; [|apply IH; exact Hr].
      intros Hx. destruct (Hin r k' Hx) as [->|Hold].
      * rewrite eqb_same in E. discriminate.
      * exact (Hnot Hold).
Qed.

Lemma lookup_fold (k : K) (keys : list K) (rows : list (K * Z)) :
  Aggregate.held eqb k (fold_left (fun rows k => Aggregate.bump eqb k rows) keys rows)
  = Aggregate.held eqb k rows + Aggregate.countWhere (fun x => eqb x k) keys.
Proof.
  revert rows. induction keys as [|a r IH]; intros rows; simpl.
  - unfold Aggregate.countWhere. simpl. lia.
  - rewrite IH, countWhere_cons. destruct (eqb a k) eqn:E.
    + apply eqb_eq in E. subst a. unfold Aggregate.held at 1.
      rewrite lookup_bump_same. lia.
    + unfold Aggregate.held at 1 2. rewrite (lookup_bump_other k a rows E). lia.
Qed.

Lemma fold_positive (keys : list K) (rows : list (K * Z)) :
  Forall (fun row => 0 < snd row) rows ->
  Forall (fun row => 0 < snd row)
         (fold_left (fun rows k => Aggregate.bump eqb k rows) keys rows).
Proof.
  revert rows. induction keys as [|a r IH]; intros rows H; simpl; [exact H|].
  apply IH, bump_positive, H.
Qed.

Lemma fold_keys (keys : list K) (rows : list (K * Z)) :
  NoDup (map fst rows) ->
  NoDup (map fst (fold_left (fun rows k => Aggregate.bump eqb k rows) keys rows)).
Proof.
  revert rows. induction keys as [|a r IH]; intros rows H; simpl; [exact H|].
  apply IH, bump_keys, H.
Qed.

Lemma lookup_positive (k : K) (rows : list (K * Z)) (n : Z) :
  Forall (fun row => 0 < snd row) rows ->
  Aggregate.lookup eqb k rows = Some n -> 0 < n.
Proof.
  induction rows as [|[k' m] r IH]; simpl; intros H E; [discriminate|].
  inversion H as [|? ? Hm Hr]; subst. simpl in Hm.
  destruct (eqb k' k).
  - injection E as <-. exact Hm.
  - apply IH; assumption.
Qed.

(** The grouping stage holds, for a key, the number of documents with
    that value, and no row for a value no document has. *)
Lemma lookup_groupCount (k : K) (keys : list K) :
  Aggregate.lookup eqb k (Aggregate.groupCount eqb keys)
  = let n := Aggregate.countWhere (fun x => eqb x k) keys in
    if n =? 0 then None else Some n.
Proof.
  pose proof (lookup_fold k keys []) as H.
  pose proof (fold_positive keys [] (Forall_nil _)) as Hpos.
  unfold Aggregate.groupCount. cbv zeta.
  unfold Aggregate.held in H. simpl in H.
  destruct (Aggregate.lookup eqb k
              (fold_left (fun rows k => Aggregate.bump eqb k rows) keys [])) as [n|] eqn:E.
  - pose proof (lookup_positive k _ n Hpos E) as Hn.
    rewrite <- H. destruct (n =? 0) eqn:E0; [apply Z.eqb_eq in E0; lia | reflexivity].
  - rewrite <- H. reflexivity.
Qed.

Lemma groupCount_keys (keys : list K) :
  NoDup (map fst (Aggregate.groupCount eqb keys)).
Proof. apply fold_keys. constructor. Qed.

Lemma lookup_app (k : K) (rows : list (K * Z)) (row : K * Z) :
  Aggregate.lookup eqb k (rows ++ [row])
  = match Aggregate.lookup eqb k rows with
    | Some n => Some n
    | None => if eqb (fst row) k then Some (snd row) else None
    end.
Proof.
  induction rows as [|[k' n] r IH]; simpl.
  - destruct row as [k' n]. simpl. reflexivity.
  - destruct (eqb k' k); [reflexivity | exact IH].
Qed.

Lemma lookup_absent (k : K) (rows : list (K * Z)) :
  ~ In k (map fst rows) -> Aggregate.lookup eqb k rows = None.
Proof.
  induction rows as [|[k' n] r IH]; simpl; intros H; [reflexivity|].
  destruct (eqb k' k) eqn:E.
  - apply eqb_eq in E. tauto.
  - apply IH. tauto.
Qed.

Lemma lookup_present (k : K) (rows : list (K * Z)) (n : Z) :
  Aggregate.lookup eqb k rows = Some n -> In k (map fst rows).
Proof.
  induction rows as [|[k' m] r IH]; simpl; intros H; [discriminate|].
  destruct (eqb k' k) eqn:E.
  - apply eqb_eq in E. auto.
  - right. apply IH, H.
Qed.

End Groups.

Lemma get_assign (k k0 : string) (v : JSON) (o : Obj.t) :
  Obj.get k (Aggregate.assign k0 v o)
  = if (k0 =? k)%string then Some v else Obj.get k o.
Proof.
  induction o as [|[k' v'] r IH]; simpl.
  - reflexivity.
  - destruct (k' =? k0)%string eqn:E; simpl.
    + apply String.eqb_eq in E. subst k'. destruct (k0 =? k)%string; reflexivity.
    + destruct (k' =? k)%string eqn:E'.
      * destruct (k0 =? k)%string eqn:E''; [|reflexivity].
        apply String.eqb_eq in E', E''. subst. rewrite String.eqb_refl in E. discriminate.
      * exact IH.
Qed.

(** The object the [reduce] builds has, under the property key of a
    group id, the count of that group, whenever no other group id of the
    table becomes the same key. *)
Lemma get_reduceCounts {K} (eqb : K -> K -> bool) (render : K -> string)
    (k : K) (rows : list (K * Z)) :
  (forall a b, eqb a b = true <-> a = b) ->
  NoDup (map fst rows) ->
  (forall k', In k' (map fst rows) -> render k' = render k -> k' = k) ->
  Obj.get (render k) (Aggregate.reduceCounts render rows)
  = option_map JNum (Aggregate.lookup eqb k rows).
Proof.
  intros Heq. unfold Aggregate.reduceCounts.
  induction rows as [|row r IH] using rev_ind; intros Hnd Hinj; [reflexivity|].
  rewrite fold_left_app. simpl. rewrite get_assign, (lookup_app K eqb).
  rewrite map_app in Hnd. simpl in Hnd.
  assert (Hnd' : NoDup (map fst r)) by (eapply NoDup_app_remove_r; exact Hnd).
  assert (Hinj' : forall k', In k' (map fst r) -> render k' = render k -> k' = k).
  { intros k' Hin. apply Hinj. rewrite map_app. apply in_or_app. auto. }
  specialize (IH Hnd' Hinj').
  destruct (render (fst row) =? render k)%string eqn:E.
  - apply String.eqb_eq in E.
    assert (Hk : fst row = k).
    { apply Hinj; [|exact E]. rewrite map_app. apply in_or_app. right. simpl. auto. }
    rewrite (lookup_absent K eqb Heq).
    + rewrite Hk. rewrite (proj2 (Heq k k) eq_refl). reflexivity.
    + intros Hin. apply NoDup_remove_2 in Hnd. apply Hnd.
      rewrite app_nil_r. rewrite Hk. exact Hin.
  - rewrite IH. destruct (Aggregate.lookup eqb k r); [reflexivity|].
    destruct (eqb (fst row) k) eqn:E'; [|reflexivity].
    apply Heq in E'. rewrite E', String.eqb_refl in E. discriminate.
Qed.

(** A grouping and its [reduce] together: the object has, under a value,
    the number of documents with that value, and no member for a value
    no document has. *)
Lemma get_grouped (k : string) (keys : list string) :
  Obj.get k (Aggregate.reduceCounts (fun k => k) (Aggregate.groupCount String.eqb keys))
  = let n := Aggregate.countWhere (fun x => (x =? k)%string) keys in
    if n =? 0 then None else Some (JNum n).
Proof.
  rewrite (get_reduceCounts String.eqb (fun k => k) k).
  - rewrite (lookup_groupCount string String.eqb String.eqb_eq). cbv zeta.
    destruct (_ =? 0); reflexivity.
  - exact String.eqb_eq.
  - apply (groupCount_keys string String.eqb String.eqb_eq).
  - auto.
Qed.

End Counting.

(** ** Statics and methods of the task model (models/Task.js) *)

Module TaskDocuments.

Ltac split_andb H :=
  repeat (let H' := fresh "V" in
          apply andb_true_iff in H; destruct H as [H H']).

Lemma replaceById_other (id id' : ObjectId) (new : TaskModel.Task)
    (l : list TaskModel.Task) :
  id' <> id -> TaskModel._id new = id ->
  findById TaskModel._id id' (TaskRoutes.replaceById id new l)
  = findById TaskModel._id id' l.
Proof.
  intros Hne Hid. unfold findById.
  induction l as [|d r IH]; simpl; [reflexivity|].
  destruct (TaskModel._id d =? id)%string eqn:E; simpl.
  - apply String.eqb_eq in E. rewrite Hid, E.
    destruct (id =? id')%string eqn:E'; [|reflexivity].
    apply String.eqb_eq in E'. congruence.
  - destruct (TaskModel._id d =? id')%string; [reflexivity | exact IH].
Qed.

Lemma replaceById_length (id : ObjectId) (new : TaskModel.Task) (l : list TaskModel.Task) :
  List.length (TaskRoutes.replaceById id new l) = List.length l.
Proof.
  induction l as [|d r IH]; simpl; [reflexivity|].
  destruct (TaskModel._id d =? id)%string; simpl; congruence.
Qed.

(** A valid document stays valid when its status becomes a value of the
    enumeration and its tags a list of tags of at most 20 characters. *)
Lemma validDocument_status_tags (now : Z) (t t' : TaskModel.Task) :
  TaskMethods.validDocument now t = true ->
  TaskModel.title t' = TaskModel.title t ->
  TaskModel.description t' = TaskModel.description t ->
  TaskModel.priority t' = TaskModel.priority t ->
  TaskModel.category t' = TaskModel.category t ->
  TaskModel.dueDate t' = TaskModel.dueDate t ->
  Js.includes TaskModel.statusValues (TaskModel.status t') = true ->
  forallb (TaskModel.maxlength 20) (TaskModel.tags t') = true ->
  TaskMethods.validDocument now t' = true.
Proof.
  unfold TaskMethods.validDocument, TaskModel.validPaths.
  intros H Ht Hd Hp Hc Hdue Hs Htags.
  rewrite Ht, Hd, Hp, Hc, Hdue, Hs, Htags.
  split_andb H. rewrite H, V5, V4, V2, V1, V0. reflexivity.
Qed.

Lemma validDocument_parts (now : Z) (t : TaskModel.Task) :
  TaskMethods.validDocument now t = true ->
  Js.includes TaskModel.statusValues (TaskModel.status t) = true
  /\ forallb (TaskModel.maxlength 20) (TaskModel.tags t) = true.
Proof.
  unfold TaskMethods.validDocument, TaskModel.validPaths. intros H.
  split_andb H. auto.
Qed.

Lemma filter_out_new (tag : string) (l : list string) :
  Js.includes l tag = false ->
  filter (fun x => negb (x =? tag)%string) (l ++ [tag]) = l.
Proof.
  unfold Js.includes. intros H. rewrite filter_app. simpl.
  rewrite String.eqb_refl. simpl. rewrite app_nil_r.
  induction l as [|a r IH]; simpl in *; [reflexivity|].
  apply orb_false_iff in H. destruct H as [Ha Hr].
  rewrite String.eqb_sym, Ha. simpl. rewrite IH by exact Hr. reflexivity.
Qed.

Lemma includes_last (tag : string) (l : list string) :
  Js.includes (l ++ [tag]) tag = true.
Proof.
  unfold Js.includes. rewrite existsb_app. simpl.
  rewrite String.eqb_refl. apply orb_true_iff. right. reflexivity.
Qed.

End TaskDocuments.

(** X1.  The statics of the task model and the list route select the
    same documents.  Up to the order, which a [find] without sort leaves
    to the store, [Task.getOverdueTasks()] returns exactly the stored
    tasks whose [isOverdue] virtual is [true], and exactly the documents
    the query object of the list route for [overdue=true] alone matches;
    [Task.getTasksByStatus(status)] returns exactly the documents the
    query object for that status alone matches. *)
Theorem X1_statics_virtual_and_list_route_agree
    (L : Library) (now : Z) (status : string) (l result : list TaskModel.Task) :
  (TaskMethods.unsorted (TaskMethods.getOverdueTasks now l) result <->
   Permutation
     (filter (fun t => match TaskModel.isOverdue now t with
                       | Some true => true
                       | _ => false
                       end) l)
     result)
  /\ (TaskMethods.unsorted (TaskMethods.getOverdueTasks now l) result <->
      Permutation
        (filter (TaskRoutes.matches (TaskRoutes.buildQuery now (Sample.overdueQuery None))) l)
        result)
  /\ (TaskMethods.unsorted (TaskMethods.getOverdueTasks now l) result ->
      forall t, In t result <-> In t l /\ TaskModel.isOverdue now t = Some true)
  /\ (status <> "" ->
      (TaskMethods.unsorted (TaskMethods.getTasksByStatus status l) result <->
       Permutation
         (filter (TaskRoutes.matches
                    (TaskRoutes.buildQuery now
                       (TaskRoutes.Query.mk None None (Some status) None None None None None
                          None None))) l)
         result)
      /\ (TaskMethods.unsorted (TaskMethods.getTasksByStatus status l) result ->
          forall t, In t result <-> In t l /\ TaskModel.status t = status)).
Proof.
  assert (Hvirtual :
            TaskMethods.getOverdueTasks now l
            = filter (fun t => match TaskModel.isOverdue now t with
                               | Some true => true
                               | _ => false
                               end) l).
  { apply filter_ext. intros t.
    unfold TaskModel.isOverdue. destruct (TaskModel.dueDate t) as [d|]; [|reflexivity].
    destruct (d <? now); [|reflexivity].
    simpl. destruct (TaskModel.status t =? "completed")%string; reflexivity. }
  assert (Hroute :
            TaskMethods.getOverdueTasks now l
            = filter (TaskRoutes.matches
                        (TaskRoutes.buildQuery now (Sample.overdueQuery None))) l).
  { apply filter_ext. intros t.
    unfold TaskRoutes.matches, TaskRoutes.buildQuery. simpl.
    destruct (TaskModel.dueDate t) as [d|]; simpl.
    + destruct (TaskModel.status t =? "completed")%string; simpl;
        [rewrite andb_false_r|rewrite andb_true_r]; reflexivity.
    + rewrite andb_false_r. reflexivity. }
  unfold TaskMethods.unsorted.
  split; [rewrite <- Hvirtual; reflexivity|].
  split; [rewrite <- Hroute; reflexivity|].
  split.
  { intros Hperm t. rewrite Hvirtual in Hperm.
    split.
    - intros Hin. apply (Permutation_in _ (Permutation_sym Hperm)) in Hin.
      apply filter_In in Hin. destruct Hin as [Hin Hv]. split; [exact Hin|].
      destruct (TaskModel.isOverdue now t) as [[|]|]; try discriminate. reflexivity.
    - intros [Hin Hv]. apply (Permutation_in _ Hperm). apply filter_In.
      split; [exact Hin|]. rewrite Hv. reflexivity. }
  intros Hne.
  assert (Hstatus :
            TaskMethods.getTasksByStatus status l
            = filter (TaskRoutes.matches
                        (TaskRoutes.buildQuery now
                           (TaskRoutes.Query.mk None None (Some status) None None None None
                              None None None))) l).
  { apply filter_ext. intros t.
    unfold TaskRoutes.matches, TaskRoutes.buildQuery, TaskRoutes.whenTruthy. simpl.
    destruct (String.eqb_spec status "") as [E|_]; [contradiction|]. simpl.
    rewrite !andb_true_r. reflexivity. }
  split; [rewrite <- Hstatus; reflexivity|].
  intros Hperm t. unfold TaskMethods.getTasksByStatus in Hperm.
  split.
  - intros Hin. apply (Permutation_in _ (Permutation_sym Hperm)) in Hin.
    apply filter_In in Hin. destruct Hin as [Hin Hv]. split; [exact Hin|].
    apply String.eqb_eq. exact Hv.
  - intros [Hin Hv]. apply (Permutation_in _ Hperm). apply filter_In.
    split; [exact Hin|]. apply String.eqb_eq. exact Hv.
Qed.

(** The three stored tasks of which one is overdue: however the store
    orders the result of [Task.getOverdueTasks()], it holds that task. *)
Lemma X1_witness :
  In Sample.taskA [Sample.taskA]
  <-> In Sample.taskA (TaskRoutes.tasks Sample.abc)
      /\ TaskModel.isOverdue Sample.today Sample.taskA = Some true.
Proof.
  apply (X1_statics_virtual_and_list_route_agree Sample.library Sample.today "pending"
           (TaskRoutes.tasks Sample.abc) [Sample.taskA]).
  unfold TaskMethods.unsorted. apply Permutation_refl.
Defined.

(** X2.  [Task.getTaskStats()]: under a value, each of [byStatus],
    [byPriority] and [byCategory] holds the number of stored tasks with
    that value of the path, and has no member (rather than a zero) for a
    value no stored task has. *)
Theorem X2_getTaskStats_counts_every_value (l : list TaskModel.Task) (v : string) :
  let stats := TaskMethods.getTaskStats l in
  let count path := Aggregate.countWhere (fun t => (path t =? v)%string) l in
  let member n := if n =? 0 then None else Some (JNum n) in
  Obj.get v (TaskMethods.byStatus stats) = member (count TaskModel.status)
  /\ Obj.get v (TaskMethods.byPriority stats) = member (count TaskModel.priority)
  /\ Obj.get v (TaskMethods.byCategory stats) = member (count TaskModel.category).
Proof.
  cbv zeta. unfold TaskMethods.getTaskStats. simpl.
  rewrite !Counting.get_grouped, !Counting.countWhere_map. auto.
Qed.

(** X3.  [task.markAsCompleted()] on a stored document that passes the
    schema validators: the saved document has status "completed" and
    [completedAt] and [updatedAt] at the time of the call, whatever its
    status and completion time were; its other paths are unchanged; it
    satisfies the completion invariant; the collection holds it under its
    id, has as many documents as before and the same document under every
    other id. *)
Theorem X3_markAsCompleted_stamps_the_call_time
    (now : Z) (t : TaskModel.Task) (l : list TaskModel.Task) :
  TaskMethods.validDocument now t = true ->
  findById TaskModel._id (TaskModel._id t) l = Some t ->
  exists t' l',
    TaskMethods.markAsCompleted now t l = Some (t', l')
    /\ TaskModel.status t' = "completed"
    /\ TaskModel.completedAt t' = Some now
    /\ TaskModel.updatedAt t' = now
    /\ TaskRoutes.completedAtInvariant t'
    /\ (TaskModel._id t' = TaskModel._id t
        /\ TaskModel.title t' = TaskModel.title t
        /\ TaskModel.description t' = TaskModel.description t
        /\ TaskModel.priority t' = TaskModel.priority t
        /\ TaskModel.category t' = TaskModel.category t
        /\ TaskModel.dueDate t' = TaskModel.dueDate t
        /\ TaskModel.assignedTo t' = TaskModel.assignedTo t
        /\ TaskModel.tags t' = TaskModel.tags t
        /\ TaskModel.createdBy t' = TaskModel.createdBy t
        /\ TaskModel.createdAt t' = TaskModel.createdAt t)
    /\ findById TaskModel._id (TaskModel._id t) l' = Some t'
    /\ List.length l' = List.length l
    /\ (forall id, id <> TaskModel._id t ->
          findById TaskModel._id id l' = findById TaskModel._id id l).
Proof.
  intros Hvalid Hstored.
  set (t0 := TaskModel.setCompletedAt (Some now) (TaskMethods.setStatus "completed" t)).
  assert (Hv0 : TaskMethods.validDocument now t0 = true).
  { apply (TaskDocuments.validDocument_status_tags now t t0 Hvalid);
      try reflexivity.
    apply (TaskDocuments.validDocument_parts now t Hvalid). }
  assert (Hpre : forall m, TaskModel.preSave now m t0 = t0).
  { intros m. unfold TaskModel.preSave. destruct m; reflexivity. }
  exists (TaskMethods.setUpdatedAt now t0).
  exists (TaskRoutes.replaceById (TaskModel._id t) (TaskMethods.setUpdatedAt now t0) l).
  split.
  { unfold TaskMethods.markAsCompleted, TaskMethods.save. fold t0.
    rewrite Hv0, Hpre. reflexivity. }
  split; [reflexivity|]. split; [reflexivity|]. split; [reflexivity|].
  split.
  { unfold TaskRoutes.completedAtInvariant. simpl. split; [reflexivity | discriminate]. }
  split; [repeat split|].
  split; [apply (StatusUpdates.replaceById_found _ _ t); [exact Hstored | reflexivity]|].
  split; [apply TaskDocuments.replaceById_length|].
  intros id Hne. apply TaskDocuments.replaceById_other; [exact Hne | reflexivity].
Qed.

Lemma X3_witness :
  exists t' l',
    TaskMethods.markAsCompleted Sample.today Sample.pendingTask
      [Sample.doneTask; Sample.pendingTask] = Some (t', l')
    /\ TaskModel.completedAt t' = Some Sample.today
    /\ findById TaskModel._id Sample.id1 l' = Some Sample.doneTask.
Proof.
  destruct (X3_markAsCompleted_stamps_the_call_time Sample.today Sample.pendingTask
              [Sample.doneTask; Sample.pendingTask] eq_refl eq_refl)
    as (t' & l' & Hrun & _ & Hc & _ & _ & _ & _ & _ & Hothers).
  exists t', l'. split; [exact Hrun|]. split; [exact Hc|].
  rewrite (Hothers Sample.id1); [reflexivity | discriminate].
Defined.

(** X4.  [task.addTag(tag)] and [task.removeTag(tag)] on a stored document
    that passes the schema validators, for a trimmed tag of at most 20
    characters that the document does not have: [addTag] appends the tag
    and saves; a second [addTag] returns the document and the collection
    as they are, without saving; [removeTag] then gives back the tags the
    document had at first. *)
Theorem X4_addTag_then_removeTag_restores_the_tags
    (now later : Z) (tag : string) (t : TaskModel.Task) (l : list TaskModel.Task) :
  TaskMethods.validDocument now t = true ->
  TaskMethods.validDocument later t = true ->
  findById TaskModel._id (TaskModel._id t) l = Some t ->
  Js.trim tag = tag ->
  TaskModel.maxlength 20 tag = true ->
  Js.includes (TaskModel.tags t) tag = false ->
  exists t1 l1,
    TaskMethods.addTag now tag t l = Some (t1, l1)
    /\ TaskModel.tags t1 = (TaskModel.tags t ++ [tag])%list
    /\ TaskModel.updatedAt t1 = now
    /\ findById TaskModel._id (TaskModel._id t) l1 = Some t1
    /\ TaskMethods.addTag later tag t1 l1 = Some (t1, l1)
    /\ exists t2 l2,
         TaskMethods.removeTag later tag t1 l1 = Some (t2, l2)
         /\ TaskModel.tags t2 = TaskModel.tags t
         /\ TaskModel.updatedAt t2 = later
         /\ findById TaskModel._id (TaskModel._id t) l2 = Some t2.
Proof.
  intros Hnow Hlater Hstored Htrim Hlen Hnew.
  destruct (TaskDocuments.validDocument_parts now t Hnow) as [Hs Htags].
  set (t0 := TaskMethods.setTags (TaskModel.tags t ++ [tag]) t).
  assert (Htags0 : forallb (TaskModel.maxlength 20) (TaskModel.tags t0) = true).
  { simpl. rewrite forallb_app, Htags. simpl. rewrite Hlen. reflexivity. }
  assert (Hv0 : forall n, TaskMethods.validDocument n t = true ->
                          TaskMethods.validDocument n t0 = true).
  { intros n Hn.
    apply (TaskDocuments.validDocument_status_tags n t t0 Hn); try reflexivity.
    - exact Hs.
    - exact Htags0. }
  set (t1 := TaskMethods.setUpdatedAt now t0).
  set (l1 := TaskRoutes.replaceById (TaskModel._id t) t1 l).
  assert (Hstored1 : findById TaskModel._id (TaskModel._id t) l1 = Some t1).
  { apply (StatusUpdates.replaceById_found _ _ t); [exact Hstored | reflexivity]. }
  exists t1, l1.
  split.
  { unfold TaskMethods.addTag, TaskMethods.save. rewrite Hnew, Htrim. simpl negb.
    cbv iota. fold t0. rewrite (Hv0 now Hnow). reflexivity. }
  split; [reflexivity|]. split; [reflexivity|]. split; [exact Hstored1|].
  split.
  { unfold TaskMethods.addTag. simpl TaskModel.tags.
    rewrite TaskDocuments.includes_last. reflexivity. }
  set (t2 := TaskMethods.setUpdatedAt later (TaskMethods.setTags (TaskModel.tags t) t1)).
  exists t2, (TaskRoutes.replaceById (TaskModel._id t) t2 l1).
  split.
  { unfold TaskMethods.removeTag, TaskMethods.save. simpl TaskModel.tags.
    rewrite (TaskDocuments.filter_out_new tag (TaskModel.tags t) Hnew).
    assert (Hv2 : TaskMethods.validDocument later
                    (TaskMethods.setTags (TaskModel.tags t) t1) = true).
    { apply (TaskDocuments.validDocument_status_tags later t _ Hlater);
        try reflexivity; [exact Hs | exact Htags]. }
    rewrite Hv2.
    assert (Hmod : (List.length (TaskModel.tags t)
                    =? List.length (TaskModel.tags t ++ [tag]))%nat = false).
    { apply Nat.eqb_neq. rewrite length_app. simpl. lia. }
    rewrite Hmod. reflexivity. }
  split; [reflexivity|]. split; [reflexivity|].
  apply (StatusUpdates.replaceById_found _ _ t1); [exact Hstored1 | reflexivity].
Qed.

Lemma X4_witness :
  exists t1 l1 t2 l2,
    TaskMethods.addTag Sample.today "urgent" Sample.pendingTask
      [Sample.doneTask; Sample.pendingTask] = Some (t1, l1)
    /\ TaskModel.tags t1 = ["urgent"]
    /\ TaskMethods.removeTag (Sample.today + Sample.day) "urgent" t1 l1 = Some (t2, l2)
    /\ TaskModel.tags t2 = [].
Proof.
  destruct (X4_addTag_then_removeTag_restores_the_tags
              Sample.today (Sample.today + Sample.day) "urgent" Sample.pendingTask
              [Sample.doneTask; Sample.pendingTask]
              eq_refl eq_refl eq_refl eq_refl eq_refl eq_refl)
    as (t1 & l1 & Hadd & Htags & _ & _ & _ & t2 & l2 & Hrem & Htags2 & _).
  exists t1, l1, t2, l2. auto.
Defined.

(** ** The statistics summary (routes/tasks.js) *)

Module SummaryFacts.

Lemma status_partition (l : list TaskModel.Task) :
  Z.of_nat (List.length l)
  = Aggregate.countWhere (TaskSummary.hasStatus "pending") l
    + Aggregate.countWhere (TaskSummary.hasStatus "in-progress") l
    + Aggregate.countWhere (TaskSummary.hasStatus "completed") l
    + Aggregate.countWhere
        (fun t => negb (Js.includes ["pending"; "in-progress"; "completed"]
                                    (TaskModel.status t))) l.
Proof.
  rewrite <- Counting.countWhere_all.
  induction l as [|a r IH]; [reflexivity|].
  rewrite !Counting.countWhere_cons, IH.
  unfold TaskSummary.hasStatus, Js.includes. simpl existsb.
  destruct (TaskModel.status a =? "pending")%string eqn:E1;
    destruct (TaskModel.status a =? "in-progress")%string eqn:E2;
    destruct (TaskModel.status a =? "completed")%string eqn:E3;
    cbn [orb negb]; try lia;
    repeat match goal with
           | H : (_ =? _)%string = true |- _ => apply String.eqb_eq in H
           end; congruence.
Qed.

Lemma overdue_bound (missing : bool) (now : Z) (l : list TaskModel.Task) :
  Aggregate.countWhere (TaskSummary.overdueCond missing now) l
  <= Z.of_nat (List.length l) - Aggregate.countWhere (TaskSummary.hasStatus "completed") l.
Proof.
  rewrite <- Counting.countWhere_all.
  induction l as [|a r IH]; [reflexivity|].
  rewrite !Counting.countWhere_cons.
  unfold TaskSummary.overdueCond at 1, TaskSummary.hasStatus at 1.
  destruct (match TaskModel.dueDate a with Some d => d <? now | None => missing end);
    destruct (TaskModel.status a =? "completed")%string; cbn [negb andb]; lia.
Qed.

Lemma overdue_split (missing : bool) (now : Z) (l : list TaskModel.Task) :
  Aggregate.countWhere (TaskSummary.overdueCond missing now) l
  = Z.of_nat (List.length (TaskMethods.getOverdueTasks now l))
    + (if missing
       then Aggregate.countWhere
              (fun t => negb (Js.defined (TaskModel.dueDate t))
                        && negb (TaskModel.status t =? "completed")%string) l
       else 0).
Proof.
  unfold TaskMethods.getOverdueTasks.
  change (Z.of_nat (List.length (filter ?p l))) with (Aggregate.countWhere p l).
  induction l as [|a r IH].
  - destruct missing; reflexivity.
  - destruct missing; rewrite !Counting.countWhere_cons; rewrite IH;
      unfold TaskSummary.overdueCond;
      destruct (TaskModel.dueDate a) as [d|]; simpl Js.defined; cbn [negb andb];
      try destruct (d <? now);
      destruct (TaskModel.status a =? "completed")%string; cbn [negb andb]; lia.
Qed.

End SummaryFacts.

(** X5.  [GET /api/tasks/stats/summary] answers 200 and leaves the store as
    it is.  Its [total] is the number of stored tasks and [pending],
    [inProgress] and [completed] the numbers of tasks of these statuses, on
    an empty collection too; the three add up to the total less the tasks
    of any other status (a cancelled task is in no counter but [total]).
    [overdue] is at most the number of tasks that are not completed: it
    counts the tasks [Task.getOverdueTasks()] returns and, when the store
    orders a missing due date before a date, the tasks without due date
    that are not completed as well. *)
Theorem X5_summary_counters (missingBeforeDate : bool) (now : Z) (st : TaskRoutes.Store) :
  let l := TaskRoutes.tasks st in
  let count p := Aggregate.countWhere p l in
  let total := Z.of_nat (List.length l) in
  let pending := count (TaskSummary.hasStatus "pending") in
  let inProgress := count (TaskSummary.hasStatus "in-progress") in
  let completed := count (TaskSummary.hasStatus "completed") in
  let overdue := count (TaskSummary.overdueCond missingBeforeDate now) in
  exists summary,
    TaskSummary.getSummary missingBeforeDate now st
    = (Http.mkResponse 200 true None [] (Some summary) [], st)
    /\ Obj.get "total" summary = Some (JNum total)
    /\ Obj.get "pending" summary = Some (JNum pending)
    /\ Obj.get "inProgress" summary = Some (JNum inProgress)
    /\ Obj.get "completed" summary = Some (JNum completed)
    /\ Obj.get "overdue" summary = Some (JNum overdue)
    /\ total
       = pending + inProgress + completed
         + count (fun t => negb (Js.includes ["pending"; "in-progress"; "completed"]
                                             (TaskModel.status t)))
    /\ 0 <= overdue <= total - completed
    /\ overdue
       = Z.of_nat (List.length (TaskMethods.getOverdueTasks now l))
         + (if missingBeforeDate
            then count (fun t => negb (Js.defined (TaskModel.dueDate t))
                                 && negb (TaskModel.status t =? "completed")%string)
            else 0).
Proof.
  cbv zeta. unfold TaskSummary.getSummary.
  eexists. split; [reflexivity|].
  assert (Hget :
    forall k, In k ["total"; "pending"; "inProgress"; "completed"; "overdue"] ->
      Obj.get k (match TaskSummary.aggregate missingBeforeDate now (TaskRoutes.tasks st) with
                 | [] => TaskSummary.zeros
                 | s :: _ => s
                 end)
      = Obj.get k
          [("total", JNum (Z.of_nat (List.length (TaskRoutes.tasks st))));
           ("pending",
            JNum (Aggregate.countWhere (TaskSummary.hasStatus "pending") (TaskRoutes.tasks st)));
           ("inProgress",
            JNum (Aggregate.countWhere (TaskSummary.hasStatus "in-progress")
                    (TaskRoutes.tasks st)));
           ("completed",
            JNum (Aggregate.countWhere (TaskSummary.hasStatus "completed")
                    (TaskRoutes.tasks st)));
           ("overdue",
            JNum (Aggregate.countWhere (TaskSummary.overdueCond missingBeforeDate now)
                    (TaskRoutes.tasks st)))]).
  { intros k Hk. destruct (TaskRoutes.tasks st) as [|a r].
    - simpl in Hk. repeat (destruct Hk as [<-|Hk]; [reflexivity|]). destruct Hk.
    - simpl in Hk. repeat (destruct Hk as [<-|Hk]; [reflexivity|]). destruct Hk. }
  repeat (split; [rewrite Hget by (simpl; auto 10); reflexivity|]).
  split; [apply SummaryFacts.status_partition|].
  split; [split; [apply Counting.countWhere_nonneg | apply SummaryFacts.overdue_bound]|].
  apply SummaryFacts.overdue_split.
Qed.

(** ** The list route (routes/tasks.js) *)

Module Sorting.

Lemma keyLe_total (a b : TaskRoutes.SortKey) :
  TaskRoutes.keyLe a b = true \/ TaskRoutes.keyLe b a = true.
Proof.
  destruct a as [|x|x], b as [|y|y]; simpl; auto.
  - destruct (Z.leb_spec x y); [auto|]. right. apply Z.leb_le. lia.
  - apply String.leb_total.
Qed.

Lemma insert_sorted {A} (le : A -> A -> bool) (x : A) (l : list A) :
  (forall a b, le a b = true \/ le b a = true) ->
  Sorted (fun a b => le a b = true) l ->
  Sorted (fun a b => le a b = true) (TaskRoutes.insert le x l).
Proof.
  intros Htotal. induction l as [|a r IH]; intros Hs; simpl.
  - constructor; constructor.
  - inversion Hs as [|? ? Hr Hhd]; subst.
    destruct (le x a) eqn:E.
    + constructor; [exact Hs | constructor; exact E].
    + constructor; [apply IH; exact Hr|].
      destruct r as [|y r']; simpl.
      * constructor. destruct (Htotal a x) as [H|H]; [exact H | congruence].
      * destruct (le x y).
        -- constructor. destruct (Htotal a x) as [H|H]; [exact H | congruence].
        -- constructor. inversion Hhd; assumption.
Qed.

Lemma insertBy_sorted {A} (le : A -> A -> bool) (x : A) (l : list A) :
  (forall a b, le a b = true \/ le b a = true) ->
  Sorted (fun a b => le a b = true) l ->
  Sorted (fun a b => le a b = true) (Server.insertBy le x l).
Proof.
  intros Htotal. induction l as [|a r IH]; intros Hs; simpl.
  - constructor; constructor.
  - inversion Hs as [|? ? Hr Hhd]; subst.
    destruct (le x a) eqn:E.
    + constructor; [exact Hs | constructor; exact E].
    + constructor; [apply IH; exact Hr|].
      destruct r as [|y r']; simpl.
      * constructor. destruct (Htotal a x) as [H|H]; [exact H | congruence].
      * destruct (le x y).
        -- constructor. destruct (Htotal a x) as [H|H]; [exact H | congruence].
        -- constructor. inversion Hhd; assumption.
Qed.

Lemma sortTasks_sorted (field : string) (dir : Z) (l : list TaskModel.Task) :
  Sorted (Invariant.inOrder field dir) (TaskRoutes.sortTasks field dir l).
Proof.
  unfold TaskRoutes.sortTasks, Invariant.inOrder.
  induction l as [|a r IH]; simpl; [constructor|].
  apply (insert_sorted
           (fun a b =>
              if dir =? 1
              then TaskRoutes.keyLe (TaskRoutes.sortKey field a) (TaskRoutes.sortKey field b)
              else TaskRoutes.keyLe (TaskRoutes.sortKey field b) (TaskRoutes.sortKey field a))).
  - intros x y. destruct (dir =? 1); apply keyLe_total.
  - exact IH.
Qed.

Lemma sorted_skipn {A} (R : A -> A -> Prop) (n : nat) (l : list A) :
  Sorted R l -> Sorted R (skipn n l).
Proof.
  revert l. induction n as [|n IH]; intros l H; simpl; [exact H|].
  destruct l as [|a r]; [constructor|].
  apply IH. inversion H; assumption.
Qed.

Lemma sorted_firstn {A} (R : A -> A -> Prop) (n : nat) (l : list A) :
  Sorted R l -> Sorted R (firstn n l).
Proof.
  revert l. induction n as [|n IH]; intros l H; simpl; [constructor|].
  destruct l as [|a r]; [constructor|].
  inversion H as [|? ? Hr Hhd]; subst.
  constructor; [apply IH; exact Hr|].
  destruct n; simpl; [constructor|].
  destruct r as [|b r']; [constructor|].
  constructor. inversion Hhd; assumption.
Qed.

Lemma window_in {A} (skip limit : Z) (l : list A) (x : A) :
  In x (TaskRoutes.window skip limit l) -> In x l.
Proof.
  unfold TaskRoutes.window. intros H.
  rewrite <- (firstn_skipn (Z.to_nat skip) l). apply in_or_app. right.
  rewrite <- (firstn_skipn (Z.to_nat limit) (skipn (Z.to_nat skip) l)).
  apply in_or_app. left. exact H.
Qed.

End Sorting.

(** X6.  A page of [GET /api/tasks] for a query that passes validation.
    The chained query selects a page in the order of [sortBy] and
    [sortOrder] (by default the newest first), of at most [limit]
    documents, so at most 100, each a stored task that satisfies the
    query object built from the request; the store is left as it was.
    The page is returned only when it is empty: the answer is 200, with
    no document, exactly when the store accepts the query object and the
    page holds nothing; otherwise it is the 500 of the [catch] block,
    without data and without pagination. *)
Theorem X6_list_page_is_selected_and_returned_only_when_empty (L : Library)
    (now : Z) (q : TaskRoutes.Query.t) (st : TaskRoutes.Store) :
  Validation.validationResult now Validation.query (TaskRoutes.queryRequest q) = [] ->
  let r := fst (TaskRoutes.getTasks now q st) in
  let field := Js.orDefault (TaskRoutes.Query.sortBy q) "createdAt" in
  let dir :=
    if (Js.orDefault (TaskRoutes.Query.sortOrder q) "desc" =? "asc")%string then 1 else -1 in
  exists plan limit,
    TaskRoutes.listPlan now q = Some plan
    /\ Js.parseInt (Js.orDefault (TaskRoutes.Query.limit q) "10") = Some limit
    /\ 1 <= limit <= 100
    /\ snd (TaskRoutes.getTasks now q st) = st
    /\ Sorted (Invariant.inOrder field dir) (TaskRoutes.exec plan (TaskRoutes.tasks st))
    /\ Z.of_nat (List.length (TaskRoutes.exec plan (TaskRoutes.tasks st))) <= limit
    /\ Forall (fun t => In t (TaskRoutes.tasks st)
                        /\ TaskRoutes.matches (TaskRoutes.buildQuery now q) t = true)
              (TaskRoutes.exec plan (TaskRoutes.tasks st))
    /\ (Http.status r = 200 <->
        TaskRoutes.rejectedQuery (TaskRoutes.buildQuery now q) = false
        /\ TaskRoutes.exec plan (TaskRoutes.tasks st) = [])
    /\ (Http.status r = 200 -> Http.data r = Some (TaskRoutes.Many []))
    /\ (Http.status r <> 200 ->
        Http.status r = 500
        /\ Http.message r = Some "Server error while fetching tasks"
        /\ Http.data r = None
        /\ Http.pagination r = []).
Proof.
  intros Hvalid. cbv zeta.
  destruct (Pagination.tasks_list now q st Hvalid)
    as (v & l & plan & Hv & Hv1 & Hl & Hl1 & Hplan & Hshape & Hrun).
  exists plan, l.
  split; [exact Hplan|]. split; [exact Hl|]. split; [exact Hl1|].
  rewrite Hrun. cbn [fst snd].
  split; [reflexivity|].
  assert (Hexec : TaskRoutes.exec plan (TaskRoutes.tasks st)
                  = TaskRoutes.window (Js.times (Js.minus (Js.number v) 1) l) l
                      (TaskRoutes.sortTasks
                         (Js.orDefault (TaskRoutes.Query.sortBy q) "createdAt")
                         (if (Js.orDefault (TaskRoutes.Query.sortOrder q) "desc" =? "asc")%string
                          then 1 else -1)
                         (filter (TaskRoutes.matches (TaskRoutes.buildQuery now q))
                                 (TaskRoutes.tasks st))))
    by (rewrite Hshape; reflexivity).
  split.
  { rewrite Hexec. unfold TaskRoutes.window.
    apply Sorting.sorted_firstn, Sorting.sorted_skipn, Sorting.sortTasks_sorted. }
  split.
  { rewrite Hexec. unfold TaskRoutes.window.
    pose proof (firstn_le_length (Z.to_nat l)
                  (skipn (Z.to_nat (Js.times (Js.minus (Js.number v) 1) l))
                     (TaskRoutes.sortTasks
                        (Js.orDefault (TaskRoutes.Query.sortBy q) "createdAt")
                        (if (Js.orDefault (TaskRoutes.Query.sortOrder q) "desc" =? "asc")%string
                         then 1 else -1)
                        (filter (TaskRoutes.matches (TaskRoutes.buildQuery now q))
                                (TaskRoutes.tasks st))))) as Hle.
    lia. }
  split.
  { rewrite Hexec. apply Forall_forall. intros t Hin.
    apply Sorting.window_in in Hin.
    apply (Permutation_in _ (Overdue.sortTasks_perm _ _ _)) in Hin.
    apply filter_In in Hin. exact Hin. }
  destruct (TaskRoutes.rejectedQuery (TaskRoutes.buildQuery now q)).
  { split; [split; [discriminate | intros [H _]; discriminate H]|].
    split; [discriminate|]. intros _. repeat split; reflexivity. }
  destruct (TaskRoutes.exec plan (TaskRoutes.tasks st)) as [|t page].
  - split; [split; [intros _; split; reflexivity | reflexivity]|].
    split; [reflexivity|]. intros H. exfalso. apply H. reflexivity.
  - split; [split; [discriminate | intros [_ H]; discriminate H]|].
    split; [discriminate|]. intros _. repeat split; reflexivity.
Qed.

(** The overdue listing of the three tasks selects the page of the one
    overdue task and is answered 500. *)
Lemma X6_witness :
  (exists plan,
     TaskRoutes.listPlan Sample.today (Sample.overdueQuery None)
     = Some plan
     /\ TaskRoutes.exec (L:=Sample.library) plan (TaskRoutes.tasks Sample.abc)
        = [Sample.taskA]
     /\ Sorted (Invariant.inOrder "createdAt" (-1))
               (TaskRoutes.exec (L:=Sample.library) plan (TaskRoutes.tasks Sample.abc)))
  /\ Http.status (fst (TaskRoutes.getTasks (L:=Sample.library) Sample.today
                         (Sample.overdueQuery None) Sample.abc))
     = 500.
Proof.
  destruct (X6_list_page_is_selected_and_returned_only_when_empty Sample.library
              Sample.today (Sample.overdueQuery None) Sample.abc eq_refl)
    as (plan & limit & Hplan & _ & _ & _ & Hsorted & _ & _ & Hok & _ & Hfail).
  assert (E : forall x y : TaskRoutes.Plan, Some x = Some y -> x = y)
    by (intros x y H; injection H; auto).
  pose proof (E _ _ Hplan) as Hp.
  split.
  - exists plan. split; [exact Hplan|]. split; [rewrite <- Hp; reflexivity | exact Hsorted].
  - apply Hfail. intros H200. apply Hok in H200. destruct H200 as [_ Hempty].
    rewrite <- Hp in Hempty. discriminate Hempty.
Defined.

(** ** Updates and deletions of one task (routes/tasks.js) *)

Module TaskUpdates.

Lemma replaceById_ids (id : ObjectId) (new : TaskModel.Task) (l : list TaskModel.Task) :
  TaskModel._id new = id ->
  map TaskModel._id (TaskRoutes.replaceById id new l) = map TaskModel._id l.
Proof.
  intros Hid. induction l as [|d r IH]; simpl; [reflexivity|].
  destruct (TaskModel._id d =? id)%string eqn:E; simpl.
  - apply String.eqb_eq in E. congruence.
  - rewrite IH. reflexivity.
Qed.

Lemma replaceById_forall (P : TaskModel.Task -> Prop) (id : ObjectId)
    (new : TaskModel.Task) (l : list TaskModel.Task) :
  Forall P l -> P new -> Forall P (TaskRoutes.replaceById id new l).
Proof.
  intros Hl Hnew. induction Hl as [|d r Hd Hr IH]; simpl; [constructor|].
  destruct (TaskModel._id d =? id)%string; constructor; assumption.
Qed.

Lemma removeById_in (id : ObjectId) (l : list TaskModel.Task) (x : TaskModel.Task) :
  In x (TaskRoutes.removeById id l) -> In x l.
Proof.
  induction l as [|d r IH]; simpl; [auto|].
  destruct (TaskModel._id d =? id)%string; simpl; intuition.
Qed.

Lemma removeById_ids_in (id x : ObjectId) (l : list TaskModel.Task) :
  In x (map TaskModel._id (TaskRoutes.removeById id l)) -> In x (map TaskModel._id l).
Proof.
  induction l as [|d r IH]; simpl; [auto|].
  destruct (TaskModel._id d =? id)%string; simpl; intuition.
Qed.

Lemma removeById_unique (id : ObjectId) (l : list TaskModel.Task) :
  NoDup (map TaskModel._id l) -> NoDup (map TaskModel._id (TaskRoutes.removeById id l)).
Proof.
  induction l as [|d r IH]; simpl; intros H; [constructor|].
  inversion H as [|? ? Hnot Hr]; subst.
  destruct (TaskModel._id d =? id)%string; simpl; [exact Hr|].
  constructor; [|apply IH; exact Hr].
  intros Hin. apply Hnot. exact (removeById_ids_in _ _ _ Hin).
Qed.

Lemma removeById_forall (P : TaskModel.Task -> Prop) (id : ObjectId)
    (l : list TaskModel.Task) :
  Forall P l -> Forall P (TaskRoutes.removeById id l).
Proof.
  intros H. apply Forall_forall. intros x Hx.
  apply (proj1 (Forall_forall P l) H). exact (removeById_in _ _ _ Hx).
Qed.

Lemma removeById_gone (id : ObjectId) (l : list TaskModel.Task) :
  NoDup (map TaskModel._id l) ->
  findById TaskModel._id id (TaskRoutes.removeById id l) = None.
Proof.
  unfold findById. induction l as [|d r IH]; simpl; intros H; [reflexivity|].
  inversion H as [|? ? Hnot Hr]; subst.
  destruct (TaskModel._id d =? id)%string eqn:E; simpl.
  - apply String.eqb_eq in E. subst id.
    destruct (find (fun x => (TaskModel._id x =? TaskModel._id d)%string) r) as [x|] eqn:F;
      [|reflexivity].
    apply find_some in F. destruct F as [Hin Heq]. apply String.eqb_eq in Heq.
    exfalso. apply Hnot. rewrite <- Heq. apply in_map. exact Hin.
  - rewrite E. apply IH. exact Hr.
Qed.

Lemma removeById_other (id id' : ObjectId) (l : list TaskModel.Task) :
  id' <> id ->
  findById TaskModel._id id' (TaskRoutes.removeById id l) = findById TaskModel._id id' l.
Proof.
  intros Hne. unfold findById. induction l as [|d r IH]; simpl; [reflexivity|].
  destruct (TaskModel._id d =? id)%string eqn:E; simpl.
  - apply String.eqb_eq in E.
    destruct (TaskModel._id d =? id')%string eqn:E'; [|reflexivity].
    apply String.eqb_eq in E'. congruence.
  - destruct (TaskModel._id d =? id')%string; [reflexivity | exact IH].
Qed.

Lemma removeById_length (id : ObjectId) (l : list TaskModel.Task) (t : TaskModel.Task) :
  findById TaskModel._id id l = Some t ->
  (List.length (TaskRoutes.removeById id l) + 1 = List.length l)%nat.
Proof.
  unfold findById. induction l as [|d r IH]; simpl; [discriminate|].
  destruct (TaskModel._id d =? id)%string; simpl; intros H; [lia|].
  rewrite <- (IH H). lia.
Qed.

End TaskUpdates.

(** X7.  When [PUT /api/tasks/:id] changes the store, the task was stored
    and is stored still, under the same id and with the same [createdAt],
    [createdBy] and [completedAt]; [updatedAt] is the time of the request;
    a path the body leaves out keeps its value, and [title], [status],
    [priority] and [category] given in the body are stored (the title
    trimmed); no other task and no user is changed.  The request is
    answered 500 all the same, without the document: the update is
    written before the [populate] that is refused. *)
Theorem X7_written_update_keeps_identity_and_is_answered_500 (L : Library)
    (now : Z) (id : string) (b : TaskRoutes.Body.t) (st : TaskRoutes.Store) :
  snd (TaskRoutes.updateTask now id b st) <> st ->
  let st' := snd (TaskRoutes.updateTask now id b st) in
  exists old new,
    findById TaskModel._id id (TaskRoutes.tasks st) = Some old
    /\ findById TaskModel._id id (TaskRoutes.tasks st') = Some new
    /\ fst (TaskRoutes.updateTask now id b st)
       = Http.failure 500 "Server error while updating task"
    /\ (TaskModel._id new = id
        /\ TaskModel.createdAt new = TaskModel.createdAt old
        /\ TaskModel.createdBy new = TaskModel.createdBy old
        /\ TaskModel.completedAt new = TaskModel.completedAt old
        /\ TaskModel.updatedAt new = now)
    /\ (TaskModel.title new
          = match TaskRoutes.Body.title b with
            | Some s => Js.trim s
            | None => TaskModel.title old
            end
        /\ TaskModel.status new
           = match TaskRoutes.Body.status b with Some s => s | None => TaskModel.status old end
        /\ TaskModel.priority new
           = match TaskRoutes.Body.priority b with
             | Some s => s
             | None => TaskModel.priority old
             end
        /\ TaskModel.category new
           = match TaskRoutes.Body.category b with
             | Some s => s
             | None => TaskModel.category old
             end)
    /\ (TaskRoutes.Body.description b = None ->
          TaskModel.description new = TaskModel.description old)
    /\ (TaskRoutes.Body.assignedTo b = None ->
          TaskModel.assignedTo new = TaskModel.assignedTo old)
    /\ (TaskRoutes.Body.dueDate b = None -> TaskModel.dueDate new = TaskModel.dueDate old)
    /\ (TaskRoutes.Body.tags b = None -> TaskModel.tags new = TaskModel.tags old)
    /\ TaskRoutes.users st' = TaskRoutes.users st
    /\ List.length (TaskRoutes.tasks st') = List.length (TaskRoutes.tasks st)
    /\ (forall id', id' <> id ->
          findById TaskModel._id id' (TaskRoutes.tasks st')
          = findById TaskModel._id id' (TaskRoutes.tasks st)).
Proof.
  cbv zeta. unfold TaskRoutes.updateTask, Validation.handleValidationErrors.
  destruct (Validation.validationResult now Validation.update (TaskRoutes.request id b))
    as [|e errs]; [|intros H; exfalso; apply H; reflexivity].
  unfold TaskRoutes.updateHandler.
  destruct (findById TaskModel._id id (TaskRoutes.tasks st)) as [old|] eqn:Hold;
    [|intros H; exfalso; apply H; reflexivity].
  destruct (TaskRoutes.assignedUncastable (TaskRoutes.Body.assignedTo b));
    [intros H; exfalso; apply H; reflexivity|].
  destruct (TaskRoutes.assignedUserMissing st (TaskRoutes.Body.assignedTo b));
    [intros H; exfalso; apply H; reflexivity|].
  destruct (TaskRoutes.castDate (TaskRoutes.Body.dueDate b)) as [dueDate|] eqn:Hdate;
    [|intros H; exfalso; apply H; reflexivity].
  destruct (TaskRoutes.castRef (TaskRoutes.Body.assignedTo b)) as [assignedTo|] eqn:Href;
    [|intros H; exfalso; apply H; reflexivity].
  destruct (TaskModel.validPaths now _ _ _ _ _ dueDate _);
    [|intros H; exfalso; apply H; reflexivity].
  intros _. cbv zeta. rewrite Populate.populated_refused. simpl fst. simpl snd.
  destruct (findById_some _ _ _ _ Hold) as [_ Hid].
  eexists old, _.
  split; [reflexivity|].
  split.
  { simpl TaskRoutes.tasks.
    apply (StatusUpdates.replaceById_found id _ old); [exact Hold | exact Hid]. }
  split; [reflexivity|].
  split; [simpl; auto|].
  split.
  { simpl. destruct (TaskRoutes.Body.title b), (TaskRoutes.Body.status b),
      (TaskRoutes.Body.priority b), (TaskRoutes.Body.category b); simpl; auto. }
  split; [intros E; simpl; rewrite E; reflexivity|].
  split.
  { intros E. rewrite E in Href. simpl in Href.
    assert (Ha : assignedTo = None) by congruence. simpl. rewrite Ha. reflexivity. }
  split.
  { intros E. rewrite E in Hdate. simpl in Hdate.
    assert (Hd : dueDate = None) by congruence. simpl. rewrite Hd. reflexivity. }
  split; [intros E; simpl; rewrite E; reflexivity|].
  split; [reflexivity|].
  split; [simpl; apply TaskDocuments.replaceById_length|].
  intros id' Hne. simpl. apply TaskDocuments.replaceById_other; [exact Hne | exact Hid].
Qed.

(** A task set to "completed" by the update route is stored completed,
    without a completion time, and the request is answered 500. *)
Lemma X7_witness :
  exists new,
    findById TaskModel._id Sample.id2
      (TaskRoutes.tasks
         (snd (TaskRoutes.updateTask (L:=Sample.library) Sample.today Sample.id2
                 Sample.completeBody Sample.store)))
    = Some new
    /\ TaskModel.status new = "completed"
    /\ TaskModel.completedAt new = None
    /\ Http.status
         (fst (TaskRoutes.updateTask (L:=Sample.library) Sample.today Sample.id2
                 Sample.completeBody Sample.store))
       = 500.
Proof.
  assert (Hchanged :
            snd (TaskRoutes.updateTask (L:=Sample.library) Sample.today Sample.id2
                   Sample.completeBody Sample.store)
            <> Sample.store).
  { intros H.
    apply (f_equal (fun s => option_map TaskModel.status
                               (findById TaskModel._id Sample.id2 (TaskRoutes.tasks s)))) in H.
    vm_compute in H. discriminate H. }
  destruct (X7_written_update_keeps_identity_and_is_answered_500 Sample.library Sample.today
              Sample.id2 Sample.completeBody Sample.store Hchanged)
    as (old & new & Hold & Hnew & Hanswer & (_ & _ & _ & Hc & _) & (_ & Hs & _) & _).
  exists new. split; [exact Hnew|]. split; [exact Hs|].
  split; [|rewrite Hanswer; reflexivity].
  rewrite Hc. vm_compute in Hold.
  assert (E : forall x y : TaskModel.Task, Some x = Some y -> x = y)
    by (intros x y H; injection H; auto).
  apply E in Hold. rewrite <- Hold. reflexivity.
Defined.

(** X8.  When the handler of [PATCH /api/tasks/:id/status] changes the
    store, the stored task has the status of the body (its own when the
    body has none), [updatedAt] at the time of the request, and
    [completedAt] at the time of the request when the new status is
    "completed", also for a task that was completed before, and as it was
    otherwise; every other path of the task, every other task and the
    users are unchanged.  The request is answered 500 all the same,
    without the document: the task is written before the [populate] that
    is refused. *)
Theorem X8_status_route_writes_three_paths_and_answers_500
    (now : Z) (id : string) (b : TaskRoutes.Body.t) (st : TaskRoutes.Store) :
  snd (TaskRoutes.statusHandler now id b st) <> st ->
  let st' := snd (TaskRoutes.statusHandler now id b st) in
  exists old new,
    findById TaskModel._id id (TaskRoutes.tasks st) = Some old
    /\ findById TaskModel._id id (TaskRoutes.tasks st') = Some new
    /\ fst (TaskRoutes.statusHandler now id b st)
       = Http.failure 500 "Server error while updating task status"
    /\ TaskModel.status new
       = match TaskRoutes.Body.status b with Some s => s | None => TaskModel.status old end
    /\ TaskModel.completedAt new
       = match TaskRoutes.Body.status b with
         | Some s => if (s =? "completed")%string then Some now else TaskModel.completedAt old
         | None => TaskModel.completedAt old
         end
    /\ TaskModel.updatedAt new = now
    /\ (TaskModel._id new = id
        /\ TaskModel.title new = TaskModel.title old
        /\ TaskModel.description new = TaskModel.description old
        /\ TaskModel.priority new = TaskModel.priority old
        /\ TaskModel.category new = TaskModel.category old
        /\ TaskModel.dueDate new = TaskModel.dueDate old
        /\ TaskModel.assignedTo new = TaskModel.assignedTo old
        /\ TaskModel.tags new = TaskModel.tags old
        /\ TaskModel.createdBy new = TaskModel.createdBy old
        /\ TaskModel.createdAt new = TaskModel.createdAt old)
    /\ TaskRoutes.users st' = TaskRoutes.users st
    /\ List.length (TaskRoutes.tasks st') = List.length (TaskRoutes.tasks st)
    /\ (forall id', id' <> id ->
          findById TaskModel._id id' (TaskRoutes.tasks st')
          = findById TaskModel._id id' (TaskRoutes.tasks st)).
Proof.
  cbv zeta. unfold TaskRoutes.statusHandler.
  destruct (findById TaskModel._id id (TaskRoutes.tasks st)) as [old|] eqn:Hold;
    [|intros H; exfalso; apply H; reflexivity].
  destruct (TaskModel.validPaths now None None (TaskRoutes.Body.status b) None None None None);
    [|intros H; exfalso; apply H; reflexivity].
  intros _. cbv zeta. rewrite Populate.populated_refused. simpl fst. simpl snd.
  destruct (findById_some _ _ _ _ Hold) as [_ Hid].
  eexists old, _.
  split; [reflexivity|].
  split.
  { simpl TaskRoutes.tasks.
    apply (StatusUpdates.replaceById_found id _ old); [exact Hold | exact Hid]. }
  split; [reflexivity|].
  split; [simpl; destruct (TaskRoutes.Body.status b); reflexivity|].
  split.
  { simpl. destruct (TaskRoutes.Body.status b) as [s|]; reflexivity. }
  split; [reflexivity|].
  split; [simpl; repeat split; auto|].
  split; [reflexivity|].
  split; [simpl; apply TaskDocuments.replaceById_length|].
  intros id' Hne. simpl. apply TaskDocuments.replaceById_other; [exact Hne | exact Hid].
Qed.

(** A completed task patched to "completed" again is stored with the time
    of the request as its completion time, and the request is answered
    500. *)
Lemma X8_witness :
  exists new,
    findById TaskModel._id Sample.id1
      (TaskRoutes.tasks
         (snd (TaskRoutes.statusHandler Sample.today Sample.id1
                 (Sample.statusBody "completed") Sample.store)))
    = Some new
    /\ TaskModel.completedAt Sample.doneTask = Some (Sample.today - 5 * Sample.day)
    /\ TaskModel.completedAt new = Some Sample.today
    /\ Http.status
         (fst (TaskRoutes.statusHandler Sample.today Sample.id1
                 (Sample.statusBody "completed") Sample.store))
       = 500.
Proof.
  assert (Hchanged :
            snd (TaskRoutes.statusHandler Sample.today Sample.id1
                   (Sample.statusBody "completed") Sample.store)
            <> Sample.store).
  { intros H.
    apply (f_equal (fun s => option_map TaskModel.completedAt
                               (findById TaskModel._id Sample.id1 (TaskRoutes.tasks s)))) in H.
    vm_compute in H. discriminate H. }
  destruct (X8_status_route_writes_three_paths_and_answers_500 Sample.today Sample.id1
              (Sample.statusBody "completed") Sample.store Hchanged)
    as (old & new & _ & Hnew & Hanswer & _ & Hc & _).
  exists new. split; [exact Hnew|]. split; [reflexivity|].
  split; [exact Hc | rewrite Hanswer; reflexivity].
Defined.

(** X9.  A title of blanks only passes the validation of [POST /api/tasks]
    (the chain checks the value before it trims it) and fails the
    [required] validator of the schema once trimmed: the request is
    answered 500 and nothing is stored.  With any body of such a title the
    answer is never 201 and the store is left as it is. *)
Theorem X9_blank_title_passes_validation_and_fails_on_save (L : Library)
    (now : Z) (newId : ObjectId) (title : string) (st : TaskRoutes.Store) :
  title <> "" ->
  (String.length title <= 100)%nat ->
  Js.trim title = "" ->
  Validation.validationResult now Validation.create
    (TaskRoutes.request "" (Invariant.titleBody title)) = []
  /\ TaskRoutes.createTask now newId (Invariant.titleBody title) st
     = (Http.failure 500 "Server error while creating task", st)
  /\ (forall b,
        TaskRoutes.Body.title b = Some title ->
        Http.status (fst (TaskRoutes.createTask now newId b st)) <> 201
        /\ snd (TaskRoutes.createTask now newId b st) = st).
Proof.
  intros Hne Hlen Hblank.
  assert (Hvalid : Validation.validationResult now Validation.create
                     (TaskRoutes.request "" (Invariant.titleBody title)) = []).
  { unfold Validation.validationResult, Validation.create, Validation.commonBody.
    cbn [flat_map Validation.runChain Validation.instances Validation.location
         Validation.selector Validation.body Validation.bodyOptional
         Validation.bodyEachOptional TaskRoutes.request Invariant.titleBody
         TaskRoutes.Body.get].
    simpl.
    destruct (String.eqb_spec title "") as [E|_]; [contradiction|]. simpl.
    destruct title as [|c r]; [contradiction|]. simpl in Hlen. simpl.
    assert (Hr : (String.length r <=? 99)%nat = true) by (apply Nat.leb_le; lia).
    rewrite Hr. reflexivity. }
  assert (Hsave : forall b, TaskRoutes.Body.title b = Some title ->
                            TaskRoutes.newTask now newId b = None).
  { intros b Hb. unfold TaskRoutes.newTask. rewrite Hb. simpl option_map.
    rewrite Hblank.
    destruct (TaskRoutes.castDate (TaskRoutes.Body.dueDate b)); [|reflexivity].
    destruct (TaskRoutes.castRef (TaskRoutes.Body.assignedTo b)); reflexivity. }
  split; [exact Hvalid|].
  split.
  { unfold TaskRoutes.createTask, Validation.handleValidationErrors. rewrite Hvalid.
    unfold TaskRoutes.createHandler.
    simpl TaskRoutes.assignedUncastable. simpl TaskRoutes.assignedUserMissing.
    rewrite (Hsave (Invariant.titleBody title) eq_refl). reflexivity. }
  intros b Hb. unfold TaskRoutes.createTask, Validation.handleValidationErrors.
  destruct (Validation.validationResult now Validation.create (TaskRoutes.request "" b));
    [|split; [simpl; discriminate | reflexivity]].
  unfold TaskRoutes.createHandler.
  destruct (TaskRoutes.assignedUncastable (TaskRoutes.Body.assignedTo b));
    [split; [simpl; discriminate | reflexivity]|].
  destruct (TaskRoutes.assignedUserMissing st (TaskRoutes.Body.assignedTo b));
    [split; [simpl; discriminate | reflexivity]|].
  rewrite (Hsave b Hb). split; [simpl; discriminate | reflexivity].
Qed.

Lemma X9_witness :
  TaskRoutes.createTask (L:=Sample.library) Sample.today Sample.id3
    (Invariant.titleBody "   ") Sample.store
  = (Http.failure 500 "Server error while creating task", Sample.store).
Proof.
  destruct (X9_blank_title_passes_validation_and_fails_on_save Sample.library
              Sample.today Sample.id3 "   " Sample.store)
    as (_ & Hrun & _).
  - discriminate.
  - simpl. lia.
  - reflexivity.
  - exact Hrun.
Defined.

(** X10.  [PUT /api/tasks/:id] validates a due date as a date only.  For a
    stored task and a body that passes the validation of the route, names
    no user that is missing and carries a due date that is not after the
    time of the request, the schema validator of the path rejects the
    update: the answer is 500 and the store is left as it is. *)
Theorem X10_update_to_a_past_due_date_is_answered_500 (L : Library)
    (now : Z) (id s : string) (d : Z) (b : TaskRoutes.Body.t)
    (old : TaskModel.Task) (st : TaskRoutes.Store) :
  Validation.validationResult now Validation.update (TaskRoutes.request id b) = [] ->
  findById TaskModel._id id (TaskRoutes.tasks st) = Some old ->
  TaskRoutes.assignedUserMissing st (TaskRoutes.Body.assignedTo b) = false ->
  TaskRoutes.Body.dueDate b = Some s ->
  dateParse s = Some d ->
  d <= now ->
  TaskRoutes.updateTask now id b st
  = (Http.failure 500 "Server error while updating task", st).
Proof.
  intros Hvalid Hold Huser Hdue Hparse Hpast.
  unfold TaskRoutes.updateTask, Validation.handleValidationErrors. rewrite Hvalid.
  unfold TaskRoutes.updateHandler. rewrite Hold, Huser.
  destruct (TaskRoutes.assignedUncastable (TaskRoutes.Body.assignedTo b)); [reflexivity|].
  unfold TaskRoutes.castDate. rewrite Hdue, Hparse.
  destruct (TaskRoutes.castRef (TaskRoutes.Body.assignedTo b)); [|reflexivity].
  unfold TaskModel.validPaths. simpl TaskModel.dueDateValidator.
  assert (E : (now <? d) = false) by (apply Z.ltb_ge; exact Hpast).
  rewrite E, andb_false_r. reflexivity.
Qed.

Lemma X10_witness :
  Validation.validationResult (L:=Sample.library) Sample.today Validation.update
    (TaskRoutes.request Sample.id2 (Invariant.dueDateBody "2024-06-01")) = []
  /\ TaskRoutes.updateTask (L:=Sample.library) Sample.today Sample.id2
       (Invariant.dueDateBody "2024-06-01") Sample.store
     = (Http.failure 500 "Server error while updating task", Sample.store).
Proof.
  split; [reflexivity|].
  apply (X10_update_to_a_past_due_date_is_answered_500 Sample.library Sample.today
           Sample.id2 "2024-06-01" 1717200000000 (Invariant.dueDateBody "2024-06-01")
           Sample.pendingTask Sample.store).
  - reflexivity.
  - reflexivity.
  - reflexivity.
  - reflexivity.
  - reflexivity.
  - unfold Sample.today. lia.
Defined.

(** X11.  The handler of [DELETE /api/tasks/:id] on a stored task, in a
    collection with one document per id: the answer is 200; afterwards the
    handler of [GET /api/tasks/:id] answers 404 for that id and a second
    deletion answers 404 and changes nothing; the collection has one
    document less, every other id still finds its document, and the users
    are unchanged. *)
Theorem X11_delete_then_fetch_is_404
    (now : Z) (id : string) (t : TaskModel.Task) (st : TaskRoutes.Store) :
  NoDup (map TaskModel._id (TaskRoutes.tasks st)) ->
  findById TaskModel._id id (TaskRoutes.tasks st) = Some t ->
  let st' := snd (TaskRoutes.deleteHandler id st) in
  Http.status (fst (TaskRoutes.deleteHandler id st)) = 200
  /\ TaskRoutes.getHandler now id st' = (Http.failure 404 "Task not found", st')
  /\ TaskRoutes.deleteHandler id st' = (Http.failure 404 "Task not found", st')
  /\ (List.length (TaskRoutes.tasks st') + 1 = List.length (TaskRoutes.tasks st))%nat
  /\ TaskRoutes.users st' = TaskRoutes.users st
  /\ (forall id', id' <> id ->
        findById TaskModel._id id' (TaskRoutes.tasks st')
        = findById TaskModel._id id' (TaskRoutes.tasks st)).
Proof.
  intros Hunique Hstored. cbv zeta.
  assert (Hst' : TaskRoutes.deleteHandler id st
                 = (Http.mkResponse 200 true (Some "Task deleted successfully") [] None [],
                    TaskRoutes.mkStore (TaskRoutes.removeById id (TaskRoutes.tasks st))
                                       (TaskRoutes.users st))).
  { unfold TaskRoutes.deleteHandler. rewrite Hstored. reflexivity. }
  rewrite Hst'. simpl fst. simpl snd.
  pose proof (TaskUpdates.removeById_gone id (TaskRoutes.tasks st) Hunique) as Hgone.
  split; [reflexivity|].
  split; [unfold TaskRoutes.getHandler; simpl TaskRoutes.tasks; rewrite Hgone; reflexivity|].
  split; [unfold TaskRoutes.deleteHandler; simpl TaskRoutes.tasks; rewrite Hgone; reflexivity|].
  split; [simpl; apply (TaskUpdates.removeById_length id _ t Hstored)|].
  split; [reflexivity|].
  intros id' Hne. simpl. apply TaskUpdates.removeById_other. exact Hne.
Qed.

Lemma X11_witness :
  TaskRoutes.getHandler Sample.today Sample.id1
    (snd (TaskRoutes.deleteHandler Sample.id1 Sample.store))
  = (Http.failure 404 "Task not found", snd (TaskRoutes.deleteHandler Sample.id1 Sample.store))
  /\ findById TaskModel._id Sample.id2
       (TaskRoutes.tasks (snd (TaskRoutes.deleteHandler Sample.id1 Sample.store)))
     = Some Sample.pendingTask.
Proof.
  assert (Hunique : NoDup (map TaskModel._id (TaskRoutes.tasks Sample.store))).
  { simpl. constructor.
    - intros [H|[]]. discriminate H.
    - constructor; [intros [] | constructor]. }
  destruct (X11_delete_then_fetch_is_404 Sample.today Sample.id1 Sample.doneTask
              Sample.store Hunique eq_refl)
    as (_ & Hget & _ & _ & _ & Hothers).
  split; [exact Hget|].
  rewrite (Hothers Sample.id2); [reflexivity | discriminate].
Defined.

(** ** What every sequence of requests keeps (routes/tasks.js) *)

Module TaskInvariants.
Section Facts.
Context {L : Library}.

Lemma validTask_preSave (now : Z) (m : bool) (t : TaskModel.Task) :
  Invariant.validTask (TaskModel.preSave now m t) = Invariant.validTask t.
Proof.
  unfold TaskModel.preSave.
  destruct m; [|reflexivity].
  destruct ((TaskModel.status t =? "completed")%string
            && negb (Js.defined (TaskModel.completedAt t))); [reflexivity|].
  destruct (negb (TaskModel.status t =? "completed")%string
            && Js.defined (TaskModel.completedAt t)); reflexivity.
Qed.

(** A document whose paths are those of a valid one, or values that pass
    the validators, is valid. *)
Lemma validTask_merge (now : Z) (old new : TaskModel.Task)
    (title description status priority category : option string)
    (dueDate : option Z) (tags : option (list string)) :
  Invariant.validTask old = true ->
  TaskModel.validPaths now title description status priority category dueDate tags = true ->
  TaskModel.title new = TaskRoutes.orElse title (TaskModel.title old) ->
  TaskModel.description new = TaskRoutes.orKeep description (TaskModel.description old) ->
  TaskModel.status new = TaskRoutes.orElse status (TaskModel.status old) ->
  TaskModel.priority new = TaskRoutes.orElse priority (TaskModel.priority old) ->
  TaskModel.category new = TaskRoutes.orElse category (TaskModel.category old) ->
  TaskModel.tags new = TaskRoutes.orElse tags (TaskModel.tags old) ->
  Invariant.validTask new = true.
Proof.
  unfold Invariant.validTask, TaskModel.validPaths.
  intros Hold Hnew Ht Hd Hs Hp Hc Htags.
  rewrite Ht, Hd, Hs, Hp, Hc, Htags.
  TaskDocuments.split_andb Hold. TaskDocuments.split_andb Hnew.
  destruct title, description, status, priority, category, tags;
    cbn [TaskRoutes.orElse TaskRoutes.orKeep] in *;
    repeat match goal with
           | H : ?X = true |- context [?X] =>
               lazymatch X with true => fail | _ => rewrite H end
           end; reflexivity.
Qed.

Lemma newTask_valid (now : Z) (newId : ObjectId) (b : TaskRoutes.Body.t)
    (t : TaskModel.Task) :
  TaskRoutes.newTask now newId b = Some t ->
  Invariant.validTask t = true /\ TaskModel._id t = newId.
Proof.
  unfold TaskRoutes.newTask.
  destruct (TaskRoutes.castDate (TaskRoutes.Body.dueDate b)) as [dueDate|]; [|discriminate].
  destruct (TaskRoutes.castRef (TaskRoutes.Body.assignedTo b)) as [assignedTo|];
    [|discriminate].
  destruct (TaskRoutes.Body.title b) as [title|]; simpl option_map; [|discriminate].
  destruct (TaskModel.validPaths now _ _ _ _ _ dueDate _) eqn:Hvalid; [|discriminate].
  intros H.
  assert (E : forall x y : TaskModel.Task, Some x = Some y -> x = y)
    by (intros x y H'; injection H'; auto).
  apply E in H. rewrite <- H. rewrite validTask_preSave.
  split.
  - unfold Invariant.validTask, TaskModel.validPaths in *.
    cbn [TaskModel.title TaskModel.description TaskModel.status TaskModel.priority
         TaskModel.category TaskModel.tags].
    TaskDocuments.split_andb Hvalid.
    destruct (TaskRoutes.Body.category b) as [c|],
             (TaskRoutes.castTags (TaskRoutes.Body.tags b));
      cbn [TaskRoutes.orElse Js.orDefault] in *;
      repeat match goal with
             | H : ?X = true |- context [?X] =>
                 lazymatch X with true => fail | _ => rewrite H end
             end; reflexivity.
  - unfold TaskModel.preSave. simpl.
    destruct (_ && _); [reflexivity|]. destruct (_ && _); reflexivity.
Qed.

Lemma ids_app_fresh (l : list TaskModel.Task) (t : TaskModel.Task) :
  NoDup (map TaskModel._id l) ->
  findById TaskModel._id (TaskModel._id t) l = None ->
  NoDup (map TaskModel._id (l ++ [t])).
Proof.
  intros Hnd Hnone. rewrite map_app. simpl.
  apply NoDup_app.
  - exact Hnd.
  - constructor; [intros [] | constructor].
  - intros x Hx [Heq|[]]. subst x.
    apply in_map_iff in Hx. destruct Hx as [d [Hd Hin]].
    exact (findById_none _ _ _ Hnone d Hin Hd).
Qed.

(** One request keeps the invariant of the task collection and the
    users. *)
Lemma serve_keeps (missing : bool) (c : TaskApi.Call) (st : TaskRoutes.Store) :
  Invariant.tasksOk st ->
  Invariant.tasksOk (snd (TaskApi.serve missing c st))
  /\ TaskRoutes.users (snd (TaskApi.serve missing c st)) = TaskRoutes.users st.
Proof.
  intros [Hnd Hvalid]. unfold TaskApi.serve, Invariant.tasksOk.
  destruct c as [now q|now id|now newId b|now id b|now id b|id|now];
    cbv beta iota;
    match goal with
    | |- context [snd (let (r, st') := ?x in _)] =>
        let H := fresh in
        assert (H : snd (let (r, st') := x in (Http.status r, st')) = snd x)
          by (destruct x; reflexivity);
        rewrite !H; clear H
    end.
  - unfold TaskRoutes.listHandler.
    destruct (TaskRoutes.listPlan now q); [|split; [split|]; assumption || reflexivity].
    destruct (Js.parseInt _); [|split; [split|]; assumption || reflexivity].
    destruct (TaskRoutes.rejectedQuery _); [split; [split|]; assumption || reflexivity|].
    destruct (TaskModel.populatedAll _ _ _); split; try split; assumption || reflexivity.
  - unfold TaskRoutes.getHandler.
    destruct (findById _ _ _); [|split; [split|]; assumption || reflexivity].
    destruct (TaskModel.populated _ _ _); split; try split; assumption || reflexivity.
  - unfold TaskRoutes.createHandler.
    destruct (TaskRoutes.assignedUncastable _);
      [split; [split|]; assumption || reflexivity|].
    destruct (TaskRoutes.assignedUserMissing _ _);
      [split; [split|]; assumption || reflexivity|].
    destruct (TaskRoutes.newTask now newId b) as [t|] eqn:Hnew;
      [|split; [split|]; assumption || reflexivity].
    destruct (findById TaskModel._id newId (TaskRoutes.tasks st)) eqn:Hfresh;
      [split; [split|]; assumption || reflexivity|].
    destruct (newTask_valid now newId b t Hnew) as [Hv Hid].
    cbv zeta. rewrite Populate.populated_refused.
    simpl. split; [split|reflexivity].
    + apply ids_app_fresh; [exact Hnd | rewrite Hid; exact Hfresh].
    + apply Forall_app. split; [exact Hvalid | constructor; [exact Hv | constructor]].
  - unfold TaskRoutes.updateHandler.
    destruct (findById TaskModel._id id (TaskRoutes.tasks st)) as [old|] eqn:Hold;
      [|split; [split|]; assumption || reflexivity].
    destruct (TaskRoutes.assignedUncastable _);
      [split; [split|]; assumption || reflexivity|].
    destruct (TaskRoutes.assignedUserMissing _ _);
      [split; [split|]; assumption || reflexivity|].
    destruct (TaskRoutes.castDate _) as [dueDate|];
      [|split; [split|]; assumption || reflexivity].
    destruct (TaskRoutes.castRef _) as [assignedTo|];
      [|split; [split|]; assumption || reflexivity].
    destruct (TaskModel.validPaths now _ _ _ _ _ dueDate _) eqn:Hpaths;
      [|split; [split|]; assumption || reflexivity].
    destruct (findById_some _ _ _ _ Hold) as [Hin Hid].
    cbv zeta. rewrite Populate.populated_refused.
    simpl. split; [split|reflexivity].
    + rewrite TaskUpdates.replaceById_ids; [exact Hnd | exact Hid].
    + apply TaskUpdates.replaceById_forall; [exact Hvalid|].
      apply (validTask_merge now old _ _ _ _ _ _ _ _
               (proj1 (Forall_forall _ _) Hvalid old Hin) Hpaths); reflexivity.
  - unfold TaskRoutes.statusHandler.
    destruct (findById TaskModel._id id (TaskRoutes.tasks st)) as [old|] eqn:Hold;
      [|split; [split|]; assumption || reflexivity].
    destruct (TaskModel.validPaths now None None _ None None None None) eqn:Hpaths;
      [|split; [split|]; assumption || reflexivity].
    destruct (findById_some _ _ _ _ Hold) as [Hin Hid].
    cbv zeta. rewrite Populate.populated_refused.
    simpl. split; [split|reflexivity].
    + rewrite TaskUpdates.replaceById_ids; [exact Hnd | exact Hid].
    + apply TaskUpdates.replaceById_forall; [exact Hvalid|].
      apply (validTask_merge now old _ _ _ _ _ _ _ _
               (proj1 (Forall_forall _ _) Hvalid old Hin) Hpaths); reflexivity.
  - unfold TaskRoutes.deleteHandler.
    destruct (findById _ _ _); [|split; [split|]; assumption || reflexivity].
    simpl. split; [split|reflexivity].
    + apply TaskUpdates.removeById_unique. exact Hnd.
    + apply TaskUpdates.removeById_forall. exact Hvalid.
  - unfold TaskSummary.getSummary. simpl. split; [split|]; assumption || reflexivity.
Qed.

End Facts.
End TaskInvariants.

(** X12.  Whatever requests the handlers of the task routes serve, one
    after the other, on a store whose tasks have one document per id and
    pass the schema validators of their paths (the due date apart, whose
    validator depends on the clock): the tasks of the store they leave
    have one document per id and pass these validators, and the users are
    the same. *)
Theorem X12_task_routes_keep_the_collection_well_formed (L : Library)
    (missingBeforeDate : bool) (calls : list TaskApi.Call) (st : TaskRoutes.Store) :
  Invariant.tasksOk st ->
  Invariant.tasksOk (TaskApi.run missingBeforeDate calls st)
  /\ TaskRoutes.users (TaskApi.run missingBeforeDate calls st) = TaskRoutes.users st.
Proof.
  unfold TaskApi.run. revert st.
  induction calls as [|c r IH]; intros st Hok; simpl; [auto|].
  destruct (TaskInvariants.serve_keeps missingBeforeDate c st Hok) as [Hok' Husers].
  destruct (IH _ Hok') as [Hok'' Husers'].
  split; [exact Hok''|]. rewrite Husers'. exact Husers.
Qed.

Lemma X12_witness :
  let calls :=
    [TaskApi.Create Sample.today Sample.id3 (Invariant.titleBody "Review");
     TaskApi.Create Sample.today Sample.id3 (Invariant.titleBody "Review again");
     TaskApi.Status Sample.today Sample.id2 (Sample.statusBody "completed");
     TaskApi.Update Sample.today Sample.id3 Sample.completeBody;
     TaskApi.Delete Sample.id1] in
  Invariant.tasksOk (TaskApi.run (L:=Sample.library) true calls Sample.store)
  /\ map TaskModel._id (TaskRoutes.tasks (TaskApi.run (L:=Sample.library) true calls
                                            Sample.store))
     = [Sample.id2; Sample.id3].
Proof.
  cbv zeta.
  assert (Hok : Invariant.tasksOk Sample.store).
  { split.
    - simpl. constructor.
      + intros [H|[]]. discriminate H.
      + constructor; [intros [] | constructor].
    - repeat constructor. }
  split; [|reflexivity].
  exact (proj1 (X12_task_routes_keep_the_collection_well_formed Sample.library true _
                  Sample.store Hok)).
Defined.

(** ** Statics and hook of the user model (models/User.js) *)

Module UserFacts.

Lemma optEqb_eq (a b : option string) : UserMethods.optEqb a b = true <-> a = b.
Proof.
  destruct a as [x|], b as [y|]; simpl; split; intros H;
    try discriminate; try reflexivity.
  - apply String.eqb_eq in H. congruence.
  - apply String.eqb_eq. congruence.
Qed.

Lemma countWhere_filter {A} (p q : A -> bool) (l : list A) :
  Aggregate.countWhere q (filter p l) = Aggregate.countWhere (fun x => p x && q x) l.
Proof.
  induction l as [|a r IH]; [reflexivity|].
  simpl filter. rewrite Counting.countWhere_cons.
  destruct (p a); [rewrite Counting.countWhere_cons|]; rewrite IH; cbn [andb]; reflexivity.
Qed.

(** The member of [byDepartment] under the key a group id becomes, when
    no other department of a user becomes the same key. *)
Lemma byDepartment_member (l : list UserModel.User) (k : option string) :
  (forall u, In u l ->
     UserMethods.renderKey (UserModel.department u) = UserMethods.renderKey k ->
     UserModel.department u = k) ->
  Obj.get (UserMethods.renderKey k) (UserMethods.byDepartment (UserMethods.getUserStats l))
  = let n := Aggregate.countWhere
               (fun u => negb (UserMethods.optEqb (UserModel.department u) (Some ""))
                         && UserMethods.optEqb (UserModel.department u) k) l in
    if n =? 0 then None else Some (JNum n).
Proof.
  intros Hinj. unfold UserMethods.getUserStats. cbv zeta. simpl UserMethods.byDepartment.
  rewrite (Counting.get_reduceCounts UserMethods.optEqb UserMethods.renderKey k).
  - rewrite (Counting.lookup_groupCount _ UserMethods.optEqb optEqb_eq). cbv zeta.
    rewrite Counting.countWhere_map, countWhere_filter.
    destruct (_ =? 0); reflexivity.
  - exact optEqb_eq.
  - apply (Counting.groupCount_keys _ UserMethods.optEqb optEqb_eq).
  - intros k' Hin Hk.
    destruct (Aggregate.lookup UserMethods.optEqb k'
                (Aggregate.groupCount UserMethods.optEqb
                   (map UserModel.department
                      (filter (fun u => negb (UserMethods.optEqb (UserModel.department u)
                                                                 (Some ""))) l))))
      as [n|] eqn:E.
    + rewrite (Counting.lookup_groupCount _ UserMethods.optEqb optEqb_eq) in E.
      cbv zeta in E.
      destruct (Aggregate.countWhere (fun x => UserMethods.optEqb x k') _ =? 0) eqn:E0;
        [discriminate|].
      apply Z.eqb_neq in E0. unfold Aggregate.countWhere in E0.
      destruct (filter (fun x => UserMethods.optEqb x k')
                       (map UserModel.department
                            (filter (fun u => negb (UserMethods.optEqb
                                                      (UserModel.department u) (Some ""))) l)))
        as [|x r] eqn:F; [simpl in E0; lia|].
      assert (Hx : In x (x :: r)) by (simpl; auto).
      rewrite <- F in Hx. apply filter_In in Hx. destruct Hx as [Hx Hxk].
      apply optEqb_eq in Hxk. subst x.
      apply in_map_iff in Hx. destruct Hx as [u [Hu Hin']].
      apply filter_In in Hin'. destruct Hin' as [Hin' _].
      rewrite <- Hu. apply Hinj; [exact Hin' | rewrite Hu; exact Hk].
    + exfalso.
      revert Hin E. generalize (Aggregate.groupCount UserMethods.optEqb
                   (map UserModel.department
                      (filter (fun u => negb (UserMethods.optEqb (UserModel.department u)
                                                                 (Some ""))) l))).
      intros rows. induction rows as [|[k0 n] r IH]; simpl; [tauto|].
      intros [->|Hin] E.
      * rewrite (proj2 (optEqb_eq k' k') eq_refl) in E. discriminate.
      * destruct (UserMethods.optEqb k0 k'); [discriminate | exact (IH Hin E)].
Qed.

Lemma sortByName_sorted (l : list UserModel.User) :
  Sorted (fun a b => String.leb (UserModel.name a) (UserModel.name b) = true)
         (UserMethods.sortByName l).
Proof.
  unfold UserMethods.sortByName. induction l as [|a r IH]; simpl; [constructor|].
  apply (Sorting.insert_sorted
           (fun a b => String.leb (UserModel.name a) (UserModel.name b))).
  - intros x y. apply String.leb_total.
  - exact IH.
Qed.

Lemma sortByName_in (l : list UserModel.User) (u : UserModel.User) :
  In u (UserMethods.sortByName l) -> In u l.
Proof.
  unfold UserMethods.sortByName. induction l as [|a r IH]; simpl; [auto|].
  intros Hu. apply (Permutation_in _ (Overdue.insert_perm _ a _)) in Hu.
  destruct Hu as [->|Hu]; auto.
Qed.

End UserFacts.

(** X13.  [User.getUserStats()]: [total] is the number of users, [active]
    the number of active ones and [inactive] the number of the others.
    [byRole] holds under a role the number of users of that role, and no
    member for a role no user has.  [byDepartment] holds under a department
    other than the empty string and "null" the number of its users; it has
    no member for the empty string; and under "null" it holds the number
    of users without department (the second [$ne] of the match stage
    replaces the first), when no department is named "null". *)
Theorem X13_getUserStats_counts (l : list UserModel.User) (r d : string) :
  let stats := UserMethods.getUserStats l in
  let count p := Aggregate.countWhere p l in
  let member n := if n =? 0 then None else Some (JNum n) in
  UserMethods.total stats = Z.of_nat (List.length l)
  /\ UserMethods.active stats = count UserModel.isActive
  /\ UserMethods.inactive stats = count (fun u => negb (UserModel.isActive u))
  /\ Obj.get r (UserMethods.byRole stats)
     = member (count (fun u => (UserModel.role u =? r)%string))
  /\ (d <> "" -> d <> "null" ->
      Obj.get d (UserMethods.byDepartment stats)
      = member (count (fun u => UserMethods.optEqb (UserModel.department u) (Some d))))
  /\ Obj.get "" (UserMethods.byDepartment stats) = None
  /\ ((forall u, In u l -> UserModel.department u <> Some "null") ->
      Obj.get "null" (UserMethods.byDepartment stats)
      = member (count (fun u => negb (Js.defined (UserModel.department u))))).
Proof.
  cbv zeta.
  split; [reflexivity|]. split; [reflexivity|].
  split.
  { unfold UserMethods.getUserStats. simpl UserMethods.inactive.
    rewrite <- Counting.countWhere_all.
    rewrite (Counting.countWhere_split (fun _ => true) UserModel.isActive l).
    cbn [andb].
    rewrite (Counting.countWhere_ext (fun x => UserModel.isActive x) UserModel.isActive l)
      by reflexivity.
    lia. }
  split.
  { unfold UserMethods.getUserStats. simpl UserMethods.byRole.
    rewrite Counting.get_grouped, Counting.countWhere_map. reflexivity. }
  split.
  { intros Hd Hnull.
    assert (Hinj : forall u, In u l ->
              UserMethods.renderKey (UserModel.department u)
              = UserMethods.renderKey (Some d) ->
              UserModel.department u = Some d).
    { intros u _. destruct (UserModel.department u) as [x|]; simpl; intros H; congruence. }
    pose proof (UserFacts.byDepartment_member l (Some d) Hinj) as H.
    cbv zeta in H. simpl UserMethods.renderKey in H. rewrite H.
    rewrite (Counting.countWhere_ext _
               (fun u => UserMethods.optEqb (UserModel.department u) (Some d)) l);
      [reflexivity|].
    intros u _. destruct (UserModel.department u) as [x|]; simpl; [|reflexivity].
    destruct (x =? d)%string eqn:E; [|apply andb_false_r].
    apply String.eqb_eq in E. subst x.
    destruct (d =? "")%string eqn:E'; [|reflexivity].
    apply String.eqb_eq in E'. contradiction. }
  split.
  { assert (Hinj : forall u, In u l ->
              UserMethods.renderKey (UserModel.department u)
              = UserMethods.renderKey (Some "") ->
              UserModel.department u = Some "").
    { intros u _. destruct (UserModel.department u) as [x|]; simpl; intros H;
        [congruence | discriminate]. }
    pose proof (UserFacts.byDepartment_member l (Some "") Hinj) as H.
    cbv zeta in H. simpl UserMethods.renderKey in H. rewrite H.
    rewrite (Counting.countWhere_ext _ (fun _ => false) l).
    - unfold Aggregate.countWhere.
      assert (E : forall l' : list UserModel.User, filter (fun _ => false) l' = [])
        by (intros l'; induction l'; simpl; auto).
      rewrite E. reflexivity.
    - intros u _. destruct (UserMethods.optEqb (UserModel.department u) (Some ""));
        reflexivity. }
  intros Hnone.
  assert (Hinj : forall u, In u l ->
            UserMethods.renderKey (UserModel.department u) = UserMethods.renderKey None ->
            UserModel.department u = None).
  { intros u Hin. destruct (UserModel.department u) as [x|] eqn:E; simpl; intros H;
      [|reflexivity].
    subst x. exfalso. exact (Hnone u Hin E). }
  pose proof (UserFacts.byDepartment_member l None Hinj) as H.
  cbv zeta in H. simpl UserMethods.renderKey in H. rewrite H.
  rewrite (Counting.countWhere_ext _
             (fun u => negb (Js.defined (UserModel.department u))) l);
    [reflexivity|].
  intros u _. destruct (UserModel.department u); simpl; [apply andb_false_r | reflexivity].
Qed.

(** X14.  The avatar the schema generates starts with "http", and the
    [pre('save')] hook of the avatar refreshes an avatar only when it does
    not: the hook leaves a generated avatar, and any avatar that starts
    with "http", as it is, whether the name was modified or not, so a
    generated avatar shows the initials of the first name for good.  An
    avatar that does not start with "http" is replaced, when the name was
    modified, by the generated avatar of the current name, and no other
    path is changed. *)
Theorem X14_hook_never_refreshes_a_generated_avatar
    (encodeURIComponent : string -> string) (nameModified : bool)
    (u u0 : UserModel.User) :
  String.prefix "http" (UserMethods.defaultAvatar encodeURIComponent u0) = true
  /\ (UserModel.avatar u = UserMethods.defaultAvatar encodeURIComponent u0 ->
      UserMethods.avatarHook encodeURIComponent nameModified u = u)
  /\ (String.prefix "http" (UserModel.avatar u) = true ->
      UserMethods.avatarHook encodeURIComponent nameModified u = u)
  /\ (String.prefix "http" (UserModel.avatar u) = false ->
      UserMethods.avatarHook encodeURIComponent true u
      = UserMethods.setAvatar (UserMethods.defaultAvatar encodeURIComponent u) u).
Proof.
  assert (Hkeep : forall v, String.prefix "http" (UserModel.avatar v) = true ->
                            UserMethods.avatarHook encodeURIComponent nameModified v = v).
  { intros v H. unfold UserMethods.avatarHook. rewrite H, andb_false_r. reflexivity. }
  split; [reflexivity|].
  split; [intros H; apply Hkeep; rewrite H; reflexivity|].
  split; [apply Hkeep|].
  intros H. unfold UserMethods.avatarHook. rewrite H. reflexivity.
Qed.

(** X15.  [User.searchUsers(query, options)], when the store accepts the
    skip: no document of the result has a [password] member; the result
    holds stored users that satisfy the search, in the order of their
    names; with a limit other than zero it has at most as many documents
    as the absolute value of the limit, and at most 10 when the options
    give none. *)
Theorem X15_searchUsers_result (L : Library) (query : option string)
    (o : UserMethods.Options) (l : list UserModel.User) (found : list Obj.t) :
  UserMethods.searchUsers query o l = Some found ->
  Forall (fun doc => Obj.get "password" doc = None) found
  /\ (exists users,
        found = map UserMethods.selected users
        /\ Sorted (fun a b => String.leb (UserModel.name a) (UserModel.name b) = true) users
        /\ Forall (fun u => In u l /\ UserMethods.searchMatches query o u = true) users)
  /\ (UserMethods.limit o <> Some 0 ->
      Z.of_nat (List.length found)
      <= Z.abs (match UserMethods.limit o with Some n => n | None => 10 end)).
Proof.
  unfold UserMethods.searchUsers.
  set (lim := match UserMethods.limit o with Some n => n | None => 10 end).
  set (sk := match UserMethods.skip o with Some n => n | None => 0 end).
  set (sorted := UserMethods.sortByName (filter (UserMethods.searchMatches query o) l)).
  destruct (sk <? 0); [discriminate|].
  destruct (match query with
            | Some q => negb (q =? "")%string && negb (regexValid q)
            | None => false
            end); [discriminate|].
  intros H.
  assert (E : forall x y : list Obj.t, Some x = Some y -> x = y)
    by (intros x y H'; injection H'; auto).
  apply E in H. subst found.
  pose proof (UserFacts.sortByName_sorted (filter (UserMethods.searchMatches query o) l))
    as Hsorted.
  fold sorted in Hsorted.
  assert (Hin : forall u, In u sorted -> In u l /\ UserMethods.searchMatches query o u = true).
  { intros u Hu. apply filter_In. exact (UserFacts.sortByName_in _ u Hu). }
  set (page := if lim =? 0 then skipn (Z.to_nat sk) sorted
               else firstn (Z.to_nat (Z.abs lim)) (skipn (Z.to_nat sk) sorted)).
  assert (Hpage : forall u, In u page -> In u sorted).
  { intros u Hu. unfold page in Hu.
    rewrite <- (firstn_skipn (Z.to_nat sk) sorted). apply in_or_app. right.
    destruct (lim =? 0); [exact Hu|].
    rewrite <- (firstn_skipn (Z.to_nat (Z.abs lim)) (skipn (Z.to_nat sk) sorted)).
    apply in_or_app. left. exact Hu. }
  split.
  { apply Forall_forall. intros doc Hdoc. apply in_map_iff in Hdoc.
    destruct Hdoc as [u [<- _]]. apply Secrecy.delete_get. }
  split.
  { exists page. split; [reflexivity|]. split.
    - unfold page. destruct (lim =? 0).
      + apply Sorting.sorted_skipn, Hsorted.
      + apply Sorting.sorted_firstn, Sorting.sorted_skipn, Hsorted.
    - apply Forall_forall. intros u Hu. apply Hin, Hpage, Hu. }
  intros Hzero. rewrite length_map. fold page. unfold page.
  destruct (lim =? 0) eqn:E0.
  - apply Z.eqb_eq in E0. unfold lim in E0.
    destruct (UserMethods.limit o) as [n|]; [|discriminate].
    subst n. contradiction.
  - pose proof (firstn_le_length (Z.to_nat (Z.abs lim)) (skipn (Z.to_nat sk) sorted)).
    lia.
Qed.

Lemma X15_witness :
  exists found,
    UserMethods.searchUsers (L:=Sample.library) (Some "example")
      (UserMethods.mkOptions None None None None None) [Invariant.bo; Invariant.ann]
    = Some found
    /\ map (Obj.get "name") found = [Some (JStr "Ann Lee"); Some (JStr "Bo Chen")]
    /\ Forall (fun doc => Obj.get "password" doc = None) found.
Proof.
  eexists. split; [reflexivity|]. split; [reflexivity|].
  exact (proj1 (X15_searchUsers_result Sample.library (Some "example")
                  (UserMethods.mkOptions None None None None None)
                  [Invariant.bo; Invariant.ann] _ eq_refl)).
Defined.

(** ** Collections of the single-file server *)

Module Collections.

Lemma nodup_app_fresh {A B} (f : A -> B) (l : list A) (x : A) :
  NoDup (map f l) -> (forall d, In d l -> f d <> f x) -> NoDup (map f (l ++ [x])).
Proof.
  intros Hnd Hfresh. rewrite map_app. simpl. apply NoDup_app.
  - exact Hnd.
  - constructor; [intros [] | constructor].
  - intros y Hy [Heq|[]]. subst y.
    apply in_map_iff in Hy. destruct Hy as [d [Hd Hin]].
    exact (Hfresh d Hin Hd).
Qed.

Lemma removeFirst_map_in {A B} (f : A -> B) (p : A -> bool) (l : list A) (y : B) :
  In y (map f (Server.removeFirst p l)) -> In y (map f l).
Proof.
  intros H. apply in_map_iff in H. destruct H as [d [Hd Hin]].
  apply in_map_iff. exists d. split; [exact Hd|].
  exact (Cascade.removeFirst_subset p l d Hin).
Qed.

Lemma removeFirst_nodup {A B} (key : A -> B) (found : A -> bool) (docs : list A) :
  NoDup (map key docs) -> NoDup (map key (Server.removeFirst found docs)).
Proof.
  induction docs as [|a r IH]; simpl; intros H; [constructor|].
  inversion H as [|? ? Hnot Hr]; subst.
  destruct (found a); simpl; [exact Hr|].
  constructor; [|apply IH; exact Hr].
  intros Hin. apply Hnot. exact (removeFirst_map_in key found r _ Hin).
Qed.

Lemma removeFirst_forall {A} (P : A -> Prop) (p : A -> bool) (l : list A) :
  Forall P l -> Forall P (Server.removeFirst p l).
Proof.
  intros H. apply Forall_forall. intros x Hx.
  exact (proj1 (Forall_forall P l) H x (Cascade.removeFirst_subset p l x Hx)).
Qed.

Lemma filter_nodup {A B} (key : A -> B) (keep : A -> bool) (docs : list A) :
  NoDup (map key docs) -> NoDup (map key (filter keep docs)).
Proof.
  induction docs as [|a r IH]; simpl; intros H; [constructor|].
  inversion H as [|? ? Hnot Hr]; subst.
  destruct (keep a); simpl; [|apply IH; exact Hr].
  constructor; [|apply IH; exact Hr].
  intros Hin. apply Hnot. apply in_map_iff in Hin. destruct Hin as [d [Hd Hin]].
  apply in_map_iff. exists d. split; [exact Hd|]. apply filter_In in Hin. tauto.
Qed.

Lemma filter_forall {A} (P : A -> Prop) (p : A -> bool) (l : list A) :
  Forall P l -> Forall P (filter p l).
Proof.
  intros H. apply Forall_forall. intros x Hx. apply filter_In in Hx.
  exact (proj1 (Forall_forall P l) H x (proj1 Hx)).
Qed.

Lemma replaceFirst_in {A} (p : A -> bool) (new : A) (l : list A) (x : A) :
  In x (Server.replaceFirst p new l) -> x = new \/ In x l.
Proof.
  induction l as [|a r IH]; simpl; [auto|].
  destruct (p a); simpl; intros [H|H]; auto.
  destruct (IH H); auto.
Qed.

Lemma replaceFirst_forall {A} (P : A -> Prop) (p : A -> bool) (new : A) (l : list A) :
  Forall P l -> P new -> Forall P (Server.replaceFirst p new l).
Proof.
  intros Hl Hnew. apply Forall_forall. intros x Hx.
  destruct (replaceFirst_in p new l x Hx) as [->|Hin]; [exact Hnew|].
  exact (proj1 (Forall_forall P l) Hl x Hin).
Qed.

(** Replacing a document by one of the same key keeps the keys. *)
Lemma replaceFirst_map {A B} (f : A -> B) (p : A -> bool) (new : A) (l : list A) :
  (forall d, In d l -> p d = true -> f d = f new) ->
  map f (Server.replaceFirst p new l) = map f l.
Proof.
  induction l as [|a r IH]; simpl; intros H; [reflexivity|].
  destruct (p a) eqn:E; simpl.
  - rewrite (H a (or_introl eq_refl) E). reflexivity.
  - rewrite IH; [reflexivity|]. intros d Hd. apply H. right. exact Hd.
Qed.

(** Replacing the document of an id by one whose key no other document
    has keeps the keys apart. *)
Lemma replaceFirst_nodup {A} (idOf key : A -> string) (oid : string) (new : A)
    (l : list A) :
  NoDup (map idOf l) ->
  NoDup (map key l) ->
  (forall d, In d l -> idOf d <> oid -> key d <> key new) ->
  NoDup (map key (Server.replaceFirst (fun d => (idOf d =? oid)%string) new l)).
Proof.
  induction l as [|a r IH]; simpl; intros Hid Hkey Hother; [constructor|].
  inversion Hid as [|? ? Hnotid Hid']; subst.
  inversion Hkey as [|? ? Hnotkey Hkey']; subst.
  destruct (idOf a =? oid)%string eqn:E; simpl.
  - apply String.eqb_eq in E. constructor; [|exact Hkey'].
    intros Hin. apply in_map_iff in Hin. destruct Hin as [d [Hd Hin]].
    apply (Hother d (or_intror Hin)); [|exact Hd].
    intros Heq. apply Hnotid. rewrite E, <- Heq. apply in_map. exact Hin.
  - apply String.eqb_neq in E. constructor.
    + intros Hin. apply in_map_iff in Hin. destruct Hin as [d [Hd Hin]].
      destruct (replaceFirst_in _ new r d Hin) as [->|Hin'].
      * apply (Hother a (or_introl eq_refl) E). symmetry. exact Hd.
      * apply Hnotkey. rewrite <- Hd. apply in_map. exact Hin'.
    + apply IH; [exact Hid' | exact Hkey'|].
      intros d Hd. apply Hother. right. exact Hd.
Qed.

Lemma nodup_map_inj {A B} (f : A -> B) (l : list A) (x y : A) :
  NoDup (map f l) -> In x l -> In y l -> f x = f y -> x = y.
Proof.
  induction l as [|a r IH]; simpl; intros Hnd Hx Hy Heq; [contradiction|].
  inversion Hnd as [|? ? Hnot Hr]; subst.
  destruct Hx as [->|Hx], Hy as [->|Hy]; auto.
  - exfalso. apply Hnot. rewrite Heq. apply in_map. exact Hy.
  - exfalso. apply Hnot. rewrite <- Heq. apply in_map. exact Hx.
Qed.

Lemma existsb_none {A} (p : A -> bool) (l : list A) (x : A) :
  existsb p l = false -> In x l -> p x = false.
Proof.
  intros H Hin. destruct (p x) eqn:E; [|reflexivity].
  assert (Hex : existsb p l = true) by (apply existsb_exists; exists x; auto).
  congruence.
Qed.

End Collections.

(** ** What each handler of the single-file server does to the store *)

Module ServerEffects.
Import Server.

Ltac unfold_async :=
  unfold Server.asyncHandler, Resources.asyncHandler, Server.castId, Server.bind,
    Server.gets, Server.modify, Server.ret, Server.throw in *.

Ltac case_step :=
  match goal with
  | |- context [match ?x with _ => _ end] =>
      lazymatch x with
      | context [match _ with _ => _ end] => fail
      | _ => destruct x eqn:?; cbv beta iota
      end
  end.

Lemma defined_false {A} (x : option A) : Js.defined x = false -> x = None.
Proof. destruct x; [discriminate | reflexivity]. Qed.

Lemma getUsers_store (q : ListQuery) (st : Store) : snd (getUsers q st) = st.
Proof.
  unfold getUsers, getUsersHandler, page. unfold_async.
  repeat case_step; reflexivity.
Qed.

Lemma getTasks_store (q : ListQuery) (st : Store) : snd (getTasks q st) = st.
Proof.
  unfold getTasks, getTasksHandler, castFilterId, page. unfold_async.
  repeat case_step; reflexivity.
Qed.

Lemma getProjects_store (q : ListQuery) (st : Store) : snd (getProjects q st) = st.
Proof.
  unfold getProjects, getProjectsHandler, castFilterId, page. unfold_async.
  repeat case_step; reflexivity.
Qed.

Lemma getCategories_store (st : Store) : snd (Resources.getCategories st) = st.
Proof. reflexivity. Qed.

Lemma createUser_store (now : Z) (newId : ObjectId) (b : UserBody.t) (st : Store) :
  snd (createUser now newId b st) = st
  \/ exists u,
       snd (createUser now newId b st) = setUsers (users st ++ [u]) st
       /\ User._id u = newId
       /\ findById User._id newId (users st) = None
       /\ duplicateKey newId (Some (User.username u)) (Some (User.email u)) (users st)
          = None.
Proof.
  unfold createUser, createUserHandler, User_save. unfold_async.
  repeat case_step; simpl; try (left; reflexivity).
  right. eexists. split; [reflexivity|]. simpl in *.
  split; [reflexivity|]. split; [apply defined_false; assumption | assumption].
Qed.

Lemma updateUser_store (id : string) (b : UserBody.t) (st : Store) :
  snd (updateUser id b st) = st
  \/ exists u,
       findById User._id id (users st) = Some u
       /\ snd (updateUser id b st)
          = setUsers (replaceFirst (fun d => (User._id d =? id)%string)
                        (applyUserUpdate b u) (users st)) st
       /\ duplicateKey id (UserBody.username b) (UserBody.email b) (users st) = None.
Proof.
  unfold updateUser, updateUserHandler, User_findByIdAndUpdate. unfold_async.
  repeat case_step; simpl; try (left; reflexivity).
  right. eexists. repeat split; reflexivity.
Qed.

Lemma deleteUser_store (id : string) (st : Store) :
  snd (deleteUser id st) = st
  \/ exists u,
       findById User._id id (users st) = Some u
       /\ snd (deleteUser id st)
          = mkStore (removeFirst (fun d => (User._id d =? id)%string) (users st))
              (filter (fun t => negb (Task.userId t =? id)%string) (tasks st))
              (categories st)
              (filter (fun p => negb (Project.userId p =? id)%string) (projects st)).
Proof.
  unfold deleteUser, deleteUserHandler, User_findByIdAndDelete, Task_deleteMany,
    Project_deleteMany. unfold_async.
  repeat case_step; simpl; try (left; reflexivity).
  right. eexists. repeat split; reflexivity.
Qed.

Lemma createTask_store (L : Library) (now : Z) (newId : ObjectId) (b : TaskBody.t)
    (st : Store) :
  snd (createTask now newId b st) = st
  \/ exists t,
       snd (createTask now newId b st) = setTasks (tasks st ++ [t]) st
       /\ Task._id t = newId
       /\ findById Task._id newId (tasks st) = None
       /\ In (Task.userId t) (map User._id (users st)).
Proof.
  unfold createTask, createTaskHandler, User_findById, Task_create. unfold_async.
  repeat case_step; simpl; try (left; reflexivity);
    right; eexists; (split; [reflexivity|]); simpl;
    (split; [reflexivity|]); (split; [apply defined_false; assumption|]);
    match goal with
    | H : findById User._id ?i (users st) = Some ?u |- _ =>
        destruct (findById_some _ _ _ _ H) as [Hin Hid];
        rewrite <- Hid; apply in_map; exact Hin
    end.
Qed.

Lemma updateTask_store (L : Library) (now : Z) (id : string) (b : TaskBody.t)
    (st : Store) :
  snd (Resources.updateTask now id b st) = st
  \/ exists t t',
       findById Task._id id (tasks st) = Some t
       /\ snd (Resources.updateTask now id b st)
          = setTasks (replaceFirst (fun d => (Task._id d =? id)%string) t' (tasks st)) st
       /\ Task._id t' = Task._id t
       /\ Task.userId t' = Task.userId t.
Proof.
  unfold Resources.updateTask, Resources.updateTaskHandler,
    Resources.Task_findByIdAndUpdate. unfold_async.
  repeat case_step; simpl; try (left; reflexivity);
    right; eexists; eexists; repeat split; reflexivity.
Qed.

Lemma deleteTask_store (id : string) (st : Store) :
  snd (Resources.deleteTask id st) = st
  \/ snd (Resources.deleteTask id st)
     = setTasks (removeFirst (fun d => (Task._id d =? id)%string) (tasks st)) st.
Proof.
  unfold Resources.deleteTask, Resources.deleteTaskHandler,
    Resources.Task_findByIdAndDelete. unfold_async.
  repeat case_step; simpl; try (left; reflexivity). right. reflexivity.
Qed.

Lemma app_nil_parts {A} (a b : list A) : (a ++ b)%list = [] -> a = [] /\ b = [].
Proof. destruct a; simpl; [auto | discriminate]. Qed.

Lemma when_nil (c : bool) (m : string) : when c m = [] -> c = false.
Proof. destruct c; [discriminate | reflexivity]. Qed.

Lemma nameErrors_nil (path : string) (n : nat) (s : string) :
  Resources.nameErrors path n s = [] -> s <> "" /\ (String.length s <= n)%nat.
Proof.
  unfold Resources.nameErrors, Resources.lengthErrors.
  destruct (String.eqb_spec s "") as [->|Hne]; [discriminate|].
  intros H. apply when_nil in H. apply Nat.ltb_ge in H. auto.
Qed.

Lemma colorErrors_nil (s : string) :
  Resources.colorErrors s = [] -> s = "" \/ Resources.isHexColor s = true.
Proof.
  unfold Resources.colorErrors. intros H. apply when_nil in H.
  destruct (s =? "")%string eqn:E.
  - left. apply String.eqb_eq. exact E.
  - right. simpl in H. apply negb_false_iff. exact H.
Qed.

Lemma descriptionErrors_nil (n : nat) (d : option string) :
  optErrors (Resources.lengthErrors "description" n) d = [] ->
  match d with Some s => (String.length s <= n)%nat | None => True end.
Proof.
  destruct d as [s|]; simpl; [|auto].
  unfold Resources.lengthErrors. intros H. apply when_nil in H.
  apply Nat.ltb_ge in H. exact H.
Qed.

Lemma createCategory_store (now : Z) (newId : ObjectId) (b : Resources.CategoryBody.t)
    (st : Store) :
  snd (Resources.createCategory now newId b st) = st
  \/ exists c,
       snd (Resources.createCategory now newId b st)
       = Resources.setCategories (categories st ++ [c]) st
       /\ Category._id c = newId
       /\ findById Category._id newId (categories st) = None
       /\ Resources.duplicateName newId (Some (Category.name c)) (categories st) = false
       /\ Invariant.categoryOk c.
Proof.
  unfold Resources.createCategory, Resources.createCategoryHandler,
    Resources.Category_save. unfold_async.
  repeat case_step; simpl; try (left; reflexivity).
  right. eexists. split; [reflexivity|]. simpl in *.
  split; [reflexivity|]. split; [apply defined_false; assumption|].
  split; [assumption|].
  match goal with
  | H : (_ ++ _ ++ _)%list = [] |- _ =>
      apply app_nil_parts in H; destruct H as [Hname H];
      apply app_nil_parts in H; destruct H as [Hdesc Hcolor]
  end.
  destruct (nameErrors_nil _ _ _ Hname) as [Hne Hlen].
  unfold Invariant.categoryOk. simpl.
  split; [exact Hne|]. split; [exact Hlen|].
  split; [exact (descriptionErrors_nil 200 _ Hdesc) | exact (colorErrors_nil _ Hcolor)].
Qed.

Lemma updateCategory_store (id : string) (b : Resources.CategoryBody.t) (st : Store) :
  snd (Resources.updateCategory id b st) = st
  \/ exists c,
       findById Category._id id (categories st) = Some c
       /\ snd (Resources.updateCategory id b st)
          = Resources.setCategories
              (replaceFirst (fun d => (Category._id d =? id)%string)
                 (Resources.applyCategoryUpdate b c) (categories st)) st
       /\ Resources.duplicateName id (Resources.CategoryBody.name b) (categories st) = false
       /\ (optErrors (Resources.nameErrors "name" 50) (Resources.CategoryBody.name b)
           ++ optErrors (Resources.lengthErrors "description" 200)
                        (Resources.CategoryBody.description b)
           ++ optErrors Resources.colorErrors (Resources.CategoryBody.color b))%list = [].
Proof.
  unfold Resources.updateCategory, Resources.updateCategoryHandler,
    Resources.Category_findByIdAndUpdate. unfold_async.
  repeat case_step; simpl; try (left; reflexivity).
  right. eexists. repeat split; try reflexivity; assumption.
Qed.

Lemma deleteCategory_store (id : string) (st : Store) :
  snd (Resources.deleteCategory id st) = st
  \/ snd (Resources.deleteCategory id st)
     = Resources.setCategories
         (removeFirst (fun d => (Category._id d =? id)%string) (categories st)) st.
Proof.
  unfold Resources.deleteCategory, Resources.deleteCategoryHandler,
    Resources.Category_findByIdAndDelete. unfold_async.
  repeat case_step; simpl; try (left; reflexivity). right. reflexivity.
Qed.

Lemma createProject_store (L : Library) (now : Z) (newId : ObjectId)
    (b : Resources.ProjectBody.t) (st : Store) :
  snd (Resources.createProject now newId b st) = st
  \/ exists p,
       snd (Resources.createProject now newId b st) = setProjects (projects st ++ [p]) st
       /\ Project._id p = newId
       /\ findById Project._id newId (projects st) = None
       /\ In (Project.userId p) (map User._id (users st))
       /\ Project.tasks p = [].
Proof.
  unfold Resources.createProject, Resources.createProjectHandler, User_findById,
    Resources.Project_create. unfold_async.
  repeat case_step; simpl; try (left; reflexivity);
    right; eexists; (split; [reflexivity|]); simpl;
    (split; [reflexivity|]); (split; [apply defined_false; assumption|]);
    (split; [|reflexivity]);
    match goal with
    | H : findById User._id ?i (users st) = Some ?u |- _ =>
        destruct (findById_some _ _ _ _ H) as [Hin Hid];
        rewrite <- Hid; apply in_map; exact Hin
    end.
Qed.

Lemma updateProject_store (L : Library) (id : string) (b : Resources.ProjectBody.t)
    (st : Store) :
  snd (Resources.updateProject id b st) = st
  \/ exists p p',
       findById Project._id id (projects st) = Some p
       /\ snd (Resources.updateProject id b st)
          = setProjects (replaceFirst (fun d => (Project._id d =? id)%string) p'
                           (projects st)) st
       /\ Project._id p' = Project._id p
       /\ Project.userId p' = Project.userId p
       /\ Project.tasks p' = Project.tasks p.
Proof.
  unfold Resources.updateProject, Resources.updateProjectHandler,
    Resources.Project_findByIdAndUpdate. unfold_async.
  repeat case_step; simpl; try (left; reflexivity);
    right; eexists; eexists; repeat split; reflexivity.
Qed.

Lemma deleteProject_store (id : string) (st : Store) :
  snd (Resources.deleteProject id st) = st
  \/ snd (Resources.deleteProject id st)
     = setProjects (removeFirst (fun d => (Project._id d =? id)%string) (projects st)) st.
Proof.
  unfold Resources.deleteProject, Resources.deleteProjectHandler,
    Resources.Project_findByIdAndDelete. unfold_async.
  repeat case_step; simpl; try (left; reflexivity). right. reflexivity.
Qed.

End ServerEffects.

(** ** What every sequence of requests keeps (single-file server) *)

Module ServerInvariants.
Import Server.

Lemma duplicateKey_none (self : ObjectId) (username email : option string)
    (l : list User.t) :
  duplicateKey self username email l = None ->
  (forall s d, username = Some s -> In d l -> User._id d <> self -> User.username d <> s)
  /\ (forall s d, email = Some s -> In d l -> User._id d <> self -> User.email d <> s).
Proof.
  unfold duplicateKey. intros H.
  split; intros s d Hs Hin Hid Heq; subst.
  - destruct (existsb _ _) eqn:E in H; [discriminate|].
    assert (Hd : In d (filter (fun d0 => negb (User._id d0 =? self)%string) l)).
    { apply filter_In. split; [exact Hin|]. apply negb_true_iff, String.eqb_neq, Hid. }
    apply (Collections.existsb_none _ _ d E) in Hd.
    rewrite String.eqb_refl in Hd. discriminate.
  - destruct (match username with Some _ => _ | None => _ end); [discriminate|].
    destruct (existsb _ _) eqn:E in H; [discriminate|].
    assert (Hd : In d (filter (fun d0 => negb (User._id d0 =? self)%string) l)).
    { apply filter_In. split; [exact Hin|]. apply negb_true_iff, String.eqb_neq, Hid. }
    apply (Collections.existsb_none _ _ d E) in Hd.
    rewrite String.eqb_refl in Hd. discriminate.
Qed.

Lemma duplicateName_false (self : ObjectId) (s : string) (l : list Category.t) :
  Resources.duplicateName self (Some s) l = false ->
  forall d, In d l -> Category._id d <> self -> Category.name d <> s.
Proof.
  unfold Resources.duplicateName. intros H d Hin Hid Heq.
  assert (Hd : In d (filter (fun d0 => negb (Category._id d0 =? self)%string) l)).
  { apply filter_In. split; [exact Hin|]. apply negb_true_iff, String.eqb_neq, Hid. }
  apply (Collections.existsb_none _ _ d H) in Hd.
  rewrite Heq, String.eqb_refl in Hd. discriminate.
Qed.

Lemma consistent_empty : Invariant.consistent Api.empty.
Proof.
  unfold Invariant.consistent, Invariant.usersOk, Invariant.tasksOwned,
    Invariant.projectsOwned, Invariant.categoriesOk. simpl.
  repeat split; constructor.
Qed.

Lemma createUser_keeps (now : Z) (newId : ObjectId) (b : UserBody.t) (st : Store) :
  Invariant.consistent st -> Invariant.consistent (snd (createUser now newId b st)).
Proof.
  intros Hc.
  destruct (ServerEffects.createUser_store now newId b st)
    as [->|(u & -> & Hid & Hfresh & Hdup)]; [exact Hc|].
  destruct Hc as ((Hids & Hnames & Hmails) & Htids & Htasks & Hpids & Hprojects & Hcats).
  destruct (duplicateKey_none _ _ _ _ Hdup) as [Hname Hmail].
  assert (Hother : forall d, In d (users st) -> User._id d <> newId)
    by exact (findById_none _ _ _ Hfresh).
  unfold Invariant.consistent. simpl.
  split; [split; [|split]|].
  - apply Collections.nodup_app_fresh; [exact Hids|].
    intros d Hd. rewrite Hid. exact (Hother d Hd).
  - apply Collections.nodup_app_fresh; [exact Hnames|].
    intros d Hd. exact (Hname _ d eq_refl Hd (Hother d Hd)).
  - apply Collections.nodup_app_fresh; [exact Hmails|].
    intros d Hd. exact (Hmail _ d eq_refl Hd (Hother d Hd)).
  - split; [exact Htids|]. split.
    + unfold Invariant.tasksOwned in *. apply Forall_forall. intros t Ht.
      rewrite map_app. apply in_or_app. left.
      exact (proj1 (Forall_forall _ _) Htasks t Ht).
    + split; [exact Hpids|]. split; [|exact Hcats].
      unfold Invariant.projectsOwned in *. apply Forall_forall. intros p Hp.
      destruct (proj1 (Forall_forall _ _) Hprojects p Hp) as [Hin Hempty].
      split; [|exact Hempty]. rewrite map_app. apply in_or_app. left. exact Hin.
Qed.

Lemma updateUser_keeps (id : string) (b : UserBody.t) (st : Store) :
  Invariant.consistent st -> Invariant.consistent (snd (updateUser id b st)).
Proof.
  intros Hc.
  destruct (ServerEffects.updateUser_store id b st)
    as [->|(u & Hfound & -> & Hdup)]; [exact Hc|].
  destruct Hc as ((Hids & Hnames & Hmails) & Htids & Htasks & Hpids & Hprojects & Hcats).
  destruct (duplicateKey_none _ _ _ _ Hdup) as [Hname Hmail].
  destruct (findById_some _ _ _ _ Hfound) as [Hin Hid].
  assert (Hsame : map User._id
                    (replaceFirst (fun d => (User._id d =? id)%string)
                       (applyUserUpdate b u) (users st))
                  = map User._id (users st)).
  { apply Collections.replaceFirst_map. intros d _ Hd.
    apply String.eqb_eq in Hd. simpl. congruence. }
  unfold Invariant.consistent, Invariant.usersOk, Invariant.tasksOwned,
    Invariant.projectsOwned in *. simpl. rewrite Hsame.
  split; [split; [exact Hids|split]|tauto].
  - apply (Collections.replaceFirst_nodup User._id User.username); try assumption.
    intros d Hd Hne. simpl.
    destruct (UserBody.username b) as [s|] eqn:E.
    + exact (Hname s d eq_refl Hd Hne).
    + intros Heq. apply Hne.
      rewrite (Collections.nodup_map_inj User.username _ d u Hnames Hd Hin Heq).
      exact Hid.
  - apply (Collections.replaceFirst_nodup User._id User.email); try assumption.
    intros d Hd Hne. simpl.
    destruct (UserBody.email b) as [s|] eqn:E.
    + exact (Hmail s d eq_refl Hd Hne).
    + intros Heq. apply Hne.
      rewrite (Collections.nodup_map_inj User.email _ d u Hmails Hd Hin Heq).
      exact Hid.
Qed.

Lemma owner_survives (id x : ObjectId) (us : list User.t) :
  In x (map User._id us) -> x <> id ->
  In x (map User._id (removeFirst (fun d => (User._id d =? id)%string) us)).
Proof.
  intros Hin Hne. apply in_map_iff in Hin. destruct Hin as [d [Hd Hin]].
  apply in_map_iff. exists d. split; [exact Hd|].
  apply Cascade.removeFirst_keeps; [exact Hin|].
  apply String.eqb_neq. congruence.
Qed.

Lemma deleteUser_keeps (id : string) (st : Store) :
  Invariant.consistent st -> Invariant.consistent (snd (deleteUser id st)).
Proof.
  intros Hc.
  destruct (ServerEffects.deleteUser_store id st) as [->|(u & Hfound & ->)]; [exact Hc|].
  destruct Hc as ((Hids & Hnames & Hmails) & Htids & Htasks & Hpids & Hprojects & Hcats).
  unfold Invariant.consistent, Invariant.usersOk, Invariant.tasksOwned,
    Invariant.projectsOwned in *. simpl.
  split; [repeat split; apply Collections.removeFirst_nodup; assumption|].
  split; [apply Collections.filter_nodup; exact Htids|].
  split.
  { apply Forall_forall. intros t Ht. apply filter_In in Ht. destruct Ht as [Ht Hne].
    apply owner_survives.
    - exact (proj1 (Forall_forall _ _) Htasks t Ht).
    - apply String.eqb_neq, negb_true_iff. exact Hne. }
  split; [apply Collections.filter_nodup; exact Hpids|].
  split; [|exact Hcats].
  apply Forall_forall. intros p Hp. apply filter_In in Hp. destruct Hp as [Hp Hne].
  destruct (proj1 (Forall_forall _ _) Hprojects p Hp) as [Hin Hempty].
  split; [|exact Hempty].
  apply owner_survives; [exact Hin|].
  apply String.eqb_neq, negb_true_iff. exact Hne.
Qed.

Lemma createTask_keeps (L : Library) (now : Z) (newId : ObjectId) (b : TaskBody.t)
    (st : Store) :
  Invariant.consistent st -> Invariant.consistent (snd (createTask now newId b st)).
Proof.
  intros Hc.
  destruct (ServerEffects.createTask_store L now newId b st)
    as [->|(t & -> & Hid & Hfresh & Howner)]; [exact Hc|].
  destruct Hc as (Husers & Htids & Htasks & Hrest).
  unfold Invariant.consistent, Invariant.tasksOwned in *. simpl.
  split; [exact Husers|]. split.
  - apply Collections.nodup_app_fresh; [exact Htids|].
    intros d Hd. rewrite Hid. exact (findById_none _ _ _ Hfresh d Hd).
  - split; [|exact Hrest].
    apply Forall_app. split; [exact Htasks | constructor; [exact Howner | constructor]].
Qed.

Lemma updateTask_keeps (L : Library) (now : Z) (id : string) (b : TaskBody.t)
    (st : Store) :
  Invariant.consistent st ->
  Invariant.consistent (snd (Resources.updateTask now id b st)).
Proof.
  intros Hc.
  destruct (ServerEffects.updateTask_store L now id b st)
    as [->|(t & t' & Hfound & -> & Hid & Howner)]; [exact Hc|].
  destruct Hc as (Husers & Htids & Htasks & Hrest).
  destruct (findById_some _ _ _ _ Hfound) as [Hin Hid0].
  unfold Invariant.consistent, Invariant.tasksOwned in *. simpl.
  split; [exact Husers|]. split.
  - rewrite Collections.replaceFirst_map; [exact Htids|].
    intros d _ Hd. apply String.eqb_eq in Hd. congruence.
  - split; [|exact Hrest].
    apply Collections.replaceFirst_forall; [exact Htasks|].
    rewrite Howner. exact (proj1 (Forall_forall _ _) Htasks t Hin).
Qed.

Lemma deleteTask_keeps (id : string) (st : Store) :
  Invariant.consistent st -> Invariant.consistent (snd (Resources.deleteTask id st)).
Proof.
  intros Hc.
  destruct (ServerEffects.deleteTask_store id st) as [->| ->]; [exact Hc|].
  destruct Hc as (Husers & Htids & Htasks & Hrest).
  unfold Invariant.consistent, Invariant.tasksOwned in *. simpl.
  split; [exact Husers|].
  split; [apply Collections.removeFirst_nodup; exact Htids|].
  split; [apply Collections.removeFirst_forall; exact Htasks | exact Hrest].
Qed.

Lemma createCategory_keeps (now : Z) (newId : ObjectId) (b : Resources.CategoryBody.t)
    (st : Store) :
  Invariant.consistent st ->
  Invariant.consistent (snd (Resources.createCategory now newId b st)).
Proof.
  intros Hc.
  destruct (ServerEffects.createCategory_store now newId b st)
    as [->|(c & -> & Hid & Hfresh & Hdup & Hok)]; [exact Hc|].
  destruct Hc as (Husers & Htids & Htasks & Hpids & Hprojects & Hcids & Hnames & Hcats).
  assert (Hother : forall d, In d (categories st) -> Category._id d <> newId)
    by exact (findById_none _ _ _ Hfresh).
  unfold Invariant.consistent, Invariant.categoriesOk. simpl.
  repeat (split; [assumption|]).
  split; [|split].
  - apply Collections.nodup_app_fresh; [exact Hcids|].
    intros d Hd. rewrite Hid. exact (Hother d Hd).
  - apply Collections.nodup_app_fresh; [exact Hnames|].
    intros d Hd. exact (duplicateName_false _ _ _ Hdup d Hd (Hother d Hd)).
  - apply Forall_app. split; [exact Hcats | constructor; [exact Hok | constructor]].
Qed.

Lemma applyCategoryUpdate_ok (b : Resources.CategoryBody.t) (c : Category.t) :
  Invariant.categoryOk c ->
  (optErrors (Resources.nameErrors "name" 50) (Resources.CategoryBody.name b)
   ++ optErrors (Resources.lengthErrors "description" 200)
                (Resources.CategoryBody.description b)
   ++ optErrors Resources.colorErrors (Resources.CategoryBody.color b))%list = [] ->
  Invariant.categoryOk (Resources.applyCategoryUpdate b c).
Proof.
  intros (Hne & Hlen & Hdesc & Hcolor) Herr.
  apply ServerEffects.app_nil_parts in Herr. destruct Herr as [Hn Herr].
  apply ServerEffects.app_nil_parts in Herr. destruct Herr as [Hd Hc].
  unfold Invariant.categoryOk. simpl.
  destruct (Resources.CategoryBody.name b) as [n|]; simpl in Hn.
  - destruct (ServerEffects.nameErrors_nil _ _ _ Hn) as [Hne' Hlen'].
    split; [exact Hne'|]. split; [exact Hlen'|]. split.
    + pose proof (ServerEffects.descriptionErrors_nil 200 _ Hd) as Hd'.
      destruct (Resources.CategoryBody.description b); [exact Hd' | exact Hdesc].
    + destruct (Resources.CategoryBody.color b) as [col|]; simpl in Hc;
        [exact (ServerEffects.colorErrors_nil _ Hc) | exact Hcolor].
  - split; [exact Hne|]. split; [exact Hlen|]. split.
    + pose proof (ServerEffects.descriptionErrors_nil 200 _ Hd) as Hd'.
      destruct (Resources.CategoryBody.description b); [exact Hd' | exact Hdesc].
    + destruct (Resources.CategoryBody.color b) as [col|]; simpl in Hc;
        [exact (ServerEffects.colorErrors_nil _ Hc) | exact Hcolor].
Qed.

Lemma updateCategory_keeps (id : string) (b : Resources.CategoryBody.t) (st : Store) :
  Invariant.consistent st ->
  Invariant.consistent (snd (Resources.updateCategory id b st)).
Proof.
  intros Hc.
  destruct (ServerEffects.updateCategory_store id b st)
    as [->|(c & Hfound & -> & Hdup & Herr)]; [exact Hc|].
  destruct Hc as (Husers & Htids & Htasks & Hpids & Hprojects & Hcids & Hnames & Hcats).
  destruct (findById_some _ _ _ _ Hfound) as [Hin Hid].
  unfold Invariant.consistent, Invariant.categoriesOk. simpl.
  repeat (split; [assumption|]).
  split; [|split].
  - rewrite Collections.replaceFirst_map; [exact Hcids|].
    intros d _ Hd. apply String.eqb_eq in Hd. simpl. congruence.
  - apply (Collections.replaceFirst_nodup Category._id Category.name); try assumption.
    intros d Hd Hne. simpl.
    destruct (Resources.CategoryBody.name b) as [s|] eqn:E.
    + exact (duplicateName_false _ _ _ Hdup d Hd Hne).
    + intros Heq. apply Hne.
      rewrite (Collections.nodup_map_inj Category.name _ d c Hnames Hd Hin Heq).
      exact Hid.
  - apply Collections.replaceFirst_forall; [exact Hcats|].
    apply applyCategoryUpdate_ok; [|exact Herr].
    exact (proj1 (Forall_forall _ _) Hcats c Hin).
Qed.

Lemma deleteCategory_keeps (id : string) (st : Store) :
  Invariant.consistent st -> Invariant.consistent (snd (Resources.deleteCategory id st)).
Proof.
  intros Hc.
  destruct (ServerEffects.deleteCategory_store id st) as [->| ->]; [exact Hc|].
  destruct Hc as (Husers & Htids & Htasks & Hpids & Hprojects & Hcids & Hnames & Hcats).
  unfold Invariant.consistent, Invariant.categoriesOk. simpl.
  repeat (split; [assumption|]).
  split; [apply Collections.removeFirst_nodup; exact Hcids|].
  split; [apply Collections.removeFirst_nodup; exact Hnames|].
  apply Collections.removeFirst_forall. exact Hcats.
Qed.

Lemma createProject_keeps (L : Library) (now : Z) (newId : ObjectId)
    (b : Resources.ProjectBody.t) (st : Store) :
  Invariant.consistent st ->
  Invariant.consistent (snd (Resources.createProject now newId b st)).
Proof.
  intros Hc.
  destruct (ServerEffects.createProject_store L now newId b st)
    as [->|(p & -> & Hid & Hfresh & Howner & Hempty)]; [exact Hc|].
  destruct Hc as (Husers & Htids & Htasks & Hpids & Hprojects & Hcats).
  unfold Invariant.consistent, Invariant.projectsOwned in *. simpl.
  repeat (split; [assumption|]).
  split; [|split; [|exact Hcats]].
  - apply Collections.nodup_app_fresh; [exact Hpids|].
    intros d Hd. rewrite Hid. exact (findById_none _ _ _ Hfresh d Hd).
  - apply Forall_app. split; [exact Hprojects|]. constructor; [auto | constructor].
Qed.

Lemma updateProject_keeps (L : Library) (id : string) (b : Resources.ProjectBody.t)
    (st : Store) :
  Invariant.consistent st ->
  Invariant.consistent (snd (Resources.updateProject id b st)).
Proof.
  intros Hc.
  destruct (ServerEffects.updateProject_store L id b st)
    as [->|(p & p' & Hfound & -> & Hid & Howner & Htasks')]; [exact Hc|].
  destruct Hc as (Husers & Htids & Htasks & Hpids & Hprojects & Hcats).
  destruct (findById_some _ _ _ _ Hfound) as [Hin Hid0].
  unfold Invariant.consistent, Invariant.projectsOwned in *. simpl.
  repeat (split; [assumption|]).
  split; [|split; [|exact Hcats]].
  - rewrite Collections.replaceFirst_map; [exact Hpids|].
    intros d _ Hd. apply String.eqb_eq in Hd. congruence.
  - apply Collections.replaceFirst_forall; [exact Hprojects|].
    rewrite Howner, Htasks'. exact (proj1 (Forall_forall _ _) Hprojects p Hin).
Qed.

Lemma deleteProject_keeps (id : string) (st : Store) :
  Invariant.consistent st -> Invariant.consistent (snd (Resources.deleteProject id st)).
Proof.
  intros Hc.
  destruct (ServerEffects.deleteProject_store id st) as [->| ->]; [exact Hc|].
  destruct Hc as (Husers & Htids & Htasks & Hpids & Hprojects & Hcats).
  unfold Invariant.consistent, Invariant.projectsOwned in *. simpl.
  repeat (split; [assumption|]).
  split; [apply Collections.removeFirst_nodup; exact Hpids|].
  split; [apply Collections.removeFirst_forall; exact Hprojects | exact Hcats].
Qed.

(** One request keeps the invariant of the store. *)
Lemma serve_consistent (L : Library) (c : Api.Call) (st : Store) :
  Invariant.consistent st -> Invariant.consistent (snd (Api.serve c st)).
Proof.
  intros Hc. unfold Api.serve.
  destruct c; cbv beta iota;
    match goal with
    | |- context [snd (let (r, st') := ?x in _)] =>
        let H := fresh in
        assert (H : snd (let (r, st') := x in (Http.status r, st')) = snd x)
          by (destruct x; reflexivity);
        rewrite H; clear H
    end.
  - rewrite ServerEffects.getUsers_store. exact Hc.
  - apply createUser_keeps, Hc.
  - apply updateUser_keeps, Hc.
  - apply deleteUser_keeps, Hc.
  - rewrite ServerEffects.getTasks_store. exact Hc.
  - apply createTask_keeps, Hc.
  - apply updateTask_keeps, Hc.
  - apply deleteTask_keeps, Hc.
  - rewrite ServerEffects.getCategories_store. exact Hc.
  - apply createCategory_keeps, Hc.
  - apply updateCategory_keeps, Hc.
  - apply deleteCategory_keeps, Hc.
  - rewrite ServerEffects.getProjects_store. exact Hc.
  - apply createProject_keeps, Hc.
  - apply updateProject_keeps, Hc.
  - apply deleteProject_keeps, Hc.
Qed.

(** Every sequence of requests keeps the invariant of the store. *)
Lemma run_consistent (L : Library) (calls : list Api.Call) (st : Store) :
  Invariant.consistent st -> Invariant.consistent (Api.run calls st).
Proof.
  unfold Api.run. revert st.
  induction calls as [|c r IH]; intros st Hc; simpl; [exact Hc|].
  apply IH, serve_consistent, Hc.
Qed.

End ServerInvariants.

(** X16.  In every store the single-file server reaches from an empty
    database by serving requests one after the other, the users have one
    document per id, per user name and per email, the categories one per
    id and per name, and the tasks and the projects one per id. *)
Theorem X16_unique_keys_hold_in_every_reachable_store
    (L : Library) (calls : list Api.Call) :
  let st := Api.run calls Api.empty in
  NoDup (map Server.User._id (Server.users st))
  /\ NoDup (map Server.User.username (Server.users st))
  /\ NoDup (map Server.User.email (Server.users st))
  /\ NoDup (map Server.Category._id (Server.categories st))
  /\ NoDup (map Server.Category.name (Server.categories st))
  /\ NoDup (map Server.Task._id (Server.tasks st))
  /\ NoDup (map Server.Project._id (Server.projects st)).
Proof.
  cbv zeta.
  destruct (ServerInvariants.run_consistent L calls Api.empty
              ServerInvariants.consistent_empty)
    as ((Hids & Hnames & Hmails) & Htids & _ & Hpids & _ & Hcids & Hcnames & _).
  repeat split; assumption.
Qed.

(** X17.  In every store the single-file server reaches from an empty
    database by serving requests one after the other, every task and every
    project names as [userId] the id of a stored user: creation checks the
    owner, an update cannot change it, and the deletion of a user removes
    what the user owns. *)
Theorem X17_every_owner_is_a_stored_user (L : Library) (calls : list Api.Call) :
  let st := Api.run calls Api.empty in
  Forall (fun t => exists u, In u (Server.users st)
                             /\ Server.User._id u = Server.Task.userId t)
         (Server.tasks st)
  /\ Forall (fun p => exists u, In u (Server.users st)
                                /\ Server.User._id u = Server.Project.userId p)
            (Server.projects st).
Proof.
  cbv zeta.
  destruct (ServerInvariants.run_consistent L calls Api.empty
              ServerInvariants.consistent_empty)
    as (_ & _ & Htasks & _ & Hprojects & _).
  split; apply Forall_forall.
  - intros t Ht. apply (proj1 (Forall_forall _ _) Htasks) in Ht.
    apply in_map_iff in Ht. destruct Ht as [u [Hu Hin]]. exists u. auto.
  - intros p Hp. apply (proj1 (Forall_forall _ _) Hprojects) in Hp.
    destruct Hp as [Hp _].
    apply in_map_iff in Hp. destruct Hp as [u [Hu Hin]]. exists u. auto.
Qed.

(** X18.  No route of the single-file server writes the [tasks] of a
    project: in every store reached from an empty database by serving
    requests one after the other, the task list of every project is
    empty. *)
Theorem X18_no_route_fills_the_tasks_of_a_project (L : Library) (calls : list Api.Call) :
  Forall (fun p => Server.Project.tasks p = [])
         (Server.projects (Api.run calls Api.empty)).
Proof.
  destruct (ServerInvariants.run_consistent L calls Api.empty
              ServerInvariants.consistent_empty)
    as (_ & _ & _ & _ & Hprojects & _).
  apply Forall_forall. intros p Hp.
  exact (proj2 (proj1 (Forall_forall _ _) Hprojects p Hp)).
Qed.

(** X19.  In every store the single-file server reaches from an empty
    database by serving requests one after the other, every category has a
    name of 1 to 50 characters, a description of at most 200 characters if
    it has one, and a colour that is either the empty string, which the
    [match] validator lets through, or a hash sign and six hexadecimal
    digits. *)
Theorem X19_stored_categories_pass_the_schema (L : Library) (calls : list Api.Call) :
  Forall (fun c =>
            Server.Category.name c <> ""
            /\ (String.length (Server.Category.name c) <= 50)%nat
            /\ match Server.Category.description c with
               | Some d => (String.length d <= 200)%nat
               | None => True
               end
            /\ (Server.Category.color c = ""
                \/ Resources.isHexColor (Server.Category.color c) = true))
         (Server.categories (Api.run calls Api.empty)).
Proof.
  destruct (ServerInvariants.run_consistent L calls Api.empty
              ServerInvariants.consistent_empty)
    as (_ & _ & _ & _ & _ & _ & _ & Hcats).
  exact Hcats.
Qed.

(** ** Listing categories and casting dates (single-file server) *)

Module CategoryLists.

Lemma insertBy_perm {A} (le : A -> A -> bool) (x : A) (l : list A) :
  Permutation (Server.insertBy le x l) (x :: l).
Proof.
  induction l as [|a r IH]; simpl; [apply Permutation_refl|].
  destruct (le x a); [apply Permutation_refl|].
  eapply Permutation_trans; [apply perm_skip, IH | apply perm_swap].
Qed.

Lemma sortByName_perm (l : list Server.Category.t) :
  Permutation (Resources.sortByName l) l.
Proof.
  unfold Resources.sortByName. induction l as [|a r IH]; simpl; [constructor|].
  eapply Permutation_trans; [apply insertBy_perm | apply perm_skip, IH].
Qed.

Lemma categories_sorted (l : list Server.Category.t) :
  Sorted (fun a b => String.leb (Server.Category.name a) (Server.Category.name b) = true)
         (Resources.sortByName l).
Proof.
  unfold Resources.sortByName. induction l as [|a r IH]; simpl; [constructor|].
  apply (Sorting.insertBy_sorted
           (fun a b => String.leb (Server.Category.name a) (Server.Category.name b))).
  - intros x y. apply String.leb_total.
  - exact IH.
Qed.

End CategoryLists.

(** X20.  [GET /api/categories] answers 200 with every stored category,
    each once, in the order of the names, and leaves the store as it
    is. *)
Theorem X20_categories_are_listed_by_name (st : Server.Store) :
  exists l,
    Resources.getCategories st
    = (Http.mkResponse 200 true None [] (Some (Resources.CategoriesData l)) [], st)
    /\ Permutation l (Server.categories st)
    /\ Sorted (fun a b =>
                 String.leb (Server.Category.name a) (Server.Category.name b) = true) l.
Proof.
  exists (Resources.sortByName (Server.categories st)).
  split; [reflexivity|].
  split; [apply CategoryLists.sortByName_perm | apply CategoryLists.categories_sorted].
Qed.

(** X21.  A due date that is not a date is answered differently by the two
    task routes of the single-file server.  [POST /api/tasks] of a body
    with a title, the id of a stored user and such a due date answers 400,
    "Validation Error", with the cast message among the errors;
    [PUT /api/tasks/:id] of a body with such a due date answers 500,
    whatever the id and the other members of the body.  Neither changes
    the store. *)
Theorem X21_invalid_due_date_is_400_on_create_and_500_on_update (L : Library)
    (now : Z) (newId : ObjectId) (id title userId s : string)
    (b : Server.TaskBody.t) (u : Server.User.t) (st : Server.Store) :
  s <> "" ->
  dateParse s = None ->
  Server.TaskBody.dueDate b = Some s ->
  Server.TaskBody.title b = Some title ->
  title <> "" ->
  Server.TaskBody.userId b = Some userId ->
  Server.castable userId = true ->
  findById Server.User._id userId (Server.users st) = Some u ->
  (let r := fst (Server.createTask now newId b st) in
   Http.status r = 400
   /\ Http.message r = Some "Validation Error"
   /\ In (JStr Server.castToDateFailed) (Http.errors r)
   /\ snd (Server.createTask now newId b st) = st)
  /\ Resources.updateTask now id b st
     = (Http.failure 500 "Internal Server Error", st).
Proof.
  intros Hs Hparse Hdue Htitle Hne Huser Hcast Hfound.
  assert (Hdate : Server.dueDateOf (Server.TaskBody.dueDate b) = Some None).
  { unfold Server.dueDateOf. rewrite Hdue.
    destruct (String.eqb_spec s "") as [E|_]; [contradiction|].
    simpl. rewrite Hparse. reflexivity. }
  split.
  - cbv zeta.
    unfold Server.createTask, Server.asyncHandler, Server.createTaskHandler.
    rewrite Htitle, Huser.
    destruct (String.eqb_spec title "") as [E|_]; [contradiction|].
    rewrite (Cascade.castable_nonempty userId Hcast). cbv beta iota delta [orb].
    unfold Server.User_findById, Server.bind, Server.castId, Server.gets, Server.ret.
    rewrite Hcast. cbv beta iota. rewrite Hfound. cbv beta iota.
    unfold Server.Task_create. rewrite Hdate. cbv beta iota zeta.
    destruct (Server.taskErrors title (Server.TaskBody.description b)
                (Js.orDefault (Server.TaskBody.priority b) "medium")
                (Js.orDefault (Server.TaskBody.status b) "pending") (Some None))
      as [|m ms] eqn:E.
    + exfalso. unfold Server.taskErrors in E. discriminate E.
    + unfold Server.throw. simpl.
      split; [reflexivity|]. split; [reflexivity|]. split; [|reflexivity].
      change (In (JStr Server.castToDateFailed) (map JStr (m :: ms))).
      rewrite <- E. apply in_map. unfold Server.taskErrors.
      apply in_or_app. left. simpl. auto.
  - unfold Resources.updateTask, Resources.asyncHandler, Resources.updateTaskHandler,
      Resources.Task_findByIdAndUpdate, Server.bind, Server.castId, Server.ret,
      Server.throw.
    rewrite Hdate.
    destruct (Server.castable id); reflexivity.
Qed.

Lemma X21_witness :
  let b := Server.TaskBody.mk (Some "Plan") None None None (Some "tomorrow")
             (Some Sample.uid1) in
  Http.status (fst (Server.createTask (L:=Sample.library) Sample.today Sample.id4 b
                      Sample.serverStore)) = 400
  /\ Http.status (fst (Resources.updateTask (L:=Sample.library) Sample.today Sample.id1 b
                         Sample.serverStore)) = 500.
Proof.
  cbv zeta.
  destruct (X21_invalid_due_date_is_400_on_create_and_500_on_update Sample.library
              Sample.today Sample.id4 Sample.id1 "Plan" Sample.uid1 "tomorrow"
              (Server.TaskBody.mk (Some "Plan") None None None (Some "tomorrow")
                 (Some Sample.uid1))
              Sample.alice Sample.serverStore)
    as [(Hcreate & _) Hupdate]; try reflexivity; try discriminate.
  split; [exact Hcreate|]. rewrite Hupdate. reflexivity.
Defined.

(** ** Validation and schema of a new task (middleware/validation.js,
    models/Task.js, routes/tasks.js) *)

Module Sufficiency.
Section Facts.
Context {L : Library}.



Section Common.
Variable now : Z.
Variable rules : list Validation.Chain.
Variable dueDateChecks : list (Validation.Validator * string).
Variable id : string.
Variable b : TaskRoutes.Body.t.
Hypothesis passes :
  Validation.validationResult now rules (TaskRoutes.request id b) = [].
Hypothesis common :
  forall c, In c (Validation.commonBody dueDateChecks) -> In c rules.





End Common.



End Facts.
End Sufficiency.



(** ** Updating one task (single-file server) *)

Module ServerUpdates.
Import Server.

Lemma replaceFirst_found {A} (idOf : A -> ObjectId) (id : ObjectId) (new old : A)
    (l : list A) :
  findById idOf id l = Some old ->
  idOf new = id ->
  findById idOf id (replaceFirst (fun d => (idOf d =? id)%string) new l) = Some new.
Proof.
  unfold findById. intros Hfound Hid.
  induction l as [|d r IH]; simpl in *; [discriminate|].
  destruct (idOf d =? id)%string eqn:E; simpl.
  - rewrite Hid, String.eqb_refl. reflexivity.
  - rewrite E. apply IH. exact Hfound.
Qed.

Lemma replaceFirst_other {A} (idOf : A -> ObjectId) (id id' : ObjectId) (new : A)
    (l : list A) :
  id' <> id ->
  idOf new = id ->
  findById idOf id' (replaceFirst (fun d => (idOf d =? id)%string) new l)
  = findById idOf id' l.
Proof.
  unfold findById. intros Hne Hid.
  induction l as [|d r IH]; simpl; [reflexivity|].
  destruct (idOf d =? id)%string eqn:E; simpl.
  - apply String.eqb_eq in E. rewrite Hid, E.
    destruct (id =? id')%string eqn:E'; [|reflexivity].
    apply String.eqb_eq in E'. congruence.
  - destruct (idOf d =? id')%string; [reflexivity | exact IH].
Qed.

(** An update answered 200 found the task and wrote the update of the
    body to it. *)
Lemma updateTask_ok (L : Library) (now : Z) (id : string) (b : TaskBody.t) (st : Store) :
  Http.status (fst (Resources.updateTask now id b st)) = 200 ->
  exists old,
    findById Task._id id (tasks st) = Some old
    /\ dueDateOf (TaskBody.dueDate b) <> Some None
    /\ Resources.updateTask now id b st
       = (Http.mkResponse 200 true (Some "Task updated successfully") []
            (Some (Resources.TaskData
                     (taskOut (users st)
                        (Resources.applyTaskUpdate now b (dueDateOf (TaskBody.dueDate b))
                           old)))) [],
          setTasks
            (replaceFirst (fun d => (Task._id d =? id)%string)
               (Resources.applyTaskUpdate now b (dueDateOf (TaskBody.dueDate b)) old)
               (tasks st)) st).
Proof.
  unfold Resources.updateTask, Resources.updateTaskHandler,
    Resources.Task_findByIdAndUpdate.
  ServerEffects.unfold_async.
  repeat ServerEffects.case_step; simpl; try discriminate;
    intros _; eexists; (split; [reflexivity|]); (split; [discriminate | reflexivity]).
Qed.

End ServerUpdates.

(** X23.  When [PUT /api/tasks/:id] of the single-file server answers 200,
    the task was stored and is stored still under the same id, with the
    same owner and [createdAt]: a [userId] in the body is ignored.
    [updatedAt] is the time of the request; [title], [description],
    [priority], [status] and the due date are those of the body where it
    gives them and unchanged where it does not; every other task finds its
    document as before, and the users, the categories and the projects are
    unchanged. *)
Theorem X23_server_update_keeps_the_owner (L : Library)
    (now : Z) (id : string) (b : Server.TaskBody.t) (st : Server.Store) :
  Http.status (fst (Resources.updateTask now id b st)) = 200 ->
  let st' := snd (Resources.updateTask now id b st) in
  exists old new,
    findById Server.Task._id id (Server.tasks st) = Some old
    /\ findById Server.Task._id id (Server.tasks st') = Some new
    /\ (Server.Task._id new = id
        /\ Server.Task.userId new = Server.Task.userId old
        /\ Server.Task.createdAt new = Server.Task.createdAt old
        /\ Server.Task.updatedAt new = now)
    /\ (Server.Task.title new
          = match Server.TaskBody.title b with
            | Some s => s
            | None => Server.Task.title old
            end
        /\ Server.Task.description new
           = match Server.TaskBody.description b with
             | Some s => Some s
             | None => Server.Task.description old
             end
        /\ Server.Task.priority new
           = match Server.TaskBody.priority b with
             | Some s => s
             | None => Server.Task.priority old
             end
        /\ Server.Task.status new
           = match Server.TaskBody.status b with
             | Some s => s
             | None => Server.Task.status old
             end)
    /\ (Js.truthy (Server.TaskBody.dueDate b) = false ->
          Server.Task.dueDate new = Server.Task.dueDate old)
    /\ (forall s, Server.TaskBody.dueDate b = Some s -> s <> "" ->
          Server.Task.dueDate new = dateParse s /\ dateParse s <> None)
    /\ Server.users st' = Server.users st
    /\ Server.categories st' = Server.categories st
    /\ Server.projects st' = Server.projects st
    /\ (forall id', id' <> id ->
          findById Server.Task._id id' (Server.tasks st')
          = findById Server.Task._id id' (Server.tasks st)).
Proof.
  intros Hok. cbv zeta.
  destruct (ServerUpdates.updateTask_ok L now id b st Hok) as (old & Hold & Hdate & Hrun).
  rewrite Hrun. simpl snd.
  destruct (findById_some _ _ _ _ Hold) as [_ Hid].
  exists old, (Resources.applyTaskUpdate now b (Server.dueDateOf (Server.TaskBody.dueDate b))
                 old).
  split; [exact Hold|].
  split; [simpl Server.tasks;
          apply (ServerUpdates.replaceFirst_found Server.Task._id id _ old);
          [exact Hold | exact Hid]|].
  split; [simpl; auto|].
  split; [simpl; auto|].
  split.
  { intros Hfalsy. simpl. unfold Server.dueDateOf, Js.truthy in *.
    destruct (Server.TaskBody.dueDate b) as [s|]; [|reflexivity].
    rewrite Hfalsy. reflexivity. }
  split.
  { intros s Hs Hne. unfold Server.dueDateOf in *. simpl. rewrite Hs in *.
    destruct (String.eqb_spec s "") as [E|_]; [contradiction|]. simpl in *.
    destruct (dateParse s) as [d|]; [split; [reflexivity | discriminate]|].
    exfalso. apply Hdate. reflexivity. }
  split; [reflexivity|]. split; [reflexivity|]. split; [reflexivity|].
  intros id' Hne. simpl Server.tasks.
  apply ServerUpdates.replaceFirst_other; [exact Hne | exact Hid].
Qed.

Lemma X23_witness :
  exists new,
    findById Server.Task._id Sample.id1
      (Server.tasks
         (snd (Resources.updateTask (L:=Sample.library) Sample.today Sample.id1
                 (Server.TaskBody.mk (Some "Renamed") None None (Some "completed") None
                    (Some Sample.uid2))
                 Sample.serverStore)))
    = Some new
    /\ Server.Task.title new = "Renamed"
    /\ Server.Task.userId new = Sample.uid1.
Proof.
  destruct (X23_server_update_keeps_the_owner Sample.library Sample.today Sample.id1
              (Server.TaskBody.mk (Some "Renamed") None None (Some "completed") None
                 (Some Sample.uid2))
              Sample.serverStore eq_refl)
    as (old & new & Hold & Hnew & (_ & Howner & _) & (Htitle & _) & _).
  exists new. split; [exact Hnew|]. split; [exact Htitle|].
  rewrite Howner. vm_compute in Hold.
  assert (E : forall x y : Server.Task.t, Some x = Some y -> x = y)
    by (intros x y H; injection H; auto).
  apply E in Hold. rewrite <- Hold. reflexivity.
Defined.

(** ** The task list of the single-file server *)

Module ServerPages.
Import Server.

Lemma sortNewestFirst_sorted {A} (createdAt : A -> Z) (l : list A) :
  Sorted (fun a b => createdAt b <= createdAt a) (sortNewestFirst createdAt l).
Proof.
  assert (H : Sorted (fun a b => (createdAt b <=? createdAt a) = true)
                     (sortNewestFirst createdAt l)).
  { unfold sortNewestFirst. induction l as [|a r IH]; simpl; [constructor|].
    apply (Sorting.insertBy_sorted (fun a b => createdAt b <=? createdAt a)).
    - intros x y. destruct (Z.leb_spec (createdAt y) (createdAt x)); [auto|].
      right. apply Z.leb_le. lia.
    - exact IH. }
  induction H as [|a r Hr IH Hhd]; constructor; [exact IH|].
  destruct Hhd as [|b r' Hb]; constructor. apply Z.leb_le. exact Hb.
Qed.

Lemma sortNewestFirst_in {A} (createdAt : A -> Z) (l : list A) (x : A) :
  In x (sortNewestFirst createdAt l) -> In x l.
Proof.
  unfold sortNewestFirst. induction l as [|a r IH]; simpl; [auto|].
  intros Hx. apply (Permutation_in _ (CategoryLists.insertBy_perm _ a _)) in Hx.
  destruct Hx as [->|Hx]; auto.
Qed.

Lemma fieldMatches_given (want : option string) (have s : string) :
  fieldMatches want have = true -> want = Some s -> s <> "" -> have = s.
Proof.
  unfold fieldMatches. intros H -> Hne.
  destruct (String.eqb_spec s "") as [E|_]; [contradiction|].
  simpl in H. apply String.eqb_eq. exact H.
Qed.

End ServerPages.

(** X24.  [GET /api/tasks] of the single-file server, on a page of at least
    1, a limit from 1 to 100 and an owner filter that is absent, empty or
    a well-formed id: the answer is 200 and the store is unchanged; the
    tasks of the page come newest first, there are at most [limit] of
    them, and each is a stored task that has the status, the priority and
    the owner the query asks for. *)
Theorem X24_server_task_page_is_newest_first_and_filtered
    (q : Server.ListQuery) (st : Server.Store) :
  1 <= Server.orZ (Server.pageOf q) 1 ->
  1 <= Server.orZ (Server.limitOf q) 10 <= 100 ->
  (forall s, Server.userIdOf q = Some s -> s <> "" -> Server.castable s = true) ->
  exists page,
    Server.getTasks q st
    = (Http.mkResponse 200 true None []
         (Some (Server.TasksData (map (Server.taskOut (Server.users st)) page)))
         (Http.pagination (fst (Server.getTasks q st))),
       st)
    /\ Sorted (fun a b => Server.Task.createdAt b <= Server.Task.createdAt a) page
    /\ Z.of_nat (List.length page) <= Server.orZ (Server.limitOf q) 10
    /\ Forall (fun t =>
                 In t (Server.tasks st)
                 /\ (forall s, Server.statusOf q = Some s -> s <> "" ->
                               Server.Task.status t = s)
                 /\ (forall s, Server.priorityOf q = Some s -> s <> "" ->
                               Server.Task.priority t = s)
                 /\ (forall s, Server.userIdOf q = Some s -> s <> "" ->
                               Server.Task.userId t = s))
              page.
Proof.
  intros Hp Hl Hcast.
  set (uid := match Server.userIdOf q with
              | Some s => if negb (s =? "")%string then Some s else None
              | None => None
              end).
  set (found := filter (Server.taskMatches q uid) (Server.tasks st)).
  set (page := firstn (Z.to_nat (Server.orZ (Server.limitOf q) 10))
                 (skipn (Z.to_nat (Server.skipOf q))
                    (Server.sortNewestFirst Server.Task.createdAt found))).
  assert (Hrun : Server.getTasks q st
                 = (Http.mkResponse 200 true None []
                      (Some (Server.TasksData (map (Server.taskOut (Server.users st)) page)))
                      (Server.paginationJSON q (Server.lengthZ found)), st)).
  { unfold Server.getTasks, Server.asyncHandler, Server.getTasksHandler,
      Server.castFilterId.
    assert (Hid : forall st0,
              match Server.userIdOf q with
              | Some s =>
                  if negb (s =? "")%string
                  then Server.bind (Server.castId s) (fun oid => Server.ret (Some oid))
                  else Server.ret None
              | None => Server.ret None
              end st0 = (Server.Return uid, st0)).
    { intros st0. unfold uid. destruct (Server.userIdOf q) as [s|] eqn:E; [|reflexivity].
      destruct (String.eqb_spec s "") as [->|Hne]; [reflexivity|]. simpl.
      unfold Server.bind, Server.castId. rewrite (Hcast s eq_refl Hne). reflexivity. }
    unfold Server.bind at 1. rewrite Hid.
    unfold Server.bind, Server.gets, Server.ret. cbv beta iota.
    rewrite Pagination.page_ok;
      [| apply Pagination.skipOf_nonneg; assumption
       | rewrite Pagination.limitNumber_exact; lia].
    rewrite (Pagination.limitNumber_exact q Hl).
    reflexivity. }
  exists page. split; [rewrite Hrun; reflexivity|].
  split.
  { unfold page. apply Sorting.sorted_firstn, Sorting.sorted_skipn.
    apply ServerPages.sortNewestFirst_sorted. }
  split.
  { unfold page.
    pose proof (firstn_le_length (Z.to_nat (Server.orZ (Server.limitOf q) 10))
                  (skipn (Z.to_nat (Server.skipOf q))
                     (Server.sortNewestFirst Server.Task.createdAt found))).
    lia. }
  apply Forall_forall. intros t Ht.
  assert (Hin : In t found).
  { apply (ServerPages.sortNewestFirst_in Server.Task.createdAt).
    unfold page in Ht.
    rewrite <- (firstn_skipn (Z.to_nat (Server.skipOf q))
                  (Server.sortNewestFirst Server.Task.createdAt found)).
    apply in_or_app. right.
    rewrite <- (firstn_skipn (Z.to_nat (Server.orZ (Server.limitOf q) 10))
                  (skipn (Z.to_nat (Server.skipOf q))
                     (Server.sortNewestFirst Server.Task.createdAt found))).
    apply in_or_app. left. exact Ht. }
  apply filter_In in Hin. destruct Hin as [Hstored Hmatch].
  unfold Server.taskMatches in Hmatch.
  apply andb_true_iff in Hmatch. destruct Hmatch as [Hmatch Howner].
  apply andb_true_iff in Hmatch. destruct Hmatch as [Hstatus Hpriority].
  split; [exact Hstored|].
  split; [intros s Hs Hne; exact (ServerPages.fieldMatches_given _ _ s Hstatus Hs Hne)|].
  split; [intros s Hs Hne; exact (ServerPages.fieldMatches_given _ _ s Hpriority Hs Hne)|].
  intros s Hs Hne. unfold uid in Howner. rewrite Hs in Howner.
  destruct (String.eqb_spec s "") as [E|_]; [contradiction|].
  simpl in Howner. apply String.eqb_eq. exact Howner.
Qed.

Lemma X24_witness :
  exists page,
    Server.getTasks (Sample.listQuery None None (Some Sample.uid1)) Sample.serverStore
    = (Http.mkResponse 200 true None []
         (Some (Server.TasksData (map (Server.taskOut (Server.users Sample.serverStore))
                                      page)))
         (Http.pagination
            (fst (Server.getTasks (Sample.listQuery None None (Some Sample.uid1))
                    Sample.serverStore))),
       Sample.serverStore)
    /\ Forall (fun t => Server.Task.userId t = Sample.uid1) page.
Proof.
  destruct (X24_server_task_page_is_newest_first_and_filtered
              (Sample.listQuery None None (Some Sample.uid1)) Sample.serverStore)
    as (page & Hrun & _ & _ & Hall).
  - simpl. lia.
  - simpl. lia.
  - intros s Hs _. simpl in Hs.
    assert (E : s = Sample.uid1) by congruence. subst s. reflexivity.
  - exists page. split; [exact Hrun|].
    apply Forall_forall. intros t Ht.
    destruct (proj1 (Forall_forall _ _) Hall t Ht) as (_ & _ & _ & Howner).
    apply (Howner Sample.uid1); [reflexivity | discriminate].
Defined.


